(** * Mighty Hike plotter: timing model, registry and result extraction

    A shallow embedding of [main.py]: the duration formatting, the [Person]
    timing model, the [People] registry and the two-stage page extraction,
    with the properties of the specification stated against them.

    Python values are modelled as follows: [int] is [Z]; [str] is [string]
    (characters are bytes, so the case mapping below is the ASCII one);
    an exception is a constructor of [exception] and code that can raise
    returns a [result]; the keyword dictionary is a [gmap string value]. *)

From Stdlib Require Import ZArith Lia List Ascii String DecimalString.
From Stdlib Require Import Sorting.Permutation Sorting.Sorted.
From stdpp Require Import base gmap list strings.

Import ListNotations.
Local Open Scope string_scope.
Local Open Scope list_scope.
Local Open Scope Z_scope.

(** ** Exceptions and the result monad *)

(** The subclasses of [Exception] that the program can meet. *)
Inductive exception : Type :=
| AttributeError
| IndexError
| KeyError
| TypeError
| ValueError
| RequestException
| RuntimeError (msg : string).

Inductive result (A : Type) : Type :=
| Ok (a : A)
| Raise (e : exception).

Arguments Ok {A} a.
Arguments Raise {A} e.

#[global] Instance result_ret : MRet result := fun A a => Ok a.

#[global] Instance result_bind : MBind result := fun A B k r =>
  match r with
  | Ok a => k a
  | Raise e => Raise e
  end.

Definition is_ok {A : Type} (r : result A) : bool :=
  match r with Ok _ => true | Raise _ => false end.

(** [try: ... except Exception as e: raise h e]. *)
Definition try_except {A : Type} (r : result A) (h : exception -> exception)
  : result A :=
  match r with
  | Ok a => Ok a
  | Raise e => Raise (h e)
  end.

(** ** Python built-ins used by the program *)

Module Py.

(** [str(n)] for an [int], also what [{:d}] and an f-string field print. *)
Definition str (n : Z) : string := NilZero.string_of_int (Z.to_int n).

Fixpoint repeat_char (c : ascii) (n : nat) : string :=
  match n with
  | O => EmptyString
  | S n' => String c (repeat_char c n')
  end.

(** Left padding of [s] with [c] up to [width] characters. *)
Definition rjust (width : nat) (c : ascii) (s : string) : string :=
  repeat_char c (width - String.length s) +:+ s.

(** ["{:d}".format(n)]. *)
Definition format_d (n : Z) : string := str n.

(** ["{:2d}".format(n)]: right-aligned in a field of width 2, filled with
    spaces. *)
Definition format_2d (n : Z) : string := rjust 2 " " (str n).

(** ["{:02d}".format(n)]: zero filled after the sign up to width 2. *)
Definition format_02d (n : Z) : string :=
  if n <? 0 then String "-" (rjust 1 "0" (str (- n)))
  else rjust 2 "0" (str n).

(** [min(xs)] on a list of [int]: raises [ValueError] on an empty list. *)
Fixpoint min_from (m : Z) (xs : list Z) : Z :=
  match xs with
  | [] => m
  | x :: xs' => min_from (if x <? m then x else m) xs'
  end.

Definition min (xs : list Z) : result Z :=
  match xs with
  | [] => Raise ValueError
  | x :: xs' => Ok (min_from x xs')
  end.

Fixpoint max_from (m : Z) (xs : list Z) : Z :=
  match xs with
  | [] => m
  | x :: xs' => max_from (if m <? x then x else m) xs'
  end.

(** [max(xs)] on a list of [int]. *)
Definition max (xs : list Z) : result Z :=
  match xs with
  | [] => Raise ValueError
  | x :: xs' => Ok (max_from x xs')
  end.

(** [s.split(" ")]: the maximal pieces between single spaces; never empty. *)
Fixpoint split_space (s : string) : list string :=
  match s with
  | EmptyString => [EmptyString]
  | String c s' =>
      if Ascii.eqb c " " then EmptyString :: split_space s'
      else match split_space s' with
           | [] => [String c EmptyString]
           | piece :: pieces => String c piece :: pieces
           end
  end.

(** [s.lower()] on a text of ASCII characters: the letters A to Z are
    lowered and every other character is kept. The case mapping of the
    characters outside ASCII is not modelled; statements that depend on it
    are restricted to ASCII texts. *)
Definition lower_char (c : ascii) : ascii :=
  let n := nat_of_ascii c in
  if ((65 <=? n) && (n <=? 90))%nat then ascii_of_nat (n + 32) else c.

Fixpoint lower (s : string) : string :=
  match s with
  | EmptyString => EmptyString
  | String c s' => String (lower_char c) (lower s')
  end.

(** [s.replace(" ", "_")]. *)
Fixpoint replace_space_underscore (s : string) : string :=
  match s with
  | EmptyString => EmptyString
  | String c s' =>
      String (if Ascii.eqb c " " then "_"%char else c)
             (replace_space_underscore s')
  end.

(** [xs[0]] on a list. *)
Definition item0 {A : Type} (xs : list A) : result A :=
  match xs with
  | [] => Raise IndexError
  | x :: _ => Ok x
  end.

(** [xs[1]] on a list. *)
Definition item1 {A : Type} (xs : list A) : result A :=
  match xs with
  | _ :: x :: _ => Ok x
  | _ => Raise IndexError
  end.

(** [xs[1:]]. *)
Definition slice_from1 {A : Type} (xs : list A) : list A := tl xs.

(** [xs[:2]]. *)
Definition slice_to2 {A : Type} (xs : list A) : list A := firstn 2 xs.

End Py.

(** ** [seconds_to_human_time] *)

Definition seconds_to_human_time (seconds : Z) : string :=
  let hours := seconds / 3600 in
  let minutes := (seconds mod 3600) / 60 in
  let seconds := seconds mod 60 in
  if negb (hours =? 0) then
    Py.format_d hours +:+ ":" +:+ Py.format_02d minutes +:+ ":"
      +:+ Py.format_02d seconds
  else if negb (minutes =? 0) then
    Py.format_2d minutes +:+ ":" +:+ Py.format_02d seconds
  else
    Py.format_2d seconds +:+ "s".

(** ** [datetime] and [timedelta] *)

(** A naive [datetime]: the proleptic ordinal of its date and its time of
    day. *)
Record datetime : Type := mk_datetime {
  dt_ordinal : Z;
  dt_hour : Z;
  dt_minute : Z;
  dt_second : Z;
  dt_microsecond : Z
}.

(** A normalised [timedelta]: [0 <= seconds < 86400] and
    [0 <= microseconds < 1000000], with the sign carried by [days]. *)
Record timedelta : Type := mk_timedelta {
  days : Z;
  seconds : Z;
  microseconds : Z
}.

(** [timedelta(days, seconds, microseconds)] with its normalisation. *)
Definition timedelta_new (d s us : Z) : timedelta :=
  let s' := s + us / 1000000 in
  {| days := d + s' / 86400;
     seconds := s' mod 86400;
     microseconds := us mod 1000000 |}.

(** [b - a] on two naive datetimes. *)
Definition datetime_sub (b a : datetime) : timedelta :=
  let secs (d : datetime) :=
    dt_second d + dt_minute d * 60 + dt_hour d * 3600 in
  timedelta_new (dt_ordinal b - dt_ordinal a) (secs b - secs a)
                (dt_microsecond b - dt_microsecond a).

(** [a <= b] on two naive datetimes: lexicographic on the fields. *)
Definition datetime_key (d : datetime) : list Z :=
  [dt_ordinal d; dt_hour d; dt_minute d; dt_second d; dt_microsecond d].

Fixpoint lex_leb (xs ys : list Z) : bool :=
  match xs, ys with
  | x :: xs', y :: ys' => (x <? y) || ((x =? y) && lex_leb xs' ys')
  | _, _ => true
  end.

Definition datetime_leb (a b : datetime) : bool :=
  lex_leb (datetime_key a) (datetime_key b).

(** [date(1900, 1, 1).toordinal()], the date [strptime] gives when the format
    has no date directive. *)
Definition ordinal_1900_01_01 : Z := 693596.

(** A time of day: what [strptime] returns for the format [%H:%M:%S]. *)
Definition time_of_day (h m s : Z) : datetime :=
  mk_datetime ordinal_1900_01_01 h m s 0.

Definition is_time_of_day (d : datetime) : Prop :=
  dt_ordinal d = ordinal_1900_01_01 /\
  0 <= dt_hour d < 24 /\ 0 <= dt_minute d < 60 /\ 0 <= dt_second d < 60 /\
  dt_microsecond d = 0.

(** Seconds since midnight. *)
Definition second_of_day (d : datetime) : Z :=
  dt_hour d * 3600 + dt_minute d * 60 + dt_second d.

(** *** [datetime.strptime] *)

Definition digit_val (c : ascii) : option Z :=
  let n := nat_of_ascii c in
  if ((48 <=? n) && (n <=? 57))%nat then Some (Z.of_nat n - 48) else None.

(** One numeric directive. The regular expression of a directive is an
    ordered alternative of two-digit forms followed by [\d]; when a two-digit
    form matches, the one-digit form cannot lead to a match of the rest,
    which starts with [:] or ends the pattern, so the first alternative that
    matches decides. [two d1 d2] says that the digits [d1 d2] are one of the
    two-digit forms. *)
Definition match_directive (two : Z -> Z -> bool) (s : string)
  : option (Z * string) :=
  match s with
  | EmptyString => None
  | String c1 rest1 =>
      match digit_val c1 with
      | None => None
      | Some d1 =>
          match rest1 with
          | String c2 rest2 =>
              match digit_val c2 with
              | Some d2 =>
                  if two d1 d2 then Some (d1 * 10 + d2, rest2)
                  else Some (d1, rest1)
              | None => Some (d1, rest1)
              end
          | EmptyString => Some (d1, rest1)
          end
      end
  end.

(** [%H] is [2[0-3]|[0-1]\d|\d]. *)
Definition two_H (d1 d2 : Z) : bool := ((d1 =? 2) && (d2 <=? 3)) || (d1 <=? 1).
(** [%M] is [[0-5]\d|\d]. *)
Definition two_M (d1 d2 : Z) : bool := d1 <=? 5.
(** [%S] is [6[0-1]|[0-5]\d|\d]. *)
Definition two_S (d1 d2 : Z) : bool := ((d1 =? 6) && (d2 <=? 1)) || (d1 <=? 5).

Definition expect_colon (s : string) : option string :=
  match s with
  | String c rest => if Ascii.eqb c ":" then Some rest else None
  | EmptyString => None
  end.

(** [datetime.strptime(s, "%H:%M:%S")] on a text of ASCII characters:
    [ValueError] when the text does not match, when text remains after the
    match, and when the seconds are 60 or 61 (accepted by the pattern,
    refused by the [datetime] constructor). The decimal digits outside
    ASCII, which the pattern of the program also matches, are not modelled;
    statements about the texts accepted are restricted to ASCII texts. *)
Definition strptime_HMS (s : string) : result datetime :=
  match match_directive two_H s with
  | None => Raise ValueError
  | Some (h, s1) =>
      match expect_colon s1 with
      | None => Raise ValueError
      | Some s2 =>
          match match_directive two_M s2 with
          | None => Raise ValueError
          | Some (m, s3) =>
              match expect_colon s3 with
              | None => Raise ValueError
              | Some s4 =>
                  match match_directive two_S s4 with
                  | Some (sec, EmptyString) =>
                      if sec <=? 59 then Ok (time_of_day h m sec)
                      else Raise ValueError
                  | _ => Raise ValueError
                  end
              end
          end
      end
  end.

(** ** The [Person] timing model *)

(** The values that reach the keyword dictionary ([dict[str, Any]]). *)
Inductive value : Type :=
| VStr (s : string)
| VInt (n : Z).

Record Person : Type := mk_Person {
  name : string;
  first_name : string;
  race_number : value;
  start : datetime;
  pitstop_1 : datetime;
  pitstop_2 : datetime;
  pitstop_3 : datetime;
  finish : datetime
}.

Definition default_time_format : string := "%H:%M:%S".

Section WithStrptime.

(** [datetime.strptime] for a format other than the default one. *)
Variable strptime_other : string -> string -> result datetime.

(** [datetime.strptime(date_string, format)]; both arguments must be
    [str]. *)
Definition strptime (date_string format : value) : result datetime :=
  match date_string, format with
  | VStr s, VStr f =>
      if String.eqb f default_time_format then strptime_HMS s
      else strptime_other s f
  | _, _ => Raise TypeError
  end.

(** [Person.__init__]. *)
Definition Person_init
  (name race_number start pitstop_1 pitstop_2 pitstop_3 finish : value)
  (time_format : value) : result Person :=
  name_str ← match name with
             | VStr s => Ok s
             | VInt _ => Raise AttributeError
             end;
  first ← Py.item0 (Py.split_space name_str);
  start' ← strptime start time_format;
  pitstop_1' ← strptime pitstop_1 time_format;
  pitstop_2' ← strptime pitstop_2 time_format;
  pitstop_3' ← strptime pitstop_3 time_format;
  finish' ← strptime finish time_format;
  Ok (mk_Person name_str first race_number
                start' pitstop_1' pitstop_2' pitstop_3' finish').

(** The parameters of [Person.__init__] that a keyword can bind. *)
Definition Person_params : list string :=
  ["name"; "race_number"; "start"; "pitstop_1"; "pitstop_2"; "pitstop_3";
   "finish"; "time_format"].

(** A required parameter looked up in the keywords. *)
Definition required (kwargs : gmap string value) (k : string)
  : result value :=
  match kwargs !! k with
  | Some v => Ok v
  | None => Raise TypeError
  end.

(** [Person] called with a keyword dictionary unpacked as its arguments:
    [TypeError] for a keyword that is no parameter (or is [self]) and for
    a missing required parameter. *)
Definition Person_kwargs (kwargs : gmap string value) : result Person :=
  if forallb (fun k => bool_decide (k ∈ Person_params))
             (map fst (map_to_list kwargs))
  then
    name ← required kwargs "name";
    race_number ← required kwargs "race_number";
    start ← required kwargs "start";
    pitstop_1 ← required kwargs "pitstop_1";
    pitstop_2 ← required kwargs "pitstop_2";
    pitstop_3 ← required kwargs "pitstop_3";
    finish ← required kwargs "finish";
    Person_init name race_number start pitstop_1 pitstop_2 pitstop_3 finish
      (default (VStr default_time_format) (kwargs !! "time_format"))
  else Raise TypeError.

End WithStrptime.

(** [Person.get_leg_time]. *)
Definition get_leg_time (self : Person) (leg_no : Z) : result Z :=
  match leg_no with
  | 1 => let time := datetime_sub (pitstop_1 self) (start self) in
         Ok (seconds time)
  | 2 => let time := datetime_sub (pitstop_2 self) (pitstop_1 self) in
         Ok (seconds time)
  | 3 => let time := datetime_sub (pitstop_3 self) (pitstop_2 self) in
         Ok (seconds time)
  | 4 => let time := datetime_sub (finish self) (pitstop_3 self) in
         Ok (seconds time)
  | _ => Raise ValueError
  end.

(** [Person.total_time]. *)
Definition total_time (self : Person) : Z :=
  let time := datetime_sub (finish self) (start self) in
  seconds time.

(** The expression both methods evaluate on a pair of timestamps:
    [(b - a).seconds]. *)
Definition Duration (a b : datetime) : Z := seconds (datetime_sub b a).

(** ** The [People] registry *)

(** [list.sort(key=...)] with [int] keys. The sort of Python is stable and
    orders by [<] on the keys, which fixes its result; the insertion sort
    below computes that result ([sort_by_key_unique]). *)
Section Sort.

Context {A : Type}.
Variable key : A -> Z.

Fixpoint insert_by_key (x : A) (l : list A) : list A :=
  match l with
  | [] => [x]
  | y :: l' =>
      if key y <? key x then y :: insert_by_key x l' else x :: y :: l'
  end.

Fixpoint sort_by_key (l : list A) : list A :=
  match l with
  | [] => []
  | x :: l' => insert_by_key x (sort_by_key l')
  end.

(** Ascending keys. *)
Definition key_le (x y : A) : Prop := key x <= key y.

(** The elements with key [k], in their order in [l]. *)
Definition with_key (k : Z) (l : list A) : list A :=
  List.filter (fun x => key x =? k) l.

End Sort.

Record People : Type := mk_People {
  people : list Person;
  use_first_name_in_plots : bool
}.

(** [People.__init__] (the tick formatter, which only the rendering uses,
    is left out). *)
Definition People_init (people : list Person) : People :=
  let people := sort_by_key total_time people in
  let set_of_names : gset string := list_to_set (map name people) in
  if bool_decide (size set_of_names = length people) then
    mk_People people true
  else
    mk_People people false.

(** The label of a participant in both bar charts:
    [person.first_name if self.use_first_name_in_plots else person.name]. *)
Definition plot_name (self : People) (person : Person) : string :=
  if use_first_name_in_plots self then first_name person else name person.

(** *** The bar charts

    The calls made on the axes are collected in order. Coordinates that the
    code scales by a float constant are recorded unscaled. *)
Inductive axes_call : Type :=
| Bar (label : string) (time : Z)
| Barh (label : string) (time : Z) (color : string)
| Text (index : Z) (time : Z) (s : string)
| TextGap (index : Z) (time : Z) (s : string)
| SetLim (lo hi : Z).

(** First loop of [plot_leg_as_bar]: returns [times] and the bars. *)
Fixpoint leg_bars (self : People) (leg_no : Z) (ps : list Person)
  (times : list Z) (calls : list axes_call)
  : result (list Z * list axes_call) :=
  match ps with
  | [] => Ok (times, calls)
  | person :: ps' =>
      time ← get_leg_time person leg_no;
      leg_bars self leg_no ps' (times ++ [time])
               (calls ++ [Bar (plot_name self person) time])
  end.

(** Second loop of [plot_leg_as_bar]. *)
Fixpoint leg_texts (leg_no : Z) (times : list Z) (i : Z) (ps : list Person)
  (calls : list axes_call) : result (list axes_call) :=
  match ps with
  | [] => Ok calls
  | person :: ps' =>
      time ← get_leg_time person leg_no;
      let calls := calls ++ [Text i time (seconds_to_human_time time)] in
      m ← Py.min times;
      if time =? m then leg_texts leg_no times (i + 1) ps' calls
      else
        m' ← Py.min times;
        leg_texts leg_no times (i + 1) ps'
          (calls ++ [TextGap i time ("+" +:+ seconds_to_human_time (time - m'))])
  end.

(** [People.plot_leg_as_bar], up to the limits of the time axis. *)
Definition plot_leg_as_bar (self : People) (leg_no : Z)
  : result (list axes_call) :=
  '(times, calls) ← leg_bars self leg_no (people self) [] [];
  calls ← leg_texts leg_no times 0 (people self) calls;
  lo ← Py.min times;
  hi ← Py.max times;
  Ok (calls ++ [SetLim lo hi]).

(** First loop of [plot_total_as_bar]. *)
Fixpoint total_bars (self : People) (i : Z) (ps : list Person)
  (times : list Z) (calls : list axes_call) : list Z * list axes_call :=
  match ps with
  | [] => (times, calls)
  | person :: ps' =>
      let time := total_time person in
      total_bars self (i + 1) ps' (times ++ [time])
        (calls ++ [Barh (plot_name self person) time ("C" +:+ Py.str i)])
  end.

(** Second loop of [plot_total_as_bar]. *)
Fixpoint total_texts (times : list Z) (i : Z) (ps : list Person)
  (calls : list axes_call) : result (list axes_call) :=
  match ps with
  | [] => Ok calls
  | person :: ps' =>
      let time := total_time person in
      let calls := calls ++ [Text i time (seconds_to_human_time time)] in
      m ← Py.min times;
      if time =? m then total_texts times (i + 1) ps' calls
      else
        m' ← Py.min times;
        total_texts times (i + 1) ps'
          (calls ++ [TextGap i time ("+" +:+ seconds_to_human_time (time - m'))])
  end.

(** [People.plot_total_as_bar], up to the limits of the time axis. *)
Definition plot_total_as_bar (self : People) : result (list axes_call) :=
  let '(times, calls) := total_bars self 0 (people self) [] [] in
  calls ← total_texts times 0 (people self) calls;
  lo ← Py.min times;
  hi ← Py.max times;
  Ok (calls ++ [SetLim lo hi]).

(** ** Parsed documents

    The tree that [BeautifulSoup(content, "html.parser")] builds: text nodes
    and tags with their attribute dictionary and children. *)
Module Bs4.

#[warnings="-register-all"] Inductive PageElement : Type :=
| NavigableString (s : string)
| Tag (tag_name : string) (attrs : list (string * string))
      (contents : list PageElement).

(** The attribute dictionary of a tag: the first binding of a key. *)
Fixpoint attr_get (k : string) (attrs : list (string * string))
  : option string :=
  match attrs with
  | [] => None
  | (k', v) :: attrs' => if String.eqb k' k then Some v else attr_get k attrs'
  end.

(** An element followed by its descendants, in document order. *)
Fixpoint self_and_descendants (e : PageElement) : list PageElement :=
  match e with
  | NavigableString _ => [e]
  | Tag _ _ cs => e :: flat_map self_and_descendants cs
  end.

Definition descendants (e : PageElement) : list PageElement :=
  match e with
  | NavigableString _ => []
  | Tag _ _ cs => flat_map self_and_descendants cs
  end.

(** The tags called [n] whose attributes satisfy [p]. *)
Definition is_tag (n : string) (p : list (string * string) -> bool)
  (e : PageElement) : bool :=
  match e with
  | NavigableString _ => false
  | Tag n' attrs _ => String.eqb n' n && p attrs
  end.

(** [e.find_all(n)]. *)
Definition find_all (n : string) (e : PageElement) : list PageElement :=
  List.filter (is_tag n (fun _ => true)) (descendants e).

(** [e.find_all(n, href=True)]: the tags that carry the attribute. *)
Definition find_all_with (n k : string) (e : PageElement)
  : list PageElement :=
  List.filter (is_tag n (fun attrs => bool_decide (is_Some (attr_get k attrs))))
              (descendants e).

(** [e.find(n)]: the first such tag or [None]. *)
Definition find (n : string) (e : PageElement) : option PageElement :=
  head (find_all n e).

(** [e.find(n, {k: v})]. *)
Definition find_attr (n k v : string) (e : PageElement)
  : option PageElement :=
  head (List.filter
          (is_tag n (fun attrs =>
                       match attr_get k attrs with
                       | Some v' => String.eqb v' v
                       | None => false
                       end))
          (descendants e)).

(** [e.get_text()]: the text nodes below [e], concatenated. *)
Definition get_text (e : PageElement) : string :=
  fold_right
    (fun d acc => match d with
                  | NavigableString s => s +:+ acc
                  | Tag _ _ _ => acc
                  end)
    "" (self_and_descendants e).

(** [e[k]] on a tag. *)
Definition getitem (e : PageElement) (k : string) : result string :=
  match e with
  | NavigableString _ => Raise TypeError
  | Tag _ attrs _ =>
      match attr_get k attrs with
      | Some v => Ok v
      | None => Raise KeyError
      end
  end.

(** A method called on the result of [find]: [AttributeError] on [None]. *)
Definition on_found {A : Type} (o : option PageElement)
  (k : PageElement -> result A) : result A :=
  match o with
  | Some e => k e
  | None => Raise AttributeError
  end.

End Bs4.

(** ** Result extraction *)

Inductive MightHikeLocation : Type :=
| Wye_Valley | Jurassic_Coast | Rob_Roy | Cornwall_Coast | Peak_District
| Thames_Path | Gower_Peninsula | Yorkshire_Dales | Giants_Causeway
| Lake_District | South_Coast | London | Eryri_Snowdonia | Norfolk_Coast.

Definition location_value (l : MightHikeLocation) : Z :=
  match l with
  | Wye_Valley => 20439
  | Jurassic_Coast => 20440
  | Rob_Roy => 20437
  | Cornwall_Coast => 20438
  | Peak_District => 20436
  | Thames_Path => 20435
  | Gower_Peninsula => 20434
  | Yorkshire_Dales => 20433
  | Giants_Causeway => 20432
  | Lake_District => 20431
  | South_Coast => 20430
  | London => 20429
  | Eryri_Snowdonia => 20428
  | Norfolk_Coast => 20427
  end.

Definition base_url : string := "https://results.resultsbase.net/".

Definition search_results_page_url (race_location : MightHikeLocation)
  (race_number : Z) : string :=
  base_url +:+ "Search.aspx?CId=8&RId=" +:+ Py.str (location_value race_location)
           +:+ "&S=" +:+ Py.str race_number.

(** The error every failure of one extraction is turned into. *)
Definition extraction_error (race_number : Z) : exception :=
  RuntimeError ("Could not find relevant data for race_number "
                +:+ Py.str race_number +:+ ".").

(** The normalised label of a row: lower case, spaces as underscores. *)
Definition normalise_label (label : string) : string :=
  Py.replace_space_underscore (Py.lower label).

(** One round of the loop over the rows of the timing table. *)
Definition row_pair (table_row : Bs4.PageElement) : result (string * string) :=
  let table_datas := Py.slice_to2 (Bs4.find_all "td" table_row) in
  cell0 ← Py.item0 table_datas;
  let key := normalise_label (Bs4.get_text cell0) in
  cell1 ← Py.item1 table_datas;
  let val := Bs4.get_text cell1 in
  Ok (key, val).

Fixpoint fill_data_dict (rows : list Bs4.PageElement)
  (data_dict : gmap string value) : result (gmap string value) :=
  match rows with
  | [] => Ok data_dict
  | table_row :: rows' =>
      '(key, val) ← row_pair table_row;
      fill_data_dict rows' (<[key := VStr val]> data_dict)
  end.

(** The line printed when a participant is built. *)
Definition success_message (race_number : Z) (person_name : string) : string :=
  "Succesfully parsed data for race number `" +:+ Py.str race_number
  +:+ "` -> " +:+ person_name +:+ ".".

Section Extraction.

(** [requests.get(url).content], or the exception of the transport. *)
Variable requests_get : string -> result string.
(** [BeautifulSoup(content, "html.parser")]. *)
Variable html_parser : string -> Bs4.PageElement.
Variable strptime_other : string -> string -> result datetime.
(** [print(line)]: writes the line on the standard output, or raises what
    the output raises (a [UnicodeEncodeError] for a character that its
    encoding lacks). *)
Variable print : string -> result unit.

(** Stage one, on the parsed search page: the name of the participant and
    the link to the page of the timings. *)
Definition locate (search_results_soup : Bs4.PageElement)
  : result (string * string) :=
  Bs4.on_found
    (Bs4.find_attr "table" "id" "ctl00_Content_Main_grdSearch"
                   search_results_soup)
    (fun result =>
       anchor ← Py.item0 (Bs4.find_all "a" result);
       let person_name := Bs4.get_text anchor in
       anchor_href ← Py.item0 (Bs4.find_all_with "a" "href" result);
       href_to_stats_page ← Bs4.getitem anchor_href "href";
       Ok (person_name, href_to_stats_page)).

(** The rows of the timing table without the header row. *)
Definition stats_rows (stats_page_soup : Bs4.PageElement)
  : result (list Bs4.PageElement) :=
  Bs4.on_found
    (Bs4.find_attr "div" "id" "ctl00_Content_Main_divSplitGrid"
                   stats_page_soup)
    (fun result =>
       Bs4.on_found (Bs4.find "table" result)
         (fun table => Ok (Py.slice_from1 (Bs4.find_all "tr" table)))).

(** Stage two, on the parsed page of the timings. *)
Definition parse_timings (person_name : string) (race_number : Z)
  (stats_page_soup : Bs4.PageElement) : result Person :=
  stats_table_rows ← stats_rows stats_page_soup;
  let data_dict : gmap string value :=
    <["race_number" := VInt race_number]> (<["name" := VStr person_name]> ∅) in
  data_dict ← fill_data_dict stats_table_rows data_dict;
  Person_kwargs strptime_other data_dict.

(** The body of the [try] block. *)
Definition generate_person_body (race_location : MightHikeLocation)
  (race_number : Z) : result Person :=
  search_results_page ←
    requests_get (search_results_page_url race_location race_number);
  let search_results_soup := html_parser search_results_page in
  '(person_name, href_to_stats_page) ← locate search_results_soup;
  let stats_page_url := base_url +:+ href_to_stats_page in
  stats_page_result ← requests_get stats_page_url;
  let stats_page_soup := html_parser stats_page_result in
  person ← parse_timings person_name race_number stats_page_soup;
  _ ← print (success_message race_number person_name);
  Ok person.

(** [generate_person_from_race_nubmer]. *)
Definition generate_person_from_race_nubmer
  (race_location : MightHikeLocation) (race_number : Z) : result Person :=
  try_except (generate_person_body race_location race_number)
             (fun _ => extraction_error race_number).

(** The loop of [generate_people_from_race_nubmers]. *)
Fixpoint collect_people (race_location : MightHikeLocation)
  (race_numbers : list Z) (people_list : list Person)
  : result (list Person) :=
  match race_numbers with
  | [] => Ok people_list
  | race_number :: race_numbers' =>
      person ← generate_person_from_race_nubmer race_location race_number;
      collect_people race_location race_numbers' (people_list ++ [person])
  end.

(** [generate_people_from_race_nubmers]. *)
Definition generate_people_from_race_nubmers
  (race_location : MightHikeLocation) (race_numbers : list Z)
  : result People :=
  people_list ← collect_people race_location race_numbers [];
  Ok (People_init people_list).

End Extraction.

(** ** The rest of the program *)

(** [MightHikeLocation(location_id)]: the member with that value, and
    [ValueError] when no member has it. *)
Definition MightHikeLocation_of (location_id : Z) : result MightHikeLocation :=
  match location_id with
  | 20439 => Ok Wye_Valley
  | 20440 => Ok Jurassic_Coast
  | 20437 => Ok Rob_Roy
  | 20438 => Ok Cornwall_Coast
  | 20436 => Ok Peak_District
  | 20435 => Ok Thames_Path
  | 20434 => Ok Gower_Peninsula
  | 20433 => Ok Yorkshire_Dales
  | 20432 => Ok Giants_Causeway
  | 20431 => Ok Lake_District
  | 20430 => Ok South_Coast
  | 20429 => Ok London
  | 20428 => Ok Eryri_Snowdonia
  | 20427 => Ok Norfolk_Coast
  | _ => Raise ValueError
  end.

(** [People.seconds_to_hours_mins], on an [int]. *)
Definition seconds_to_hours_mins (secs : Z) : string :=
  let hours := secs / 3600 in
  let minutes := (secs mod 3600) / 60 in
  Py.format_d hours +:+ ":" +:+ Py.format_02d minutes.

(** The loop of [People.plot] over the legs. *)
Fixpoint plot_legs (self : People) (leg_nos : list Z)
  (charts : list (list axes_call)) : result (list (list axes_call)) :=
  match leg_nos with
  | [] => Ok charts
  | leg_no :: leg_nos' =>
      chart ← plot_leg_as_bar self leg_no;
      plot_legs self leg_nos' (charts ++ [chart])
  end.

(** The axes that [People.plot] fills before it saves the figure: the charts
    of the four legs, then the chart of the totals. *)
Definition plot_axes (self : People) : result (list (list axes_call)) :=
  charts ← plot_legs self [1; 2; 3; 4] [];
  chart ← plot_total_as_bar self;
  Ok (charts ++ [chart]).

(** A call of the bound method [self.seconds_to_hours_mins] with the
    positional arguments [given]: the method takes one argument besides
    [self], and a call with any other number of arguments raises
    [TypeError]. *)
Definition call_seconds_to_hours_mins (given : list Z) : result string :=
  match given with
  | [secs] => Ok (seconds_to_hours_mins secs)
  | _ => Raise TypeError
  end.

(** [FuncFormatter(func)(x, pos)]: the formatter passes the value of the tick
    and its position to its function. *)
Definition FuncFormatter_call (func : list Z -> result string) (x pos : Z)
  : result string :=
  func [x; pos].

(** The tick formatter that [People.__init__] builds when it is given no
    [time_fmt_func], as every registry of the program is. *)
Definition time_formatter : Z -> Z -> result string :=
  FuncFormatter_call call_seconds_to_hours_mins.

(** The limits of the time axis of a chart: those set last, and the limits
    of an empty axis when none was set. *)
Definition chart_limits (chart : list axes_call) : Z * Z :=
  match last chart with
  | Some (SetLim lo hi) => (lo, hi)
  | _ => (0, 1)
  end.

(** The 15 ticks that each chart spreads evenly between the limits of its
    time axis (floats in the program, kept here as the integers below
    them). *)
Definition tick_values (chart : list axes_call) : list Z :=
  let '(lo, hi) := chart_limits chart in
  map (fun i => lo + (hi - lo) * Z.of_nat i / 14) (seq 0 15).

(** The labels of the ticks of one axis, made when the axis is drawn. *)
Fixpoint format_ticks (values : list Z) (pos : Z) : result (list string) :=
  match values with
  | [] => Ok []
  | x :: values' =>
      label ← time_formatter x pos;
      labels ← format_ticks values' (pos + 1);
      Ok (label :: labels)
  end.

(** [fig.savefig]: drawing the figure formats the ticks of the time axis of
    every chart. *)
Fixpoint savefig (charts : list (list axes_call))
  : result (list (list string)) :=
  match charts with
  | [] => Ok []
  | chart :: charts' =>
      labels ← format_ticks (tick_values chart) 0;
      rest ← savefig charts';
      Ok (labels :: rest)
  end.

(** [People.plot]: the axes are filled, then the figure is saved (and
    shown). *)
Definition plot (self : People) : result unit :=
  charts ← plot_axes self;
  _ ← savefig charts;
  Ok tt.

(** *** The prompts

    The console is the lines still to be typed and the prompts written so
    far. [input] raises [EOFError] when no line is left; the three functions
    call it outside their [try], so the exception ends them. *)
Record console : Type := mk_console {
  stdin : list string;
  stdout : list string
}.

Inductive interaction (A : Type) : Type :=
| Answer (a : A) (c : console)
| EndOfInput.

Arguments Answer {A} a c.
Arguments EndOfInput {A}.

(** [input(prompt)]. *)
Definition input (prompt : string) (c : console) : interaction string :=
  match stdin c with
  | [] => EndOfInput
  | line :: rest => Answer line (mk_console rest (stdout c ++ [prompt]))
  end.

Definition newline : string := String "010"%char "".

Definition location_prompt : string := "Enter the location id:" +:+ newline.
Definition location_retry_prompt : string :=
  "Could not find that location id." +:+ newline
  +:+ "Please enter a valid lcoation id:" +:+ newline.
Definition race_number_prompt : string := "Enter a race number:" +:+ newline.
Definition race_number_retry_prompt : string :=
  "Could not parse into an race_number." +:+ newline
  +:+ "Please enter a valid race number:" +:+ newline.
Definition add_more_prompt : string :=
  "Add more race nubmer/numbers? `Y`/[`N`])" +:+ newline.

Definition no_more_strings : list string :=
  [""; " "; "n"; "N"; "no"; "No"; "NO"].

Section Prompts.

(** [int(text)], with [ValueError] for a text that is no integer. *)
Variable int : string -> result Z.

(** The [try] of [ask_for_location]: the location read, or [None] when the
    body raised and the bare [except] took over. *)
Definition read_location (user_input : string) : option MightHikeLocation :=
  match int user_input with
  | Ok location_id =>
      match MightHikeLocation_of location_id with
      | Ok location => Some location
      | Raise _ => None
      end
  | Raise _ => None
  end.

(** The [try] of [ask_for_race_number], with its [assert] (assertions are
    enabled). *)
Definition read_race_number (user_input : string) : option Z :=
  match int user_input with
  | Ok race_number => if 0 <=? race_number then Some race_number else None
  | Raise _ => None
  end.

(** The [while] loop of [ask_for_location], by recursion on the lines to
    come. *)
Fixpoint ask_for_location_loop (ask_string : string) (lines : list string)
  (written : list string) : interaction MightHikeLocation :=
  match lines with
  | [] => EndOfInput
  | user_input :: lines' =>
      let written := written ++ [ask_string] in
      match read_location user_input with
      | Some location => Answer location (mk_console lines' written)
      | None => ask_for_location_loop location_retry_prompt lines' written
      end
  end.

(** [ask_for_location]. *)
Definition ask_for_location (c : console) : interaction MightHikeLocation :=
  ask_for_location_loop location_prompt (stdin c) (stdout c).

(** The [while] loop of [ask_for_race_number]. *)
Fixpoint ask_for_race_number_loop (ask_string : string) (lines : list string)
  (written : list string) : interaction Z :=
  match lines with
  | [] => EndOfInput
  | user_input :: lines' =>
      let written := written ++ [ask_string] in
      match read_race_number user_input with
      | Some race_number => Answer race_number (mk_console lines' written)
      | None => ask_for_race_number_loop race_number_retry_prompt lines' written
      end
  end.

(** [ask_for_race_number]. *)
Definition ask_for_race_number (c : console) : interaction Z :=
  ask_for_race_number_loop race_number_prompt (stdin c) (stdout c).

(** The [while] loop of [ask_for_race_numbers]; [None] when the rounds
    allowed are used up. *)
Fixpoint ask_for_race_numbers_loop (rounds : nat) (race_numbers : list Z)
  (c : console) : option (interaction (list Z)) :=
  match rounds with
  | O => None
  | S rounds' =>
      match ask_for_race_number c with
      | EndOfInput => Some EndOfInput
      | Answer race_number c1 =>
          let race_numbers := race_numbers ++ [race_number] in
          match input add_more_prompt c1 with
          | EndOfInput => Some EndOfInput
          | Answer add_more_user_input c2 =>
              if bool_decide (add_more_user_input ∈ no_more_strings)
              then Some (Answer race_numbers c2)
              else ask_for_race_numbers_loop rounds' race_numbers c2
          end
      end
  end.

(** [ask_for_race_numbers]: every round reads at least two lines, so one
    round more than there are lines is never used up. *)
Definition ask_for_race_numbers (c : console)
  : option (interaction (list Z)) :=
  ask_for_race_numbers_loop (S (length (stdin c))) [] c.

End Prompts.

(** [int] on the plain decimal numerals typed in the examples: digits with
    an optional minus sign. *)
Fixpoint digits_value (acc : Z) (s : string) : option Z :=
  match s with
  | EmptyString => Some acc
  | String c s' =>
      match digit_val c with
      | Some d => digits_value (acc * 10 + d) s'
      | None => None
      end
  end.

Definition decimal_int (s : string) : result Z :=
  match s with
  | EmptyString => Raise ValueError
  | String c s' =>
      if Ascii.eqb c "-" then
        match s', digits_value 0 s' with
        | String _ _, Some n => Ok (- n)
        | _, _ => Raise ValueError
        end
      else
        match digits_value 0 s with
        | Some n => Ok n
        | None => Raise ValueError
        end
  end.

(** * Vocabulary of the properties *)

(** The outcome that the specification gives to [Duration(a, b)], in its
    words: [b - a] as a whole number of seconds, and the failure
    [InvalidDuration] when [b < a]. *)
Inductive spec_duration : Type :=
| Seconds (d : Z)
| InvalidDuration.

Definition Duration_spec (a b : datetime) : spec_duration :=
  if datetime_leb a b then Seconds (second_of_day b - second_of_day a)
  else InvalidDuration.

(** The seconds from [a] to [b] carried into one day: the difference, plus
    one day when [b] is before [a]. *)
Definition wrapped_seconds (a b : datetime) : Z :=
  if datetime_leb a b then second_of_day b - second_of_day a
  else second_of_day b - second_of_day a + 86400.

(** The text holds ASCII characters only. The model and the program agree on
    such texts; digits and letters outside ASCII are not modelled. *)
Fixpoint is_ascii (s : string) : bool :=
  match s with
  | EmptyString => true
  | String c s' => (nat_of_ascii c <? 128)%nat && is_ascii s'
  end.

(** The digit [d] as a character. *)
Definition digit_char (d : Z) : ascii := ascii_of_nat (48 + Z.to_nat d).

(** [n] below 100 written with two digits. *)
Definition two_digits (n : Z) : string :=
  String (digit_char (n / 10)) (String (digit_char (n mod 10)) "").

(** [n] below 100 right-aligned in two columns. *)
Definition two_wide (n : Z) : string :=
  String (if n <? 10 then " "%char else digit_char (n / 10))
         (String (digit_char (n mod 10)) "").

(** A participant with the given name and five times of day. *)
Definition participant (n : string) (t0 t1 t2 t3 t4 : datetime) : Person :=
  mk_Person n (default "" (head (Py.split_space n))) (VInt 0) t0 t1 t2 t3 t4.

(** [get_leg_time(1) + get_leg_time(2) + get_leg_time(3) + get_leg_time(4)]. *)
Definition sum_of_legs (p : Person) : result Z :=
  t1 ← get_leg_time p 1;
  t2 ← get_leg_time p 2;
  t3 ← get_leg_time p 3;
  t4 ← get_leg_time p 4;
  Ok (t1 + t2 + t3 + t4).

(** The five timestamps are times of day. *)
Definition times_of_day (p : Person) : Prop :=
  is_time_of_day (start p) /\ is_time_of_day (pitstop_1 p) /\
  is_time_of_day (pitstop_2 p) /\ is_time_of_day (pitstop_3 p) /\
  is_time_of_day (finish p).

(** The invariant of the data model:
    start <= checkpoint 1 <= checkpoint 2 <= checkpoint 3 <= finish. *)
Definition in_order (p : Person) : bool :=
  datetime_leb (start p) (pitstop_1 p) &&
  datetime_leb (pitstop_1 p) (pitstop_2 p) &&
  datetime_leb (pitstop_2 p) (pitstop_3 p) &&
  datetime_leb (pitstop_3 p) (finish p).

(** The first token of a name delimited by a space: what precedes its first
    space. *)
Fixpoint first_token (s : string) : string :=
  match s with
  | EmptyString => EmptyString
  | String c s' =>
      if Ascii.eqb c " " then EmptyString else String c (first_token s')
  end.

Fixpoint has_space (s : string) : bool :=
  match s with
  | EmptyString => false
  | String c s' => Ascii.eqb c " " || has_space s'
  end.

(** A gap label shows the distance of its bar to [m]. *)
Definition gap_ok (m : Z) (c : axes_call) : Prop :=
  match c with
  | TextGap _ time s =>
      time <> m /\ s = "+" +:+ seconds_to_human_time (time - m)
  | _ => True
  end.

(** Pages of the shape the results site serves, for the examples. *)
Module Pages.
Import Bs4.

Definition text_cell (tag s : string) : PageElement :=
  Tag tag [] [NavigableString s].

(** A search page whose table lists the hits as (name, link). *)
Definition search_page (hits : list (string * string)) : PageElement :=
  Tag "[document]" []
    [Tag "table" [("id", "ctl00_Content_Main_grdSearch")]
       (Tag "tr" [] [text_cell "th" "Name"]
        :: map (fun '(n, link) =>
                  Tag "tr" [] [Tag "td" [] [Tag "a" [("href", link)]
                                                [NavigableString n]]])
               hits)].

Definition timing_row (row : string * string) : PageElement :=
  Tag "tr" [] [text_cell "td" (fst row); text_cell "td" (snd row)].

(** A page of timings whose table lists the rows as (label, time). *)
Definition stats_page (rows : list (string * string)) : PageElement :=
  Tag "[document]" []
    [Tag "div" [("id", "ctl00_Content_Main_divSplitGrid")]
       [Tag "table" []
          (Tag "tr" [] [text_cell "th" "Split"; text_cell "th" "Time"]
           :: map timing_row rows)]].

Definition rows_643 : list (string * string) :=
  [("Start", "08:00:00"); ("Pitstop 1", "09:15:30"); ("Pitstop 2", "10:40:00");
   ("Pitstop 3", "12:05:10"); ("Finish", "13:30:00")].

Definition rows_644 : list (string * string) :=
  [("Start", "08:00:00"); ("Pitstop 1", "09:10:00"); ("Pitstop 2", "10:35:00");
   ("Pitstop 3", "12:00:00"); ("Finish", "13:20:00")].

(** A site with three participants: 643 and 644 as in the scenario of the
    specification, and 645 whose timings carry one more row. The content
    of a page is a token that the parser maps to its tree. *)
Definition requests_get (url : string) : result string :=
  if String.eqb url (search_results_page_url Jurassic_Coast 643) then Ok "search 643"
  else if String.eqb url (search_results_page_url Jurassic_Coast 644) then Ok "search 644"
  else if String.eqb url (search_results_page_url Jurassic_Coast 645) then Ok "search 645"
  else if String.eqb url (base_url +:+ "Results.aspx?AId=643") then Ok "stats 643"
  else if String.eqb url (base_url +:+ "Results.aspx?AId=644") then Ok "stats 644"
  else if String.eqb url (base_url +:+ "Results.aspx?AId=645") then Ok "stats 645"
  else Raise RequestException.

Definition html_parser (content : string) : PageElement :=
  if String.eqb content "search 643" then
    search_page [("Alex Smith", "Results.aspx?AId=643")]
  else if String.eqb content "search 644" then
    search_page [("Bo Jones", "Results.aspx?AId=644")]
  else if String.eqb content "search 645" then
    search_page [("Cy Young", "Results.aspx?AId=645")]
  else if String.eqb content "stats 643" then stats_page rows_643
  else if String.eqb content "stats 644" then stats_page rows_644
  else if String.eqb content "stats 645" then
    stats_page (rows_643 ++ [("Gun Time", "05:30:00")])
  else Tag "[document]" [] [].

Definition strptime_other (s f : string) : result datetime :=
  Raise ValueError.

(** An output that takes every line. *)
Definition print (line : string) : result unit := Ok tt.

End Pages.

(** The rows of the search table that hold an anchor: the hits. *)
Definition hit_rows (search_results_soup : Bs4.PageElement)
  : list Bs4.PageElement :=
  match Bs4.find_attr "table" "id" "ctl00_Content_Main_grdSearch"
                      search_results_soup with
  | None => []
  | Some table =>
      List.filter (fun row => match Bs4.find_all "a" row with
                              | [] => false
                              | _ :: _ => true
                              end)
                  (Bs4.find_all "tr" table)
  end.

(** One field of a clock text: two digits, or one digit for a value below
    ten that is not padded. *)
Definition field_text (pad : bool) (n : Z) : string :=
  if pad || (10 <=? n) then two_digits n else String (digit_char n) "".

(** The clock texts: hours, minutes and seconds separated by colons. *)
Definition clock_text (pad_h pad_m pad_s : bool) (h m s : Z) : string :=
  field_text pad_h h +:+ ":" +:+ field_text pad_m m +:+ ":" +:+ field_text pad_s s.

(** Two timestamps that differ in their date at most. *)
Definition same_clock (a b : datetime) : Prop :=
  dt_hour a = dt_hour b /\ dt_minute a = dt_minute b /\
  dt_second a = dt_second b /\ dt_microsecond a = dt_microsecond b.

(** The text does not go on with a digit. *)
Definition no_digit_ahead (s : string) : Prop :=
  match s with
  | EmptyString => True
  | String c _ => digit_val c = None
  end.

(** The bars of the chart of the totals for the participants [ps], the
    first of which has index [i]. *)
Fixpoint total_bar_calls (self : People) (i : Z) (ps : list Person)
  : list axes_call :=
  match ps with
  | [] => []
  | p :: ps' =>
      Barh (plot_name self p) (total_time p) ("C" +:+ Py.str i)
      :: total_bar_calls self (i + 1) ps'
  end.

(** The labels of a chart: for each participant the time, and the gap to
    the best time [best] unless the time is the best. *)
Fixpoint label_calls (time_of : Person -> Z) (best : Z) (i : Z)
  (ps : list Person) : list axes_call :=
  match ps with
  | [] => []
  | p :: ps' =>
      let time := time_of p in
      (Text i time (seconds_to_human_time time)
       :: if time =? best then []
          else [TextGap i time ("+" +:+ seconds_to_human_time (time - best))])
      ++ label_calls time_of best (i + 1) ps'
  end.

(** The value of the last pair with label [k], if there is one. *)
Fixpoint last_value (k : string) (pairs : list (string * string))
  : option string :=
  match pairs with
  | [] => None
  | (k', v) :: pairs' =>
      match last_value k pairs' with
      | Some v' => Some v'
      | None => if String.eqb k' k then Some v else None
      end
  end.

(** The five timing fields of the constructor. *)
Definition timing_fields : list string :=
  ["start"; "pitstop_1"; "pitstop_2"; "pitstop_3"; "finish"].

Fixpoint has_upper (s : string) : bool :=
  match s with
  | EmptyString => false
  | String c s' =>
      let n := nat_of_ascii c in
      ((65 <=? n) && (n <=? 90))%nat || has_upper s'
  end.

(** A site with one participant, 643, whose page of timings is [stats]. *)
Definition one_get (url : string) : result string :=
  if String.eqb url (search_results_page_url Jurassic_Coast 643) then Ok "search"
  else if String.eqb url (base_url +:+ "timings") then Ok "timings"
  else Raise RequestException.

Definition one_parser (stats : Bs4.PageElement) (content : string)
  : Bs4.PageElement :=
  if String.eqb content "search" then
    Pages.search_page [("Alex Smith", "timings")]
  else stats.

(** * Properties *)

(** ** Formatting of durations *)

Lemma below_60_check (P : Z -> bool) :
  forallb P (map Z.of_nat (seq 0 60)) = true ->
  forall n, 0 <= n < 60 -> P n = true.
Proof.
  intros Hall n Hn.
  rewrite forallb_forall in Hall. apply Hall.
  apply in_map_iff. exists (Z.to_nat n). split; [lia|].
  apply in_seq. lia.
Qed.

Lemma format_02d_two_digits n :
  0 <= n < 60 -> Py.format_02d n = two_digits n.
Proof.
  intros Hn.
  apply String.eqb_eq.
  apply (below_60_check (fun n => String.eqb (Py.format_02d n) (two_digits n)));
    [vm_compute; reflexivity | exact Hn].
Qed.

Lemma format_2d_two_wide n :
  0 <= n < 60 -> Py.format_2d n = two_wide n.
Proof.
  intros Hn.
  apply String.eqb_eq.
  apply (below_60_check (fun n => String.eqb (Py.format_2d n) (two_wide n)));
    [vm_compute; reflexivity | exact Hn].
Qed.

(** C2, as the specification states it, fails below ten seconds: the seconds
    are right-aligned in two columns, so 0 is printed with a leading
    space. *)
Lemma seconds_to_human_time_zero_padded :
  seconds_to_human_time 0 = " 0s" /\ seconds_to_human_time 0 <> "0s".
Proof. split; [reflexivity | discriminate]. Qed.

(** C2 (amended): for a non-negative [s], the text is [H:MM:SS] from one
    hour on, [MM:SS] with the minutes right-aligned in two columns from one
    minute on, and below one minute the seconds right-aligned in two columns
    followed by [s]; 0 gives [" 0s"], and 59, 60, 3599, 3600 and 3661 give
    the texts of the specification. *)
Theorem seconds_to_human_time_shape (s : Z) :
  0 <= s ->
  (3600 <= s ->
   seconds_to_human_time s =
     Py.str (s / 3600) +:+ ":" +:+ two_digits (s mod 3600 / 60) +:+ ":"
       +:+ two_digits (s mod 60)) /\
  (60 <= s < 3600 ->
   seconds_to_human_time s = two_wide (s / 60) +:+ ":" +:+ two_digits (s mod 60)) /\
  (s < 60 -> seconds_to_human_time s = two_wide s +:+ "s") /\
  map seconds_to_human_time [0; 59; 60; 3599; 3600; 3661] =
    [" 0s"; "59s"; " 1:00"; "59:59"; "1:00:00"; "1:01:01"].
Proof.
  intros Hs.
  assert (Hm : 0 <= s mod 3600 / 60 < 60).
  { pose proof (Z.mod_pos_bound s 3600 ltac:(lia)).
    split; [apply Z.div_pos; lia | apply Z.div_lt_upper_bound; lia]. }
  assert (Hsec : 0 <= s mod 60 < 60) by (apply Z.mod_pos_bound; lia).
  unfold seconds_to_human_time.
  repeat split.
  - intros Hge.
    assert (s / 3600 <> 0).
    { pose proof (Z.div_le_lower_bound s 3600 1 ltac:(lia) ltac:(lia)). lia. }
    destruct (Z.eqb_spec (s / 3600) 0) as [|_]; [lia|]. simpl negb. cbv iota.
    rewrite !format_02d_two_digits by assumption. reflexivity.
  - intros [Hge Hlt].
    rewrite (Z.div_small s 3600) by lia. rewrite (Z.mod_small s 3600) by lia.
    simpl negb. cbv iota.
    assert (0 < s / 60) by (apply Z.div_str_pos; lia).
    destruct (Z.eqb_spec (s / 60) 0) as [|_]; [lia|]. simpl negb. cbv iota.
    rewrite Z.mod_small in Hm by lia.
    rewrite format_2d_two_wide, format_02d_two_digits by assumption.
    reflexivity.
  - intros Hlt.
    rewrite (Z.div_small s 3600) by lia. rewrite (Z.mod_small s 3600) by lia.
    rewrite (Z.div_small s 60) by lia. rewrite (Z.mod_small s 60) by lia.
    simpl negb. cbv iota.
    rewrite format_2d_two_wide by lia. reflexivity.
Qed.

Lemma seconds_to_human_time_shape_witness :
  seconds_to_human_time 3661 =
    Py.str (3661 / 3600) +:+ ":" +:+ two_digits (3661 mod 3600 / 60) +:+ ":"
      +:+ two_digits (3661 mod 60) /\
  seconds_to_human_time 60 = two_wide (60 / 60) +:+ ":" +:+ two_digits (60 mod 60) /\
  seconds_to_human_time 5 = two_wide 5 +:+ "s".
Proof.
  split; [|split].
  - apply (seconds_to_human_time_shape 3661); lia.
  - apply (seconds_to_human_time_shape 60); lia.
  - apply (seconds_to_human_time_shape 5); lia.
Defined.

(** ** Durations of a participant *)

Lemma datetime_leb_time_of_day a b :
  is_time_of_day a -> is_time_of_day b ->
  datetime_leb a b = (second_of_day a <=? second_of_day b).
Proof.
  destruct a as [oa ha ma sa ua], b as [ob hb mb sb ub].
  unfold is_time_of_day, datetime_leb, datetime_key, second_of_day; simpl.
  intros (-> & Hha & Hma & Hsa & ->) (-> & Hhb & Hmb & Hsb & ->).
  rewrite Z.ltb_irrefl, Z.eqb_refl. simpl.
  repeat match goal with
         | |- context [?x <? ?y] => destruct (Z.ltb_spec x y)
         | |- context [?x =? ?y] => destruct (Z.eqb_spec x y)
         | |- context [?x <=? ?y] => destruct (Z.leb_spec x y)
         end; simpl; try reflexivity; lia.
Qed.

Lemma Duration_time_of_day a b :
  is_time_of_day a -> is_time_of_day b ->
  Duration a b = (second_of_day b - second_of_day a) mod 86400.
Proof.
  destruct a as [oa ha ma sa ua], b as [ob hb mb sb ub].
  unfold is_time_of_day, Duration, datetime_sub, timedelta_new, second_of_day;
    simpl.
  intros (-> & _ & _ & _ & ->) (-> & _ & _ & _ & ->).
  rewrite Z.sub_diag. change (0 / 1000000) with 0.
  f_equal. lia.
Qed.

Lemma second_of_day_bounds a :
  is_time_of_day a -> 0 <= second_of_day a < 86400.
Proof.
  unfold is_time_of_day, second_of_day. intros (_ & ? & ? & ? & _). lia.
Qed.

(** The duration between two times of day, by cases on their order. *)
Lemma Duration_cases a b :
  is_time_of_day a -> is_time_of_day b ->
  Duration a b =
    if datetime_leb a b then second_of_day b - second_of_day a
    else second_of_day b - second_of_day a + 86400.
Proof.
  intros Ha Hb.
  rewrite Duration_time_of_day, datetime_leb_time_of_day by assumption.
  pose proof (second_of_day_bounds a Ha). pose proof (second_of_day_bounds b Hb).
  destruct (Z.leb_spec (second_of_day a) (second_of_day b)).
  - apply Z.mod_small. lia.
  - symmetry. apply (Z.mod_unique _ _ (-1)); lia.
Qed.

Lemma digit_val_bounds c v : digit_val c = Some v -> 0 <= v <= 9.
Proof.
  unfold digit_val.
  destruct (48 <=? nat_of_ascii c)%nat eqn:E1; [|discriminate].
  destruct (nat_of_ascii c <=? 57)%nat eqn:E2; [|discriminate].
  simpl. intros [= <-].
  apply Nat.leb_le in E1. apply Nat.leb_le in E2. lia.
Qed.

Lemma match_directive_bounds two bound t v r :
  10 <= bound ->
  (forall d1 d2, 0 <= d1 <= 9 -> 0 <= d2 <= 9 ->
                 two d1 d2 = true -> d1 * 10 + d2 < bound) ->
  match_directive two t = Some (v, r) -> 0 <= v < bound.
Proof.
  intros Hb Htwo. unfold match_directive.
  destruct t as [|c1 r1]; [discriminate|].
  destruct (digit_val c1) as [d1|] eqn:E1; [|discriminate].
  apply digit_val_bounds in E1.
  destruct r1 as [|c2 r2]; [intros [= <- <-]; lia|].
  destruct (digit_val c2) as [d2|] eqn:E2; [|intros [= <- <-]; lia].
  apply digit_val_bounds in E2.
  destruct (two d1 d2) eqn:E; intros [= <- <-]; [|lia].
  specialize (Htwo d1 d2 E1 E2 E). lia.
Qed.

(** What the default format parses is a time of day. *)
Lemma strptime_HMS_time_of_day s d :
  strptime_HMS s = Ok d -> is_time_of_day d.
Proof.
  unfold strptime_HMS.
  destruct (match_directive two_H s) as [[h s1]|] eqn:EH; [|discriminate].
  destruct (expect_colon s1) as [s2|]; [|discriminate].
  destruct (match_directive two_M s2) as [[m s3]|] eqn:EM; [|discriminate].
  destruct (expect_colon s3) as [s4|]; [|discriminate].
  destruct (match_directive two_S s4) as [[sec s5]|] eqn:ES; [|discriminate].
  destruct s5; [|discriminate].
  destruct (Z.leb_spec sec 59); [|discriminate].
  intros [= <-].
  apply (match_directive_bounds _ 24) in EH;
    [|lia|intros d1 d2 ? ?; unfold two_H; lia].
  apply (match_directive_bounds _ 60) in EM;
    [|lia|intros d1 d2 ? ?; unfold two_M; lia].
  apply (match_directive_bounds _ 62) in ES;
    [|lia|intros d1 d2 ? ?; unfold two_S; lia].
  unfold is_time_of_day, time_of_day; simpl. repeat split; lia.
Qed.

(** C1, as the specification states it, fails when the second time precedes
    the first: from 10:00:00 to 09:00:00 both the total and a leg are
    82800 seconds, and nothing is raised. *)
Lemma Duration_backwards_wraps :
  let a := time_of_day 10 0 0 in
  let b := time_of_day 9 0 0 in
  let p := participant "Alex Smith" a b b b b in
  datetime_leb a b = false /\
  Duration a b = 82800 /\
  total_time p = 82800 /\
  get_leg_time p 1 = Ok 82800.
Proof. repeat split. Qed.

(** C1 (amended): for two times of day [a] and [b], the duration that
    [total_time] computes for (start, finish) and [get_leg_time] for the two
    ends of a leg is [b - a] in whole seconds, not negative, when [a <= b];
    when [b < a] nothing is raised and the result is [b - a + 86400]. *)
Theorem Duration_same_day_or_wrapped (p : Person) (a b : datetime) :
  is_time_of_day a -> is_time_of_day b ->
  let d := if datetime_leb a b then second_of_day b - second_of_day a
           else second_of_day b - second_of_day a + 86400 in
  0 <= d < 86400 /\
  Duration a b = d /\
  (start p = a -> finish p = b -> total_time p = d) /\
  (start p = a -> pitstop_1 p = b -> get_leg_time p 1 = Ok d) /\
  (pitstop_1 p = a -> pitstop_2 p = b -> get_leg_time p 2 = Ok d) /\
  (pitstop_2 p = a -> pitstop_3 p = b -> get_leg_time p 3 = Ok d) /\
  (pitstop_3 p = a -> finish p = b -> get_leg_time p 4 = Ok d).
Proof.
  intros Ha Hb d.
  assert (Hd : Duration a b = d) by (apply Duration_cases; assumption).
  split.
  { subst d. rewrite datetime_leb_time_of_day by assumption.
    pose proof (second_of_day_bounds a Ha).
    pose proof (second_of_day_bounds b Hb).
    destruct (Z.leb_spec (second_of_day a) (second_of_day b)); lia. }
  split; [exact Hd|].
  rewrite <- Hd. unfold total_time, get_leg_time, Duration.
  repeat split; intros -> ->; reflexivity.
Qed.

Lemma Duration_same_day_or_wrapped_witness :
  let a := time_of_day 8 0 0 in
  let b := time_of_day 13 30 0 in
  let p := participant "Alex Smith" a (time_of_day 9 15 30)
             (time_of_day 10 40 0) (time_of_day 12 5 10) b in
  is_time_of_day a /\ is_time_of_day b /\
  total_time p = 19800 /\ Duration b a = 66600.
Proof.
  intros a b p.
  assert (Ha : is_time_of_day a) by (unfold is_time_of_day; simpl; lia).
  assert (Hb : is_time_of_day b) by (unfold is_time_of_day; simpl; lia).
  split; [exact Ha|]. split; [exact Hb|]. split.
  - apply (Duration_same_day_or_wrapped p a b Ha Hb); reflexivity.
  - apply (Duration_same_day_or_wrapped p b a Hb Ha).
Defined.

(** ** Legs *)

(** C3, as the specification states it, fails for timestamps out of order:
    with the first checkpoint before the start, the legs add up to a full
    day while the total is zero. *)
Lemma legs_exceed_total_when_out_of_order :
  let t10 := time_of_day 10 0 0 in
  let t9 := time_of_day 9 0 0 in
  let p := participant "Alex Smith" t10 t9 t9 t9 t10 in
  sum_of_legs p = Ok 86400 /\ total_time p = 0 /\
  sum_of_legs p <> Ok (total_time p).
Proof. repeat split. discriminate. Qed.

(** C3 (amended): for a participant whose five timestamps are times of day,
    the four legs add up to the total when the timestamps are in order
    (start <= checkpoint 1 <= checkpoint 2 <= checkpoint 3 <= finish); for
    any order the sum is a whole number of days more than the total. *)
Theorem legs_sum_to_total (p : Person) :
  times_of_day p ->
  exists t,
    sum_of_legs p = Ok t /\
    t mod 86400 = total_time p /\
    (in_order p = true -> t = total_time p).
Proof.
  intros (H0 & H1 & H2 & H3 & H4).
  exists (Duration (start p) (pitstop_1 p) + Duration (pitstop_1 p) (pitstop_2 p)
          + Duration (pitstop_2 p) (pitstop_3 p)
          + Duration (pitstop_3 p) (finish p)).
  split; [reflexivity|].
  change (total_time p) with (Duration (start p) (finish p)).
  split.
  - rewrite !Duration_time_of_day by assumption.
    set (x1 := second_of_day (pitstop_1 p) - second_of_day (start p)).
    set (x2 := second_of_day (pitstop_2 p) - second_of_day (pitstop_1 p)).
    set (x3 := second_of_day (pitstop_3 p) - second_of_day (pitstop_2 p)).
    set (x4 := second_of_day (finish p) - second_of_day (pitstop_3 p)).
    rewrite (Z.mod_eq x1 86400), (Z.mod_eq x2 86400), (Z.mod_eq x3 86400),
      (Z.mod_eq x4 86400) by lia.
    replace (x1 - 86400 * (x1 / 86400) + (x2 - 86400 * (x2 / 86400))
             + (x3 - 86400 * (x3 / 86400)) + (x4 - 86400 * (x4 / 86400)))
      with (second_of_day (finish p) - second_of_day (start p)
            + (- (x1 / 86400 + x2 / 86400 + x3 / 86400 + x4 / 86400)) * 86400)
      by lia.
    apply Z_mod_plus_full.
  - unfold in_order. rewrite !andb_true_iff. intros [[[L1 L2] L3] L4].
    rewrite !Duration_cases by assumption.
    rewrite L1, L2, L3, L4.
    rewrite datetime_leb_time_of_day in * by assumption.
    apply Z.leb_le in L1, L2, L3, L4.
    destruct (Z.leb_spec (second_of_day (start p)) (second_of_day (finish p)));
      lia.
Qed.

Lemma legs_sum_to_total_witness :
  let p := participant "Alex Smith" (time_of_day 8 0 0) (time_of_day 9 15 30)
             (time_of_day 10 40 0) (time_of_day 12 5 10) (time_of_day 13 30 0) in
  times_of_day p /\
  exists t, sum_of_legs p = Ok t /\ t mod 86400 = total_time p /\
            (in_order p = true -> t = total_time p).
Proof.
  intros p.
  assert (Hp : times_of_day p)
    by (unfold times_of_day, is_time_of_day; simpl; lia).
  split; [exact Hp|].
  exact (legs_sum_to_total p Hp).
Defined.

(** C7, as the specification states it, fails on a leg that ends before it
    starts: the duration of the specification fails there, and
    [get_leg_time] returns 82800 seconds. *)
Lemma get_leg_time_backwards_leg :
  let t9 := time_of_day 9 0 0 in
  let p := participant "Alex Smith" (time_of_day 10 0 0) t9 t9 t9 t9 in
  Duration_spec (start p) (pitstop_1 p) = InvalidDuration /\
  get_leg_time p 1 = Ok 82800.
Proof. split; reflexivity. Qed.

(** C7 (amended): for a participant whose timestamps are times of day,
    [get_leg_time] returns for the legs 1, 2, 3 and 4 the seconds from start
    to checkpoint 1, from checkpoint 1 to checkpoint 2, from checkpoint 2 to
    checkpoint 3 and from checkpoint 3 to finish: the difference in whole
    seconds when the leg ends no earlier than it starts, which is the
    duration of the specification, and the difference plus 86400, without a
    failure, when it ends earlier. For every other leg number it raises
    [ValueError]. *)
Theorem get_leg_time_wrapped_legs (p : Person) :
  times_of_day p ->
  get_leg_time p 1 = Ok (wrapped_seconds (start p) (pitstop_1 p)) /\
  get_leg_time p 2 = Ok (wrapped_seconds (pitstop_1 p) (pitstop_2 p)) /\
  get_leg_time p 3 = Ok (wrapped_seconds (pitstop_2 p) (pitstop_3 p)) /\
  get_leg_time p 4 = Ok (wrapped_seconds (pitstop_3 p) (finish p)) /\
  (forall d, Duration_spec (start p) (pitstop_1 p) = Seconds d ->
             get_leg_time p 1 = Ok d) /\
  (forall d, Duration_spec (pitstop_1 p) (pitstop_2 p) = Seconds d ->
             get_leg_time p 2 = Ok d) /\
  (forall d, Duration_spec (pitstop_2 p) (pitstop_3 p) = Seconds d ->
             get_leg_time p 3 = Ok d) /\
  (forall d, Duration_spec (pitstop_3 p) (finish p) = Seconds d ->
             get_leg_time p 4 = Ok d) /\
  (forall n, n <> 1 -> n <> 2 -> n <> 3 -> n <> 4 ->
             get_leg_time p n = Raise ValueError).
Proof.
  intros (H0 & H1 & H2 & H3 & H4).
  assert (Hleg : forall a b, is_time_of_day a -> is_time_of_day b ->
                             Ok (seconds (datetime_sub b a))
                             = Ok (wrapped_seconds a b) :> result Z).
  { intros a b Ha Hb. f_equal. apply (Duration_cases a b Ha Hb). }
  assert (Hspec : forall a b d, Duration_spec a b = Seconds d ->
                                wrapped_seconds a b = d).
  { intros a b d. unfold Duration_spec, wrapped_seconds.
    destruct (datetime_leb a b); [intros [= <-]; reflexivity|discriminate]. }
  assert (L1 : get_leg_time p 1 = Ok (wrapped_seconds (start p) (pitstop_1 p)))
    by (apply Hleg; assumption).
  assert (L2 : get_leg_time p 2 = Ok (wrapped_seconds (pitstop_1 p) (pitstop_2 p)))
    by (apply Hleg; assumption).
  assert (L3 : get_leg_time p 3 = Ok (wrapped_seconds (pitstop_2 p) (pitstop_3 p)))
    by (apply Hleg; assumption).
  assert (L4 : get_leg_time p 4 = Ok (wrapped_seconds (pitstop_3 p) (finish p)))
    by (apply Hleg; assumption).
  repeat (split; [assumption|]).
  repeat (split; [intros d Hd; apply Hspec in Hd; congruence|]).
  intros n N1 N2 N3 N4. unfold get_leg_time.
  destruct n as [|q|q]; try reflexivity.
  destruct q as [[r|r|]|[r|r|]|]; try reflexivity; try congruence;
    destruct r; try reflexivity; congruence.
Qed.

Lemma get_leg_time_wrapped_legs_witness :
  let p := participant "Alex Smith" (time_of_day 8 0 0) (time_of_day 9 15 30)
             (time_of_day 9 0 0) (time_of_day 12 5 10) (time_of_day 13 30 0) in
  times_of_day p /\
  get_leg_time p 1 = Ok 4530 /\
  get_leg_time p 2 = Ok 85470 /\
  get_leg_time p 5 = Raise ValueError /\
  get_leg_time p 0 = Raise ValueError /\
  get_leg_time p (-1) = Raise ValueError.
Proof.
  intros p.
  assert (Hp : times_of_day p)
    by (unfold times_of_day, is_time_of_day; simpl; lia).
  pose proof (get_leg_time_wrapped_legs p Hp)
    as (L1 & L2 & _ & _ & _ & _ & _ & _ & Hout).
  split; [exact Hp|]. split; [exact L1|]. split; [exact L2|].
  repeat split; apply Hout; discriminate.
Defined.

(** ** The order of the registry *)

Section SortFacts.

Context {A : Type}.
Variable key : A -> Z.

Lemma insert_by_key_perm x l : Permutation (x :: l) (insert_by_key key x l).
Proof.
  induction l as [|y l IH]; simpl; [reflexivity|].
  destruct (key y <? key x); [|reflexivity].
  rewrite perm_swap. apply perm_skip, IH.
Qed.

Lemma sort_by_key_perm l : Permutation l (sort_by_key key l).
Proof.
  induction l as [|x l IH]; simpl; [reflexivity|].
  rewrite <- insert_by_key_perm. apply perm_skip, IH.
Qed.

Lemma insert_by_key_sorted x l :
  StronglySorted (key_le key) l -> StronglySorted (key_le key) (insert_by_key key x l).
Proof.
  induction 1 as [|y l Hl IH Hy]; simpl.
  - repeat constructor.
  - destruct (Z.ltb_spec (key y) (key x)) as [Hlt|Hge].
    + constructor; [exact IH|].
      rewrite <- insert_by_key_perm. constructor; [unfold key_le; lia|exact Hy].
    + constructor; [constructor; assumption|].
      constructor; [exact Hge|].
      eapply Forall_impl; [exact Hy|]. unfold key_le. intros z ?; simpl in *. lia.
Qed.

Lemma sort_by_key_sorted l : StronglySorted (key_le key) (sort_by_key key l).
Proof.
  induction l as [|x l IH]; simpl; [constructor|].
  apply insert_by_key_sorted, IH.
Qed.

(** Inserting never moves an element past one with the same key. *)
Lemma insert_by_key_with_key k x l :
  with_key key k (insert_by_key key x l) = with_key key k (x :: l).
Proof.
  induction l as [|y l IH]; [reflexivity|].
  cbn [insert_by_key].
  destruct (Z.ltb_spec (key y) (key x)) as [Hlt|Hge]; [|reflexivity].
  unfold with_key in *. cbn [List.filter] in *. rewrite IH.
  destruct (Z.eqb_spec (key y) k), (Z.eqb_spec (key x) k);
    try reflexivity; lia.
Qed.

Lemma sort_by_key_with_key k l :
  with_key key k (sort_by_key key l) = with_key key k l.
Proof.
  induction l as [|x l IH]; [reflexivity|].
  cbn [sort_by_key]. rewrite insert_by_key_with_key.
  unfold with_key in *. cbn [List.filter]. rewrite IH. reflexivity.
Qed.

Lemma sorted_lookup l i j x y :
  StronglySorted (key_le key) l -> (i < j)%nat ->
  l !! i = Some x -> l !! j = Some y -> key x <= key y.
Proof.
  intros Hl. revert i j.
  induction Hl as [|z l Hl IH Hz]; intros i j Hij Hi Hj; [discriminate|].
  destruct j as [|j]; [lia|]. simpl in Hj.
  destruct i as [|i]; simpl in Hi.
  - injection Hi as ->.
    rewrite Forall_forall in Hz. apply Hz.
    eapply list_elem_of_lookup_2, Hj.
  - apply (IH i j); [lia|assumption..].
Qed.

(** A list in ascending key order is determined by its elements of each
    key in their order: the result of a stable sort is unique. *)
Lemma sorted_stable_unique l1 l2 :
  StronglySorted (key_le key) l1 -> StronglySorted (key_le key) l2 ->
  (forall k, with_key key k l1 = with_key key k l2) ->
  l1 = l2.
Proof.
  intros H1. revert l2.
  induction H1 as [|x l1 H1 IH Hx]; intros l2 H2 Heq.
  - destruct l2 as [|y l2]; [reflexivity|].
    specialize (Heq (key y)). unfold with_key in Heq. simpl in Heq.
    rewrite Z.eqb_refl in Heq. discriminate.
  - destruct l2 as [|y l2].
    { specialize (Heq (key x)). unfold with_key in Heq. simpl in Heq.
      rewrite Z.eqb_refl in Heq. discriminate. }
    assert (Hxy : key x = key y).
    { apply Z.le_antisymm.
      - pose proof (Heq (key y)) as E. unfold with_key in E.
        cbn [List.filter] in E. rewrite (Z.eqb_refl (key y)) in E.
        assert (Hin : In y (List.filter (fun z => key z =? key y) (x :: l1))).
        { cbn [List.filter]. rewrite E. left. reflexivity. }
        apply filter_In in Hin as [[->|Hin] _]; [lia|].
        rewrite Forall_forall in Hx. apply Hx, list_elem_of_In, Hin.
      - pose proof (Heq (key x)) as E. unfold with_key in E.
        cbn [List.filter] in E. rewrite (Z.eqb_refl (key x)) in E.
        assert (Hin : In x (List.filter (fun z => key z =? key x) (y :: l2))).
        { cbn [List.filter]. rewrite <- E. left. reflexivity. }
        apply filter_In in Hin as [[->|Hin] _]; [lia|].
        apply StronglySorted_inv in H2 as [_ Hy].
        rewrite Forall_forall in Hy. apply Hy, list_elem_of_In, Hin. }
    pose proof (Heq (key x)) as E. unfold with_key in E.
    cbn [List.filter] in E. rewrite Hxy in E at 3.
    rewrite !Z.eqb_refl in E. injection E as -> E.
    f_equal. apply IH.
    + apply StronglySorted_inv in H2 as [H2 _]. exact H2.
    + intros k. specialize (Heq k). unfold with_key in *.
      cbn [List.filter] in Heq.
      destruct (key y =? k); [injection Heq as Heq|]; exact Heq.
Qed.

(** Any stable sort by key computes [sort_by_key]. *)
Lemma sort_by_key_unique l l' :
  StronglySorted (key_le key) l' ->
  (forall k, with_key key k l' = with_key key k l) ->
  l' = sort_by_key key l.
Proof.
  intros Hs Hst. apply sorted_stable_unique; [exact Hs|apply sort_by_key_sorted|].
  intros k. rewrite sort_by_key_with_key. apply Hst.
Qed.

End SortFacts.

Lemma People_init_people l : people (People_init l) = sort_by_key total_time l.
Proof. unfold People_init. case_bool_decide; reflexivity. Qed.

(** C4: the registry that [People.__init__] builds is in ascending order of
    total time (for positions [i < j] the participant at [i] has a total not
    above that of the participant at [j]), holds the participants given, and
    keeps participants of equal total in their order in the input. *)
Theorem People_init_sorted_stable (l : list Person) :
  let registry := people (People_init l) in
  (forall i j pi pj,
      (i < j)%nat -> registry !! i = Some pi -> registry !! j = Some pj ->
      total_time pi <= total_time pj) /\
  Permutation l registry /\
  (forall t, with_key total_time t registry = with_key total_time t l).
Proof.
  intros registry. subst registry. rewrite People_init_people.
  split; [|split].
  - intros i j pi pj. apply sorted_lookup, sort_by_key_sorted.
  - apply sort_by_key_perm.
  - intros t. apply sort_by_key_with_key.
Qed.

Lemma People_init_sorted_stable_witness :
  let early := participant "Bo Jones" (time_of_day 8 0 0) (time_of_day 9 10 0)
                 (time_of_day 10 35 0) (time_of_day 12 0 0) (time_of_day 13 20 0) in
  let late := participant "Alex Smith" (time_of_day 8 0 0) (time_of_day 9 15 30)
                (time_of_day 10 40 0) (time_of_day 12 5 10) (time_of_day 13 30 0) in
  let tied := participant "Cy Tied" (time_of_day 9 0 0) (time_of_day 10 0 0)
                (time_of_day 11 0 0) (time_of_day 12 0 0) (time_of_day 14 30 0) in
  people (People_init [late; tied; early]) = [early; late; tied] /\
  total_time early <= total_time late.
Proof.
  intros early late tied.
  split; [reflexivity|].
  apply (proj1 (People_init_sorted_stable [late; tied; early]) 0%nat 1%nat);
    [lia | reflexivity | reflexivity].
Defined.

(** ** Names in the charts *)

Lemma first_token_prefix s :
  has_space (first_token s) = false /\
  (s = first_token s \/ exists rest, s = first_token s +:+ " " +:+ rest).
Proof.
  induction s as [|c s [IH1 IH2]]; simpl; [auto|].
  destruct (Ascii.eqb_spec c " ") as [->|Hc]; simpl.
  - split; [reflexivity|]. right. exists s. reflexivity.
  - apply Ascii.eqb_neq in Hc. rewrite Hc, IH1. split; [reflexivity|].
    destruct IH2 as [IH2|[rest IH2]].
    + left. f_equal. exact IH2.
    + right. exists rest. rewrite IH2 at 1. reflexivity.
Qed.

Lemma split_space_first s : Py.item0 (Py.split_space s) = Ok (first_token s).
Proof.
  induction s as [|c s IH]; simpl; [reflexivity|].
  destruct (Ascii.eqb c " "); [reflexivity|].
  destruct (Py.split_space s) as [|piece pieces]; [discriminate|].
  simpl in *. congruence.
Qed.

Lemma bind_Ok {A B : Type} (r : result A) (k : A -> result B) (b : B) :
  r ≫= k = Ok b -> exists a, r = Ok a /\ k a = Ok b.
Proof. destruct r as [a|e]; [eauto|discriminate]. Qed.

(** What the constructor stores as the name and the first name. *)
Lemma Person_init_names so nm rn t0 t1 t2 t3 t4 tf p :
  Person_init so nm rn t0 t1 t2 t3 t4 tf = Ok p ->
  nm = VStr (name p) /\ first_name p = first_token (name p).
Proof.
  unfold Person_init. intros H.
  apply bind_Ok in H as (n & Hn & H).
  destruct nm as [s|z]; [injection Hn as ->|discriminate].
  rewrite split_space_first in H. simpl in H.
  repeat (apply bind_Ok in H as (? & _ & H)).
  injection H as <-. simpl. auto.
Qed.

(** The size of the set of a list against the length of the list. *)
Lemma size_list_to_set_le (l : list string) :
  (size (list_to_set l : gset string) <= length l)%nat.
Proof.
  induction l as [|x l IH].
  - rewrite list_to_set_nil, size_empty. simpl. lia.
  - rewrite list_to_set_cons, size_union_alt, size_singleton. cbn [length].
    assert (size (list_to_set l ∖ {[x]} : gset string)
            <= size (list_to_set l : gset string))%nat
      by (apply subseteq_size, subseteq_difference_l; reflexivity).
    lia.
Qed.

Lemma size_list_to_set_NoDup (l : list string) :
  size (list_to_set l : gset string) = length l <-> NoDup l.
Proof.
  split; [|apply size_list_to_set].
  induction l as [|x l IH]; [constructor|].
  rewrite list_to_set_cons. cbn [length]. intros Hsize.
  assert (Hx : x ∉ l).
  { intros Hin.
    assert (E : ({[x]} ∪ list_to_set l : gset string) = list_to_set l).
    { apply subseteq_union_1_L, singleton_subseteq_l, elem_of_list_to_set, Hin. }
    rewrite E in Hsize. pose proof (size_list_to_set_le l). lia. }
  apply NoDup_cons. split; [exact Hx|].
  apply IH.
  rewrite size_union, size_singleton in Hsize; [lia|].
  apply disjoint_singleton_l. rewrite elem_of_list_to_set. exact Hx.
Qed.

Lemma People_init_flag l :
  use_first_name_in_plots (People_init l) = true <->
  NoDup (map name (people (People_init l))).
Proof.
  rewrite People_init_people. unfold People_init.
  rewrite <- size_list_to_set_NoDup, length_map.
  case_bool_decide; simpl; split; intros; congruence.
Qed.

(** C6: [use_first_name_in_plots] is set exactly when the names in the
    registry are pairwise distinct; a participant is shown by the first
    token of the name (what precedes the first space) when the flag is set
    and by the full name otherwise; two participants both called
    "Alex Smith" clear the flag and are both shown by the full name. *)
Theorem use_first_name_iff_names_distinct (l : list Person) :
  let registry := People_init l in
  (use_first_name_in_plots registry = true <->
   forall i j pi pj,
     i <> j -> people registry !! i = Some pi -> people registry !! j = Some pj ->
     name pi <> name pj) /\
  (forall so nm rn t0 t1 t2 t3 t4 tf p,
      Person_init so nm rn t0 t1 t2 t3 t4 tf = Ok p ->
      nm = VStr (name p) /\
      plot_name registry p =
        if use_first_name_in_plots registry then first_token (name p)
        else name p) /\
  (forall p q,
      l = [p; q] -> name p = "Alex Smith" -> name q = "Alex Smith" ->
      use_first_name_in_plots registry = false /\
      plot_name registry p = "Alex Smith" /\
      plot_name registry q = "Alex Smith").
Proof.
  intros registry.
  assert (Hflag : use_first_name_in_plots registry = true <->
                  forall i j pi pj,
                    i <> j -> people registry !! i = Some pi ->
                    people registry !! j = Some pj -> name pi <> name pj).
  { subst registry. rewrite People_init_flag, NoDup_alt. split.
    - intros H i j pi pj Hij Hi Hj Heq. apply Hij.
      apply (H i j (name pi)); rewrite list_lookup_fmap.
      + rewrite Hi. reflexivity.
      + rewrite Hj, Heq. reflexivity.
    - intros H i j x Hi Hj. rewrite list_lookup_fmap in Hi, Hj.
      destruct (people (People_init l) !! i) as [pi|] eqn:Ei; [|discriminate].
      destruct (people (People_init l) !! j) as [pj|] eqn:Ej; [|discriminate].
      injection Hi as Hi. injection Hj as Hj.
      destruct (decide (i = j)) as [|Hne]; [assumption|].
      exfalso. apply (H i j pi pj Hne Ei Ej). congruence. }
  split; [exact Hflag|]. split.
  - intros so nm rn t0 t1 t2 t3 t4 tf p Hp.
    apply Person_init_names in Hp as [Hnm Hfirst].
    split; [exact Hnm|]. unfold plot_name. rewrite Hfirst. reflexivity.
  - intros p q -> Hp Hq.
    assert (Hoff : use_first_name_in_plots registry = false).
    { apply not_true_is_false. intros E'. pose proof (proj1 Hflag E') as E.
      clear Hflag E'. subst registry. rewrite People_init_people in E.
      cbn [sort_by_key insert_by_key] in E.
      destruct (total_time q <? total_time p).
      - apply (E 0%nat 1%nat q p); [lia|reflexivity|reflexivity|congruence].
      - apply (E 0%nat 1%nat p q); [lia|reflexivity|reflexivity|congruence]. }
    unfold plot_name. rewrite Hoff. auto.
Qed.

Lemma use_first_name_iff_names_distinct_witness :
  let alex := participant "Alex Smith" (time_of_day 8 0 0) (time_of_day 9 15 30)
                (time_of_day 10 40 0) (time_of_day 12 5 10) (time_of_day 13 30 0) in
  let twin := participant "Alex Smith" (time_of_day 8 0 0) (time_of_day 9 10 0)
                (time_of_day 10 35 0) (time_of_day 12 0 0) (time_of_day 13 20 0) in
  use_first_name_in_plots (People_init [alex; twin]) = false /\
  plot_name (People_init [alex; twin]) alex = "Alex Smith" /\
  plot_name (People_init [alex; twin]) twin = "Alex Smith".
Proof.
  intros alex twin.
  apply (proj2 (proj2 (use_first_name_iff_names_distinct [alex; twin])) alex twin);
    reflexivity.
Defined.

(** ** The best time of a chart *)

Lemma min_from_spec m xs :
  Py.min_from m xs ∈ m :: xs /\
  forall x, x ∈ m :: xs -> Py.min_from m xs <= x.
Proof.
  revert m. induction xs as [|y xs IH]; intros m; simpl.
  - split; [left|]. intros x Hx. apply list_elem_of_singleton in Hx. lia.
  - destruct (IH (if y <? m then y else m)) as [Hin Hle]. split.
    + apply elem_of_cons in Hin as [->|Hin].
      * destruct (y <? m); [right; left | left].
      * right; right; exact Hin.
    + intros x Hx.
      assert (Hmin : Py.min_from (if y <? m then y else m) xs
                     <= (if y <? m then y else m)) by (apply Hle; left).
      apply elem_of_cons in Hx as [->|Hx];
        [|apply elem_of_cons in Hx as [->|Hx]].
      * destruct (Z.ltb_spec y m); lia.
      * destruct (Z.ltb_spec y m); lia.
      * apply Hle. right. exact Hx.
Qed.

Lemma min_spec xs m :
  Py.min xs = Ok m -> m ∈ xs /\ forall x, x ∈ xs -> m <= x.
Proof.
  destruct xs as [|x xs]; [discriminate|].
  simpl. intros [= <-]. apply min_from_spec.
Qed.

Lemma min_nonempty xs : xs <> [] -> exists m, Py.min xs = Ok m.
Proof. destruct xs; [congruence|]. simpl. eauto. Qed.

Lemma max_nonempty xs : xs <> [] -> exists m, Py.max xs = Ok m.
Proof. destruct xs; [congruence|]. simpl. eauto. Qed.

Lemma total_bars_spec self ps : forall i times calls m,
  fst (total_bars self i ps times calls) = times ++ map total_time ps /\
  (Forall (gap_ok m) calls ->
   Forall (gap_ok m) (snd (total_bars self i ps times calls))).
Proof.
  induction ps as [|p ps IH]; intros i times calls m; simpl.
  - rewrite app_nil_r. auto.
  - destruct (IH (i + 1) (times ++ [total_time p])
                (calls ++ [Barh (plot_name self p) (total_time p)
                                ("C" +:+ Py.str i)]) m) as [E F].
    rewrite E, <- app_assoc. split; [reflexivity|].
    intros Hc. apply F. apply Forall_app. split; [exact Hc|].
    repeat constructor.
Qed.

Lemma total_texts_spec times m ps : forall i calls,
  Py.min times = Ok m ->
  Forall (gap_ok m) calls ->
  exists calls', total_texts times i ps calls = Ok calls' /\
                 Forall (gap_ok m) calls'.
Proof.
  intros i calls Hm. revert i calls.
  induction ps as [|p ps IH]; intros i calls Hc; simpl; [eauto|].
  rewrite Hm. simpl.
  destruct (Z.eqb_spec (total_time p) m) as [E|E].
  - apply IH. apply Forall_app. split; [exact Hc|]. repeat constructor.
  - apply IH. repeat (apply Forall_app; split); try exact Hc;
      repeat constructor; assumption.
Qed.

Section LegLoops.

Variable self : People.
Variable leg_no : Z.
Variable selector : Person -> Z.
Hypothesis selector_ok : forall p, get_leg_time p leg_no = Ok (selector p).

Lemma leg_bars_spec ps : forall times calls m,
  exists calls',
    leg_bars self leg_no ps times calls
    = Ok (times ++ map selector ps, calls') /\
    (Forall (gap_ok m) calls -> Forall (gap_ok m) calls').
Proof.
  induction ps as [|p ps IH]; intros times calls m; simpl.
  - rewrite app_nil_r. eauto.
  - rewrite selector_ok. simpl.
    destruct (IH (times ++ [selector p])
                (calls ++ [Bar (plot_name self p) (selector p)]) m)
      as (calls' & E & F).
    exists calls'. rewrite E, <- app_assoc. split; [reflexivity|].
    intros Hc. apply F. apply Forall_app. split; [exact Hc|].
    repeat constructor.
Qed.

Lemma leg_texts_spec times m ps : forall i calls,
  Py.min times = Ok m ->
  Forall (gap_ok m) calls ->
  exists calls', leg_texts leg_no times i ps calls = Ok calls' /\
                 Forall (gap_ok m) calls'.
Proof.
  intros i calls Hm. revert i calls.
  induction ps as [|p ps IH]; intros i calls Hc; simpl; [eauto|].
  rewrite selector_ok. simpl. rewrite Hm. simpl.
  destruct (Z.eqb_spec (selector p) m) as [E|E].
  - apply IH. apply Forall_app. split; [exact Hc|]. repeat constructor.
  - apply IH. repeat (apply Forall_app; split); try exact Hc;
      repeat constructor; assumption.
Qed.

Lemma plot_leg_as_bar_spec :
  people self <> [] ->
  exists m,
    (exists p, p ∈ people self /\ get_leg_time p leg_no = Ok m) /\
    (forall p t, p ∈ people self -> get_leg_time p leg_no = Ok t -> m <= t) /\
    exists calls hi,
      plot_leg_as_bar self leg_no = Ok (calls ++ [SetLim m hi]) /\
      Forall (gap_ok m) calls.
Proof.
  intros Hne.
  assert (Htimes : map selector (people self) <> [])
    by (destruct (people self); [congruence|discriminate]).
  destruct (min_nonempty _ Htimes) as [m Hm].
  destruct (max_nonempty _ Htimes) as [hi Hhi].
  destruct (min_spec _ _ Hm) as [Hin Hle].
  exists m. split; [|split].
  - apply list_elem_of_fmap in Hin as (p & -> & Hp).
    exists p. split; [exact Hp|apply selector_ok].
  - intros p t Hp Ht. rewrite selector_ok in Ht. injection Ht as <-.
    apply Hle, list_elem_of_fmap. eauto.
  - unfold plot_leg_as_bar.
    destruct (leg_bars_spec (people self) [] [] m) as (calls0 & E0 & F0).
    rewrite E0. simpl.
    destruct (leg_texts_spec _ m (people self) 0 calls0 Hm (F0 (List.Forall_nil _)))
      as (calls1 & E1 & F1).
    rewrite E1. simpl. rewrite Hm. simpl. rewrite Hhi. simpl.
    eauto.
Qed.

End LegLoops.

Lemma get_leg_time_selector leg_no :
  1 <= leg_no <= 4 ->
  exists selector, forall p, get_leg_time p leg_no = Ok (selector p).
Proof.
  intros H.
  assert (leg_no = 1 \/ leg_no = 2 \/ leg_no = 3 \/ leg_no = 4)
    as [-> | [-> | [-> | ->]]] by lia; eexists; intros p; reflexivity.
Qed.

(** C8: the best time of a chart is [min(times)] over the times of all the
    participants. On a registry without participants both charts fail with
    the [ValueError] of [min]; on any other registry the best time is the
    smallest total time (smallest time of the leg, for a leg from 1 to 4)
    among the participants, and the gap labels are the distances to it. *)
Theorem best_time_of_registry (self : People) :
  (people self = [] ->
   plot_total_as_bar self = Raise ValueError /\
   forall leg_no, plot_leg_as_bar self leg_no = Raise ValueError) /\
  (people self <> [] ->
   exists m,
     Py.min (map total_time (people self)) = Ok m /\
     (exists p, p ∈ people self /\ total_time p = m) /\
     (forall p, p ∈ people self -> m <= total_time p) /\
     exists calls hi,
       plot_total_as_bar self = Ok (calls ++ [SetLim m hi]) /\
       Forall (gap_ok m) calls) /\
  (people self <> [] ->
   forall leg_no, 1 <= leg_no <= 4 ->
   exists m,
     (exists p, p ∈ people self /\ get_leg_time p leg_no = Ok m) /\
     (forall p t, p ∈ people self -> get_leg_time p leg_no = Ok t -> m <= t) /\
     exists calls hi,
       plot_leg_as_bar self leg_no = Ok (calls ++ [SetLim m hi]) /\
       Forall (gap_ok m) calls).
Proof.
  split; [|split].
  - intros Hempty. unfold plot_total_as_bar, plot_leg_as_bar.
    rewrite Hempty. split; [reflexivity|]. intros leg_no. reflexivity.
  - intros Hne.
    assert (Htimes : map total_time (people self) <> [])
      by (destruct (people self); [congruence|discriminate]).
    destruct (min_nonempty _ Htimes) as [m Hm].
    destruct (max_nonempty _ Htimes) as [hi Hhi].
    destruct (min_spec _ _ Hm) as [Hin Hle].
    exists m. split; [exact Hm|]. split; [|split].
    + apply list_elem_of_fmap in Hin as (p & -> & Hp). eauto.
    + intros p Hp. apply Hle, list_elem_of_fmap. eauto.
    + unfold plot_total_as_bar.
      destruct (total_bars_spec self (people self) 0 [] [] m) as [E0 F0].
      destruct (total_bars self 0 (people self) [] []) as [times calls0].
      simpl in E0, F0. subst times.
      destruct (total_texts_spec _ m (people self) 0 calls0 Hm
                  (F0 (List.Forall_nil _))) as (calls1 & E1 & F1).
      rewrite E1. simpl. rewrite Hm. simpl. rewrite Hhi. simpl. eauto.
  - intros Hne leg_no Hleg.
    destruct (get_leg_time_selector leg_no Hleg) as [selector Hsel].
    exact (plot_leg_as_bar_spec self leg_no selector Hsel Hne).
Qed.

Lemma best_time_of_registry_witness :
  let early := participant "Bo Jones" (time_of_day 8 0 0) (time_of_day 9 10 0)
                 (time_of_day 10 35 0) (time_of_day 12 0 0) (time_of_day 13 20 0) in
  let late := participant "Alex Smith" (time_of_day 8 0 0) (time_of_day 9 15 30)
                (time_of_day 10 40 0) (time_of_day 12 5 10) (time_of_day 13 30 0) in
  let registry := mk_People [early; late] true in
  plot_total_as_bar (mk_People [] true) = Raise ValueError /\
  people registry <> [] /\
  exists m,
    Py.min (map total_time (people registry)) = Ok m /\
    (exists p, p ∈ people registry /\ total_time p = m) /\
    (forall p, p ∈ people registry -> m <= total_time p) /\
    exists calls hi,
      plot_total_as_bar registry = Ok (calls ++ [SetLim m hi]) /\
      Forall (gap_ok m) calls.
Proof.
  intros early late registry.
  assert (Hne : people registry <> []) by discriminate.
  split; [|split; [exact Hne|]].
  - exact (proj1 (proj1 (best_time_of_registry (mk_People [] true)) eq_refl)).
  - exact (proj1 (proj2 (best_time_of_registry registry)) Hne).
Defined.

(** ** Extraction of one participant and of a batch *)

Lemma find_all_with_head n k e h rest :
  Bs4.find_all_with n k e = h :: rest ->
  exists v, Bs4.getitem h k = Ok v.
Proof.
  intros E.
  assert (Hin : In h (Bs4.find_all_with n k e)) by (rewrite E; left; reflexivity).
  unfold Bs4.find_all_with in Hin. apply filter_In in Hin as [_ Hp].
  destruct h as [s|tn attrs cs]; [discriminate|].
  simpl in *. apply andb_true_iff in Hp as [_ Hp].
  apply bool_decide_eq_true in Hp as [v Hv]. rewrite Hv. eauto.
Qed.

Lemma fill_data_dict_keys rows : forall d d',
  fill_data_dict rows d = Ok d' ->
  (forall k, is_Some (d !! k) -> is_Some (d' !! k)) /\
  (forall row k v, row ∈ rows -> row_pair row = Ok (k, v) -> is_Some (d' !! k)).
Proof.
  induction rows as [|r rows IH]; intros d d'; simpl.
  - intros [= <-]. split; [auto|]. intros row k v Hin. inversion Hin.
  - intros H. apply bind_Ok in H as ([key val] & Hr & H).
    apply IH in H as [Hkeep Hrows]. split.
    + intros k Hk. apply Hkeep.
      destruct (decide (key = k)) as [->|Hne].
      * rewrite lookup_insert_eq. eauto.
      * rewrite lookup_insert_ne by assumption. exact Hk.
    + intros row k v Hin Hrow. apply elem_of_cons in Hin as [->|Hin].
      * rewrite Hr in Hrow. injection Hrow as <- <-.
        apply Hkeep. rewrite lookup_insert_eq. eauto.
      * eapply Hrows; eassumption.
Qed.

Lemma fill_data_dict_total rows : forall d,
  Forall (fun r => is_ok (row_pair r) = true) rows ->
  exists d', fill_data_dict rows d = Ok d'.
Proof.
  induction rows as [|r rows IH]; intros d Hall; simpl; [eauto|].
  apply Forall_cons in Hall as [Hr Hall].
  destruct (row_pair r) as [[key val]|e]; [|discriminate]. simpl.
  apply IH, Hall.
Qed.

Lemma Person_kwargs_unknown_key so (d : gmap string value) k :
  is_Some (d !! k) -> k ∉ Person_params ->
  Person_kwargs so d = Raise TypeError.
Proof.
  intros [v Hv] Hk. unfold Person_kwargs.
  destruct (forallb _ _) eqn:E; [|reflexivity].
  exfalso. apply Hk.
  rewrite forallb_forall in E.
  specialize (E k). apply bool_decide_eq_true in E; [exact E|].
  apply in_map_iff. exists (k, v). split; [reflexivity|].
  apply list_elem_of_In, elem_of_map_to_list, Hv.
Qed.

Section ExtractionFacts.

Variable requests_get : string -> result string.
Variable html_parser : string -> Bs4.PageElement.
Variable strptime_other : string -> string -> result datetime.
Variable print : string -> result unit.

Abbreviation generate_person :=
  (generate_person_from_race_nubmer requests_get html_parser strptime_other
     print).
Abbreviation generate_people :=
  (generate_people_from_race_nubmers requests_get html_parser strptime_other
     print).
Abbreviation collect :=
  (collect_people requests_get html_parser strptime_other print).

Lemma generate_person_error loc n e :
  generate_person loc n = Raise e -> e = extraction_error n.
Proof.
  unfold generate_person_from_race_nubmer, try_except.
  destruct (generate_person_body _ _ _ _ _); [discriminate|].
  intros [= <-]. reflexivity.
Qed.

Lemma collect_people_ok loc ns : forall acc ps,
  collect loc ns acc = Ok ps ->
  exists new, ps = acc ++ new /\
              Forall2 (fun n p => generate_person loc n = Ok p) ns new.
Proof.
  induction ns as [|n ns IH]; intros acc ps; simpl.
  - intros [= <-]. exists []. rewrite app_nil_r. split; [reflexivity|constructor].
  - intros H. apply bind_Ok in H as (p & Hp & H).
    apply IH in H as (new & -> & Hnew).
    exists (p :: new). rewrite <- app_assoc. split; [reflexivity|].
    constructor; assumption.
Qed.

Lemma collect_people_first_failure loc pre n post : forall acc,
  Forall (fun k => is_ok (generate_person loc k) = true) pre ->
  is_ok (generate_person loc n) = false ->
  collect loc (pre ++ n :: post) acc = Raise (extraction_error n).
Proof.
  induction pre as [|k pre IH]; intros acc Hpre Hn; simpl.
  - destruct (generate_person loc n) as [p|e] eqn:E; [discriminate|].
    apply generate_person_error in E as ->. reflexivity.
  - apply Forall_cons in Hpre as [Hk Hpre].
    destruct (generate_person loc k) as [p|e]; [|discriminate]. simpl.
    apply IH; assumption.
Qed.

(** A list with a failing race number splits at the first one. *)
Lemma first_failure loc ns n :
  n ∈ ns -> is_ok (generate_person loc n) = false ->
  exists pre k post,
    ns = pre ++ k :: post /\
    Forall (fun j => is_ok (generate_person loc j) = true) pre /\
    is_ok (generate_person loc k) = false.
Proof.
  induction ns as [|m ns IH]; intros Hin Hn; [inversion Hin|].
  destruct (is_ok (generate_person loc m)) eqn:Em.
  - apply elem_of_cons in Hin as [->|Hin]; [congruence|].
    destruct (IH Hin Hn) as (pre & k & post & -> & Hpre & Hk).
    exists (m :: pre), k, post. split; [reflexivity|]. split; [|exact Hk].
    constructor; assumption.
  - exists [], m, ns. split; [reflexivity|]. split; [constructor|exact Em].
Qed.

(** C5: every failure of one extraction is the one error naming the race
    number; when the extraction fails for some race number of the list, the
    batch raises the error of the first such number and builds no registry;
    a registry is returned only when every extraction succeeded, and it is
    built from the participants in the order of the race numbers. *)
Theorem batch_fails_fast (loc : MightHikeLocation) (ns : list Z) :
  (forall n e, generate_person loc n = Raise e -> e = extraction_error n) /\
  (forall n, n ∈ ns -> is_ok (generate_person loc n) = false ->
             exists pre k post,
               ns = pre ++ k :: post /\
               Forall (fun j => is_ok (generate_person loc j) = true) pre /\
               is_ok (generate_person loc k) = false /\
               generate_people loc ns = Raise (extraction_error k)) /\
  (forall registry,
      generate_people loc ns = Ok registry ->
      exists ps,
        Forall2 (fun n p => generate_person loc n = Ok p) ns ps /\
        registry = People_init ps).
Proof.
  split; [|split].
  - intros n e. apply generate_person_error.
  - intros n Hin Hn.
    destruct (first_failure loc ns n Hin Hn) as (pre & k & post & -> & Hpre & Hk).
    exists pre, k, post. repeat split; try assumption.
    unfold generate_people_from_race_nubmers.
    rewrite (collect_people_first_failure loc pre k post [] Hpre Hk).
    reflexivity.
  - intros registry H. unfold generate_people_from_race_nubmers in H.
    apply bind_Ok in H as (ps & Hps & H). injection H as <-.
    apply collect_people_ok in Hps as (new & -> & Hnew).
    exists new. split; [exact Hnew|reflexivity].
Qed.

(** C9 (amended): stage one fails with [AttributeError] when the page has no
    search table, with [IndexError] when the table holds no anchor, and
    fails when no anchor of the table has a link; otherwise, whatever the
    number of hits, it yields the text of the first anchor of the table and
    the link of the first anchor that has one. A failure of stage one makes
    the extraction raise the error naming the race number. *)
Theorem locate_takes_first_anchor (soup : Bs4.PageElement) :
  let table :=
    Bs4.find_attr "table" "id" "ctl00_Content_Main_grdSearch" soup in
  (table = None -> locate soup = Raise AttributeError) /\
  (forall t, table = Some t -> Bs4.find_all "a" t = [] ->
             locate soup = Raise IndexError) /\
  (forall t, table = Some t -> Bs4.find_all_with "a" "href" t = [] ->
             is_ok (locate soup) = false) /\
  (forall t a rest h rest',
      table = Some t ->
      Bs4.find_all "a" t = a :: rest ->
      Bs4.find_all_with "a" "href" t = h :: rest' ->
      exists link, Bs4.getitem h "href" = Ok link /\
                   locate soup = Ok (Bs4.get_text a, link)) /\
  (forall loc n content,
      requests_get (search_results_page_url loc n) = Ok content ->
      html_parser content = soup ->
      is_ok (locate soup) = false ->
      generate_person loc n = Raise (extraction_error n)).
Proof.
  intros table. unfold locate. fold table.
  split; [|split; [|split; [|split]]].
  - intros ->. reflexivity.
  - intros t -> Ha. simpl. rewrite Ha. reflexivity.
  - intros t -> Hh. simpl. rewrite Hh.
    destruct (Bs4.find_all "a" t); reflexivity.
  - intros t a rest h rest' -> Ha Hh. simpl. rewrite Ha, Hh. simpl.
    destruct (find_all_with_head _ _ _ _ _ Hh) as [link Hlink].
    exists link. rewrite Hlink. split; reflexivity.
  - intros loc n content Hget Hparse Hfail.
    unfold generate_person_from_race_nubmer, generate_person_body.
    rewrite Hget. simpl. rewrite Hparse.
    unfold locate. fold table.
    destruct (Bs4.on_found table _) as [[nm link]|e]; [discriminate|].
    reflexivity.
Qed.

(** C10: when the timing table has a data row whose normalised label is not
    a parameter of the constructor, the extraction fails with the error
    naming the race number, whatever the other rows hold: the label reaches
    the keywords of the constructor call, which raises [TypeError] when all
    the rows have their two cells. *)
Theorem unknown_label_fails (loc : MightHikeLocation) (n : Z)
  (content person_name href stats_content : string)
  (rows : list Bs4.PageElement) (row : Bs4.PageElement) (key val : string) :
  requests_get (search_results_page_url loc n) = Ok content ->
  locate (html_parser content) = Ok (person_name, href) ->
  requests_get (base_url +:+ href) = Ok stats_content ->
  stats_rows (html_parser stats_content) = Ok rows ->
  row ∈ rows ->
  row_pair row = Ok (key, val) ->
  key ∉ Person_params ->
  generate_person loc n = Raise (extraction_error n) /\
  exists e,
    parse_timings strptime_other person_name n (html_parser stats_content)
    = Raise e /\
    (Forall (fun r => is_ok (row_pair r) = true) rows -> e = TypeError).
Proof.
  intros Hget Hloc Hget2 Hrows Hin Hrow Hkey.
  assert (Hparse : exists e,
             parse_timings strptime_other person_name n
                           (html_parser stats_content) = Raise e /\
             (Forall (fun r => is_ok (row_pair r) = true) rows -> e = TypeError)).
  { unfold parse_timings. rewrite Hrows. simpl.
    destruct (fill_data_dict rows _) as [d'|e] eqn:Efill.
    - simpl. apply fill_data_dict_keys in Efill as [_ Hk].
      rewrite (Person_kwargs_unknown_key _ d' key (Hk row key val Hin Hrow) Hkey).
      eauto.
    - simpl. exists e. split; [reflexivity|]. intros Hall.
      destruct (fill_data_dict_total rows
                  (<["race_number" := VInt n]> (<["name" := VStr person_name]> ∅))
                  Hall) as [d' Hd'].
      congruence. }
  split; [|exact Hparse].
  destruct Hparse as (e & He & _).
  unfold generate_person_from_race_nubmer, generate_person_body.
  rewrite Hget. simpl. rewrite Hloc. simpl. rewrite Hget2. simpl.
  rewrite He. reflexivity.
Qed.

End ExtractionFacts.

Lemma batch_fails_fast_witness :
  let generate_person :=
    generate_person_from_race_nubmer Pages.requests_get Pages.html_parser
                                     Pages.strptime_other Pages.print Jurassic_Coast in
  let generate_people :=
    generate_people_from_race_nubmers Pages.requests_get Pages.html_parser
                                      Pages.strptime_other Pages.print Jurassic_Coast in
  (645 ∈ [643; 645; 644] /\
   is_ok (generate_person 645) = false /\
   exists pre k post,
     [643; 645; 644] = pre ++ k :: post /\
     Forall (fun j => is_ok (generate_person j) = true) pre /\
     is_ok (generate_person k) = false /\
     generate_people [643; 645; 644] = Raise (extraction_error k)) /\
  (exists registry,
      generate_people [643; 644] = Ok registry /\
      exists ps,
        Forall2 (fun n p => generate_person n = Ok p) [643; 644] ps /\
        registry = People_init ps).
Proof.
  intros generate_person generate_people.
  assert (Hin : 645 ∈ [643; 645; 644]) by (right; left).
  assert (Hfail : is_ok (generate_person 645) = false) by reflexivity.
  split.
  - split; [exact Hin|]. split; [exact Hfail|].
    exact (proj1 (proj2 (batch_fails_fast Pages.requests_get Pages.html_parser
                           Pages.strptime_other Pages.print Jurassic_Coast [643; 645; 644]))
             645 Hin Hfail).
  - destruct (generate_people [643; 644]) as [registry|e] eqn:E;
      [|vm_compute in E; discriminate E].
    exists registry. split; [reflexivity|].
    exact (proj2 (proj2 (batch_fails_fast Pages.requests_get Pages.html_parser
                           Pages.strptime_other Pages.print Jurassic_Coast [643; 644]))
             registry E).
Defined.

(** C9, as the specification states it, fails for a search page with two
    hits: stage one does not fail, it takes the first. *)
Lemma locate_two_hits_succeeds :
  let page := Pages.search_page [("Alex Smith", "Results.aspx?AId=643");
                                 ("Alex Smithson", "Results.aspx?AId=700")] in
  length (hit_rows page) = 2%nat /\
  locate page = Ok ("Alex Smith", "Results.aspx?AId=643").
Proof. split; reflexivity. Qed.

Lemma locate_takes_first_anchor_witness :
  let page := Pages.search_page [("Alex Smith", "Results.aspx?AId=643");
                                 ("Alex Smithson", "Results.aspx?AId=700")] in
  let empty := Bs4.Tag "[document]" [] [] in
  (exists link, locate page = Ok ("Alex Smith", link)) /\
  locate empty = Raise AttributeError /\
  generate_person_from_race_nubmer (fun _ => Ok "") (fun _ => empty)
    Pages.strptime_other Pages.print Jurassic_Coast 643
  = Raise (extraction_error 643).
Proof.
  intros page empty. split; [|split].
  - destruct (proj1 (proj2 (proj2 (proj2
               (locate_takes_first_anchor (fun _ => Ok "") (fun _ => page)
                  Pages.strptime_other Pages.print page))))
               (Bs4.Tag "table" [("id", "ctl00_Content_Main_grdSearch")]
                  (Bs4.Tag "tr" [] [Pages.text_cell "th" "Name"]
                   :: map (fun '(n, link) =>
                             Bs4.Tag "tr" []
                               [Bs4.Tag "td" []
                                  [Bs4.Tag "a" [("href", link)]
                                     [Bs4.NavigableString n]]])
                          [("Alex Smith", "Results.aspx?AId=643");
                           ("Alex Smithson", "Results.aspx?AId=700")]))
               (Bs4.Tag "a" [("href", "Results.aspx?AId=643")]
                  [Bs4.NavigableString "Alex Smith"])
               [Bs4.Tag "a" [("href", "Results.aspx?AId=700")]
                  [Bs4.NavigableString "Alex Smithson"]]
               (Bs4.Tag "a" [("href", "Results.aspx?AId=643")]
                  [Bs4.NavigableString "Alex Smith"])
               [Bs4.Tag "a" [("href", "Results.aspx?AId=700")]
                  [Bs4.NavigableString "Alex Smithson"]]
               eq_refl eq_refl eq_refl) as (link & _ & Hl).
    exists link. exact Hl.
  - exact (proj1 (locate_takes_first_anchor (fun _ => Ok "") (fun _ => empty)
                    Pages.strptime_other Pages.print empty)
             eq_refl).
  - exact (proj2 (proj2 (proj2 (proj2
             (locate_takes_first_anchor (fun _ => Ok "") (fun _ => empty)
                    Pages.strptime_other Pages.print empty))))
             Jurassic_Coast 643 "" eq_refl eq_refl eq_refl).
Defined.

Lemma unknown_label_fails_witness :
  is_ok (generate_person_from_race_nubmer Pages.requests_get Pages.html_parser
           Pages.strptime_other Pages.print Jurassic_Coast 643) = true /\
("gun_time" ∉ Person_params) /\
  generate_person_from_race_nubmer Pages.requests_get Pages.html_parser
    Pages.strptime_other Pages.print Jurassic_Coast 645
  = Raise (extraction_error 645).
Proof.
  assert (Hkey : "gun_time" ∉ Person_params).
  { intros H. apply list_elem_of_In in H. simpl in H.
    repeat (destruct H as [H|H]; [discriminate H|]). exact H. }
  split; [reflexivity|]. split; [exact Hkey|].
  refine (proj1 (unknown_label_fails Pages.requests_get Pages.html_parser
                   Pages.strptime_other Pages.print Jurassic_Coast 645
                   "search 645" "Cy Young" "Results.aspx?AId=645" "stats 645"
                   (map Pages.timing_row
                        (Pages.rows_643 ++ [("Gun Time", "05:30:00")]))
                   (Pages.timing_row ("Gun Time", "05:30:00"))
                   "gun_time" "05:30:00"
                   eq_refl eq_refl eq_refl eq_refl _ eq_refl Hkey)).
  apply list_elem_of_In. simpl. auto 10.
Defined.

(** The scenario of the specification: 644 finishes in 5h20m and comes
    before 643, which finishes in 5h30m; the first leg of 643 takes 4530
    seconds, shown as 1:15:30. *)
Example scenario_643_644 :
  exists p644 p643,
    generate_people_from_race_nubmers Pages.requests_get Pages.html_parser
      Pages.strptime_other Pages.print Jurassic_Coast [643; 644]
    = Ok (mk_People [p644; p643] true) /\
    race_number p644 = VInt 644 /\ race_number p643 = VInt 643 /\
    total_time p644 = 19200 /\ total_time p643 = 19800 /\
    get_leg_time p643 1 = Ok 4530 /\
    seconds_to_human_time 4530 = "1:15:30".
Proof. do 2 eexists. repeat split. Qed.

(** * Further properties of the program *)

(** ** Locations *)

(** X1: Looking a location up by its identifier: every member is found by its
    own value, a value found is the value of the member, and the identifiers
    are exactly the integers from 20427 to 20440. *)
Theorem MightHikeLocation_of_value :
  (forall l, MightHikeLocation_of (location_value l) = Ok l) /\
  (forall v l, MightHikeLocation_of v = Ok l -> location_value l = v) /\
  (forall v, 20427 <= v <= 20440 -> is_ok (MightHikeLocation_of v) = true) /\
  (forall v, v < 20427 \/ 20440 < v -> MightHikeLocation_of v = Raise ValueError).
Proof.
  assert (Hinv : forall v l, MightHikeLocation_of v = Ok l -> location_value l = v).
  { intros v l H. destruct v as [|q|q]; try discriminate H.
    do 16 (try (destruct q as [q|q|]; try discriminate H)).
    all: injection H as <-; reflexivity. }
  split; [|split; [exact Hinv|split]].
  - intros l. destruct l; reflexivity.
  - intros v Hv.
    assert (v = 20427 \/ v = 20428 \/ v = 20429 \/ v = 20430 \/ v = 20431 \/
            v = 20432 \/ v = 20433 \/ v = 20434 \/ v = 20435 \/ v = 20436 \/
            v = 20437 \/ v = 20438 \/ v = 20439 \/ v = 20440) as H by lia.
    repeat (destruct H as [-> | H]; [reflexivity|]). subst v. reflexivity.
  - intros v Hv.
    destruct (MightHikeLocation_of v) as [l|e] eqn:E.
    + apply Hinv in E. destruct l; simpl in E; lia.
    + destruct v as [|q|q]; try (injection E as <-; reflexivity).
      do 16 (try (destruct q as [q|q|]; try (injection E as <-; reflexivity))).
      all: discriminate E.
Qed.

Lemma MightHikeLocation_of_value_witness :
  is_ok (MightHikeLocation_of 20440) = true /\
  MightHikeLocation_of 20441 = Raise ValueError /\
  MightHikeLocation_of 0 = Raise ValueError /\
  location_value Jurassic_Coast = 20440.
Proof.
  split; [|split; [|split]].
  - apply (proj1 (proj2 (proj2 MightHikeLocation_of_value))). lia.
  - apply (proj2 (proj2 (proj2 MightHikeLocation_of_value))). lia.
  - apply (proj2 (proj2 (proj2 MightHikeLocation_of_value))). lia.
  - apply (proj1 (proj2 MightHikeLocation_of_value)). reflexivity.
Defined.

(** ** Texts of durations *)

Lemma string_app_cons c s t : String c s +:+ t = String c (s +:+ t).
Proof. reflexivity. Qed.

Lemma string_app_assoc (s t u : string) : (s +:+ t) +:+ u = s +:+ (t +:+ u).
Proof.
  induction s as [|c s IH]; [reflexivity|].
  rewrite !string_app_cons, IH. reflexivity.
Qed.

Lemma string_app_nil_r (s : string) : s +:+ "" = s.
Proof.
  induction s as [|c s IH]; [reflexivity|].
  rewrite string_app_cons, IH. reflexivity.
Qed.

Lemma minutes_bounds s : 0 <= s mod 3600 / 60 < 60.
Proof.
  pose proof (Z.mod_pos_bound s 3600 ltac:(lia)).
  split; [apply Z.div_pos; lia | apply Z.div_lt_upper_bound; lia].
Qed.

(** X2: [seconds_to_hours_mins] prints the hours and the minutes in two digits;
    the seconds within the minute do not count; from one hour on (and below
    zero) [seconds_to_human_time] prints the same text followed by the
    seconds. *)
Theorem seconds_to_hours_mins_shape (s : Z) :
  seconds_to_hours_mins s =
    Py.str (s / 3600) +:+ ":" +:+ two_digits (s mod 3600 / 60) /\
  seconds_to_hours_mins (s - s mod 60) = seconds_to_hours_mins s /\
  (s / 3600 <> 0 ->
   seconds_to_human_time s =
     seconds_to_hours_mins s +:+ ":" +:+ two_digits (s mod 60)).
Proof.
  assert (Hshape : forall x, seconds_to_hours_mins x =
                             Py.str (x / 3600) +:+ ":" +:+ two_digits (x mod 3600 / 60)).
  { intros x. unfold seconds_to_hours_mins.
    rewrite format_02d_two_digits by apply minutes_bounds. reflexivity. }
  split; [apply Hshape|]. split.
  - rewrite !Hshape.
    assert (E1 : (s - s mod 60) / 3600 = s / 3600)
      by (Z.to_euclidean_division_equations; lia).
    assert (E2 : (s - s mod 60) mod 3600 / 60 = s mod 3600 / 60)
      by (Z.to_euclidean_division_equations; lia).
    rewrite E1, E2. reflexivity.
  - intros Hh. rewrite Hshape. unfold seconds_to_human_time.
    destruct (Z.eqb_spec (s / 3600) 0) as [|_]; [contradiction|].
    simpl negb. cbv iota.
    rewrite !format_02d_two_digits
      by (apply minutes_bounds || (apply Z.mod_pos_bound; lia)).
    unfold Py.format_d. rewrite !string_app_assoc. reflexivity.
Qed.

Lemma seconds_to_hours_mins_shape_witness :
  seconds_to_human_time 19845 = seconds_to_hours_mins 19845 +:+ ":45" /\
  seconds_to_hours_mins 19845 = "5:30".
Proof.
  split.
  - apply (proj2 (proj2 (seconds_to_hours_mins_shape 19845))). discriminate.
  - apply (proj1 (seconds_to_hours_mins_shape 19845)).
Defined.

(** X3: Below zero [seconds_to_human_time] prints the floor of the hours, which
    is negative, then the minutes and seconds that remain above it: -1 is
    printed as -1:59:59. *)
Theorem seconds_to_human_time_negative (s : Z) :
  s < 0 ->
  s / 3600 < 0 /\
  seconds_to_human_time s =
    Py.str (s / 3600) +:+ ":" +:+ two_digits (s mod 3600 / 60) +:+ ":"
      +:+ two_digits (s mod 60) /\
  exists rest, seconds_to_human_time s = String "-" rest.
Proof.
  intros Hs.
  assert (Hh : s / 3600 < 0) by (Z.to_euclidean_division_equations; lia).
  assert (E : seconds_to_human_time s =
              Py.str (s / 3600) +:+ ":" +:+ two_digits (s mod 3600 / 60) +:+ ":"
                +:+ two_digits (s mod 60)).
  { unfold seconds_to_human_time.
    destruct (Z.eqb_spec (s / 3600) 0) as [|_]; [lia|].
    simpl negb. cbv iota.
    rewrite !format_02d_two_digits
      by (apply minutes_bounds || (apply Z.mod_pos_bound; lia)).
    reflexivity. }
  split; [exact Hh|]. split; [exact E|].
  rewrite E. destruct (s / 3600) as [|q|q]; try lia.
  eexists. unfold Py.str. cbn [Z.to_int NilZero.string_of_int].
  rewrite string_app_cons. reflexivity.
Qed.

Lemma seconds_to_human_time_negative_witness :
  seconds_to_human_time (-1) =
    Py.str (-1 / 3600) +:+ ":" +:+ two_digits (-1 mod 3600 / 60) +:+ ":"
      +:+ two_digits (-1 mod 60).
Proof. apply (seconds_to_human_time_negative (-1)). lia. Defined.

(** ** Times of a participant *)

(** X4: Whatever the five timestamps are, the total and the legs are at least 0
    and below 86400, and the dates of the timestamps do not count. *)
Theorem times_within_a_day (p : Person) :
  0 <= total_time p < 86400 /\
  (forall n t, get_leg_time p n = Ok t -> 0 <= t < 86400) /\
  (forall q, same_clock (start p) (start q) -> same_clock (finish p) (finish q) ->
             total_time q = total_time p).
Proof.
  assert (Hsec : forall a b, 0 <= seconds (datetime_sub b a) < 86400).
  { intros a b. unfold datetime_sub, timedelta_new. simpl.
    apply Z.mod_pos_bound. lia. }
  split; [apply Hsec|]. split.
  - intros n t. unfold get_leg_time.
    assert (n = 1 \/ n = 2 \/ n = 3 \/ n = 4 \/ (n <> 1 /\ n <> 2 /\ n <> 3 /\ n <> 4))
      as [-> | [-> | [-> | [-> | (N1 & N2 & N3 & N4)]]]] by lia;
      try (intros [= <-]; apply Hsec).
    destruct n as [|r|r]; try discriminate.
    destruct r as [[r|r|]|[r|r|]|]; try discriminate; try congruence;
      destruct r; try discriminate; congruence.
  - intros q (Hh & Hm & Hs & Hu) (Hh' & Hm' & Hs' & Hu').
    unfold total_time, datetime_sub, timedelta_new. simpl.
    rewrite Hh, Hm, Hs, Hu, Hh', Hm', Hs', Hu'. reflexivity.
Qed.

Lemma times_within_a_day_witness :
  let t10 := time_of_day 10 0 0 in
  let t9 := time_of_day 9 0 0 in
  let p := participant "Alex Smith" t10 t9 t9 t9 t9 in
  get_leg_time p 1 = Ok 82800 /\ 0 <= 82800 < 86400.
Proof.
  intros t10 t9 p. split; [reflexivity|].
  exact (proj1 (proj2 (times_within_a_day p)) 1 82800 eq_refl).
Defined.

(** ** Parsing of the timestamps *)

Lemma digit_val_digit_char d : 0 <= d <= 9 -> digit_val (digit_char d) = Some d.
Proof.
  intros Hd.
  assert (d = 0 \/ d = 1 \/ d = 2 \/ d = 3 \/ d = 4 \/ d = 5 \/ d = 6 \/
          d = 7 \/ d = 8 \/ d = 9) as H by lia.
  repeat (destruct H as [-> | H]; [reflexivity|]). subst d. reflexivity.
Qed.

Lemma digit_char_digit_val c d : digit_val c = Some d -> digit_char d = c.
Proof.
  unfold digit_val.
  destruct (48 <=? nat_of_ascii c)%nat eqn:E1; [|discriminate].
  destruct (nat_of_ascii c <=? 57)%nat eqn:E2; [|discriminate].
  cbn [andb]. intros [= <-]. apply Nat.leb_le in E1.
  unfold digit_char.
  replace (48 + Z.to_nat (Z.of_nat (nat_of_ascii c) - 48))%nat
    with (nat_of_ascii c) by lia.
  apply ascii_nat_embedding.
Qed.

Lemma two_digits_split n :
  0 <= n < 100 ->
  0 <= n / 10 <= 9 /\ 0 <= n mod 10 <= 9 /\ n / 10 * 10 + n mod 10 = n.
Proof. intros Hn. Z.to_euclidean_division_equations. lia. Qed.

(** A directive reads back a field written in one or two digits. *)
Lemma match_directive_field two pad n rest :
  0 <= n < 100 ->
  two (n / 10) (n mod 10) = true ->
  no_digit_ahead rest ->
  match_directive two (field_text pad n +:+ rest) = Some (n, rest).
Proof.
  intros Hn Htwo Hrest.
  destruct (two_digits_split n Hn) as (H1 & H2 & H3).
  unfold field_text.
  destruct (pad || (10 <=? n)) eqn:E.
  - unfold two_digits. rewrite !string_app_cons. cbn [match_directive].
    rewrite !digit_val_digit_char by assumption. rewrite Htwo, H3. reflexivity.
  - apply orb_false_iff in E as [_ E]. apply Z.leb_gt in E.
    rewrite string_app_cons. cbn [match_directive].
    rewrite digit_val_digit_char by lia.
    change ("" +:+ rest) with rest.
    destruct rest as [|c rest']; [reflexivity|].
    simpl in Hrest. rewrite Hrest. reflexivity.
Qed.

(** What a directive reads is a field written in one or two digits. *)
Lemma match_directive_inv two t v rest :
  match_directive two t = Some (v, rest) ->
  exists pad,
    t = field_text pad v +:+ rest /\ 0 <= v < 100 /\
    (v < 10 \/ two (v / 10) (v mod 10) = true).
Proof.
  unfold match_directive.
  destruct t as [|c1 r1]; [discriminate|].
  destruct (digit_val c1) as [d1|] eqn:E1; [|discriminate].
  pose proof (digit_val_bounds _ _ E1) as B1.
  apply digit_char_digit_val in E1.
  assert (Hone : Some (d1, r1) = Some (v, rest) ->
                 exists pad, String c1 r1 = field_text pad v +:+ rest /\
                             0 <= v < 100 /\
                             (v < 10 \/ two (v / 10) (v mod 10) = true)).
  { intros [= <- <-]. exists false. unfold field_text.
    destruct (Z.leb_spec 10 d1); [lia|]. simpl.
    rewrite string_app_cons, E1. split; [reflexivity|]. lia. }
  destruct r1 as [|c2 r2]; [exact Hone|].
  destruct (digit_val c2) as [d2|] eqn:E2; [|exact Hone].
  pose proof (digit_val_bounds _ _ E2) as B2.
  apply digit_char_digit_val in E2.
  destruct (two d1 d2) eqn:Etwo; [|exact Hone].
  intros [= <- <-]. exists true.
  assert (Hq : (d1 * 10 + d2) / 10 = d1)
    by (Z.to_euclidean_division_equations; lia).
  assert (Hr : (d1 * 10 + d2) mod 10 = d2)
    by (Z.to_euclidean_division_equations; lia).
  unfold field_text, two_digits. simpl orb. cbv iota.
  rewrite Hq, Hr, E1, E2, !string_app_cons.
  split; [reflexivity|]. split; [lia|]. right. exact Etwo.
Qed.

Lemma expect_colon_inv s rest : expect_colon s = Some rest -> s = ":" +:+ rest.
Proof.
  destruct s as [|c s']; [discriminate|]. simpl.
  destruct (Ascii.eqb_spec c ":") as [->|]; [|discriminate].
  intros [= <-]. reflexivity.
Qed.

Lemma strptime_HMS_clock_text_iff (t : string) (d : datetime) :
  strptime_HMS t = Ok d <->
  exists pad_h pad_m pad_s h m s,
    0 <= h < 24 /\ 0 <= m < 60 /\ 0 <= s < 60 /\
    t = clock_text pad_h pad_m pad_s h m s /\ d = time_of_day h m s.
Proof.
  split.
  - unfold strptime_HMS.
    destruct (match_directive two_H t) as [[h s1]|] eqn:EH; [|discriminate].
    destruct (expect_colon s1) as [s2|] eqn:C1; [|discriminate].
    destruct (match_directive two_M s2) as [[m s3]|] eqn:EM; [|discriminate].
    destruct (expect_colon s3) as [s4|] eqn:C2; [|discriminate].
    destruct (match_directive two_S s4) as [[sec s5]|] eqn:ES; [|discriminate].
    destruct s5; [|discriminate].
    destruct (Z.leb_spec sec 59); [|discriminate].
    intros [= <-].
    pose proof EH as BH. pose proof EM as BM. pose proof ES as BS.
    apply (match_directive_bounds _ 24) in BH;
      [|lia|intros d1 d2 ? ?; unfold two_H; lia].
    apply (match_directive_bounds _ 60) in BM;
      [|lia|intros d1 d2 ? ?; unfold two_M; lia].
    apply (match_directive_bounds _ 62) in BS;
      [|lia|intros d1 d2 ? ?; unfold two_S; lia].
    apply match_directive_inv in EH as (ph & -> & _ & _).
    apply match_directive_inv in EM as (pm & -> & _ & _).
    apply match_directive_inv in ES as (ps & -> & _ & _).
    apply expect_colon_inv in C1 as ->. apply expect_colon_inv in C2 as ->.
    exists ph, pm, ps, h, m, sec. repeat split; try lia.
    unfold clock_text. rewrite string_app_nil_r. reflexivity.
  - intros (ph & pm & ps & h & m & s & Hh & Hm & Hs & -> & ->).
    assert (HH : two_H (h / 10) (h mod 10) = true)
      by (unfold two_H; Z.to_euclidean_division_equations; lia).
    assert (HM : two_M (m / 10) (m mod 10) = true)
      by (unfold two_M; Z.to_euclidean_division_equations; lia).
    assert (HS : two_S (s / 10) (s mod 10) = true)
      by (unfold two_S; Z.to_euclidean_division_equations; lia).
    unfold strptime_HMS, clock_text.
    rewrite (match_directive_field two_H ph h) by (lia || assumption || reflexivity).
    rewrite string_app_cons. cbn [expect_colon]. rewrite Ascii.eqb_refl.
    change ("" +:+ ?x) with x.
    rewrite (match_directive_field two_M pm m) by (lia || assumption || reflexivity).
    rewrite string_app_cons. cbn [expect_colon]. rewrite Ascii.eqb_refl.
    change ("" +:+ ?x) with x.
    rewrite <- (string_app_nil_r (field_text ps s)).
    rewrite (match_directive_field two_S ps s) by (lia || assumption || exact I).
    destruct (Z.leb_spec s 59); [reflexivity|lia].
Qed.

Lemma is_ascii_app s t : is_ascii (s +:+ t) = is_ascii s && is_ascii t.
Proof.
  induction s as [|c s IH]; [reflexivity|].
  rewrite string_app_cons. cbn [is_ascii]. rewrite IH, andb_assoc. reflexivity.
Qed.

Lemma is_ascii_field_text pad n : 0 <= n < 100 -> is_ascii (field_text pad n) = true.
Proof.
  intros Hn. destruct (two_digits_split n Hn) as (H1 & H2 & _).
  assert (Hd : forall d, 0 <= d <= 9 ->
                         (nat_of_ascii (digit_char d) <? 128)%nat = true).
  { intros d Hd.
    assert (d = 0 \/ d = 1 \/ d = 2 \/ d = 3 \/ d = 4 \/ d = 5 \/ d = 6 \/
            d = 7 \/ d = 8 \/ d = 9) as H by lia.
    repeat (destruct H as [-> | H]; [reflexivity|]). subst d. reflexivity. }
  unfold field_text, two_digits.
  destruct (pad || (10 <=? n)) eqn:E; cbn [is_ascii].
  - rewrite !Hd by assumption. reflexivity.
  - apply orb_false_iff in E as [_ E]. apply Z.leb_gt in E.
    rewrite Hd by lia. reflexivity.
Qed.

(** X5: Among the texts of ASCII characters, the default format accepts
    exactly the clock texts with hours below 24 and minutes and seconds
    below 60, each written in one or two digits, and the timestamp read is
    that time of day. (Texts with other characters, such as the decimal
    digits of other scripts, are outside the statement.) *)
Theorem strptime_HMS_clock_text (t : string) (d : datetime) :
  (is_ascii t = true ->
   strptime_HMS t = Ok d ->
   exists pad_h pad_m pad_s h m s,
     0 <= h < 24 /\ 0 <= m < 60 /\ 0 <= s < 60 /\
     t = clock_text pad_h pad_m pad_s h m s /\ d = time_of_day h m s) /\
  (forall pad_h pad_m pad_s h m s,
      0 <= h < 24 -> 0 <= m < 60 -> 0 <= s < 60 ->
      is_ascii (clock_text pad_h pad_m pad_s h m s) = true /\
      strptime_HMS (clock_text pad_h pad_m pad_s h m s) = Ok (time_of_day h m s)).
Proof.
  split.
  - intros _ H. apply strptime_HMS_clock_text_iff, H.
  - intros ph pm ps h m s Hh Hm Hs. split.
    + unfold clock_text. rewrite !is_ascii_app.
      rewrite !is_ascii_field_text by lia. reflexivity.
    + apply strptime_HMS_clock_text_iff.
      exists ph, pm, ps, h, m, s. repeat split; lia.
Qed.

Lemma strptime_HMS_clock_text_witness :
  strptime_HMS (clock_text true true true 9 15 30) = Ok (time_of_day 9 15 30) /\
  strptime_HMS (clock_text false false false 8 5 7) = Ok (time_of_day 8 5 7) /\
  clock_text false false false 8 5 7 = "8:5:7" /\
  is_ascii "8:5:7" = true /\
  exists pad_h pad_m pad_s h m s,
    0 <= h < 24 /\ 0 <= m < 60 /\ 0 <= s < 60 /\
    "8:5:7" = clock_text pad_h pad_m pad_s h m s /\
    time_of_day 8 5 7 = time_of_day h m s.
Proof.
  split; [|split; [|split; [reflexivity|split; [reflexivity|]]]].
  - apply (proj2 (strptime_HMS_clock_text "" (time_of_day 0 0 0))); lia.
  - apply (proj2 (strptime_HMS_clock_text "" (time_of_day 0 0 0))); lia.
  - apply (proj1 (strptime_HMS_clock_text "8:5:7" (time_of_day 8 5 7)));
      reflexivity.
Defined.

Lemma strptime_HMS_error s e : strptime_HMS s = Raise e -> e = ValueError.
Proof.
  unfold strptime_HMS.
  repeat match goal with
         | |- context [match ?x with _ => _ end] => destruct x
         end; congruence.
Qed.

Lemma Person_init_default_cases (so : string -> string -> result datetime)
  (nm : string) (rn : value) (t0 t1 t2 t3 t4 : string) :
  let made := Person_init so (VStr nm) rn (VStr t0) (VStr t1) (VStr t2)
                (VStr t3) (VStr t4) (VStr default_time_format) in
  (forall p, made = Ok p ->
             name p = nm /\ first_name p = first_token nm /\ race_number p = rn /\
             strptime_HMS t0 = Ok (start p) /\
             strptime_HMS t1 = Ok (pitstop_1 p) /\
             strptime_HMS t2 = Ok (pitstop_2 p) /\
             strptime_HMS t3 = Ok (pitstop_3 p) /\
             strptime_HMS t4 = Ok (finish p) /\
             times_of_day p) /\
  (Forall (fun t => is_ok (strptime_HMS t) = true) [t0; t1; t2; t3; t4] ->
   is_ok made = true) /\
  (Exists (fun t => is_ok (strptime_HMS t) = false) [t0; t1; t2; t3; t4] ->
   made = Raise ValueError).
Proof.
  intros made. subst made. unfold Person_init. cbn [mbind result_bind].
  rewrite split_space_first. cbn [mbind result_bind]. unfold strptime.
  change (String.eqb default_time_format default_time_format) with true.
  cbv iota.
  destruct (strptime_HMS t0) as [d0|e0] eqn:E0;
    [|pose proof (strptime_HMS_error _ _ E0); subst e0];
  (destruct (strptime_HMS t1) as [d1|e1] eqn:E1;
    [|pose proof (strptime_HMS_error _ _ E1); subst e1]);
  (destruct (strptime_HMS t2) as [d2|e2] eqn:E2;
    [|pose proof (strptime_HMS_error _ _ E2); subst e2]);
  (destruct (strptime_HMS t3) as [d3|e3] eqn:E3;
    [|pose proof (strptime_HMS_error _ _ E3); subst e3]);
  (destruct (strptime_HMS t4) as [d4|e4] eqn:E4;
    [|pose proof (strptime_HMS_error _ _ E4); subst e4]);
  cbn [mbind result_bind is_ok].
  all: split; [intros p Hp; try discriminate Hp|split].
  all: try (intros _; reflexivity).
  all: try (intros Hall; repeat (apply Forall_cons in Hall as [? Hall]);
            repeat match goal with
                   | E : strptime_HMS ?t = _, H : is_ok (strptime_HMS ?t) = _ |- _ =>
                       rewrite E in H; simpl in H
                   end;
            discriminate).
  - injection Hp as <-. simpl.
    apply strptime_HMS_time_of_day in E0, E1, E2, E3, E4.
    repeat (split; [reflexivity|]).
    exact (conj E0 (conj E1 (conj E2 (conj E3 E4)))).
  - intros Hex. exfalso.
    repeat (apply Exists_cons in Hex as [Hex|Hex];
            [rewrite ?E0, ?E1, ?E2, ?E3, ?E4 in Hex; discriminate Hex|]).
    apply Exists_nil in Hex. exact Hex.
Qed.

(** X6: The constructor called with a name and five texts in the default format:
    it succeeds exactly when the five texts are accepted, the participant
    then holds the name, its first token, the race number and the five times
    of day read; when one text is refused it raises [ValueError]. *)
Theorem Person_init_default_format (so : string -> string -> result datetime)
  (nm : string) (rn : value) (t0 t1 t2 t3 t4 : string) :
  let made := Person_init so (VStr nm) rn (VStr t0) (VStr t1) (VStr t2)
                (VStr t3) (VStr t4) (VStr default_time_format) in
  (forall p, made = Ok p ->
             name p = nm /\ first_name p = first_token nm /\ race_number p = rn /\
             strptime_HMS t0 = Ok (start p) /\
             strptime_HMS t1 = Ok (pitstop_1 p) /\
             strptime_HMS t2 = Ok (pitstop_2 p) /\
             strptime_HMS t3 = Ok (pitstop_3 p) /\
             strptime_HMS t4 = Ok (finish p) /\
             times_of_day p) /\
  (Forall (fun t => is_ok (strptime_HMS t) = true) [t0; t1; t2; t3; t4] ->
   is_ok made = true) /\
  (Exists (fun t => is_ok (strptime_HMS t) = false) [t0; t1; t2; t3; t4] ->
   made = Raise ValueError).
Proof. apply Person_init_default_cases. Qed.

Lemma Person_init_default_format_witness :
  let so := fun (_ _ : string) => Raise ValueError : result datetime in
  is_ok (Person_init so (VStr "Alex Smith") (VInt 643) (VStr "08:00:00")
           (VStr "09:15:30") (VStr "10:40:00") (VStr "12:05:10")
           (VStr "13:30:00") (VStr default_time_format)) = true /\
  Person_init so (VStr "Alex Smith") (VInt 643) (VStr "08:00:00")
    (VStr "09:15:30") (VStr "24:00:00") (VStr "12:05:10")
    (VStr "13:30:00") (VStr default_time_format) = Raise ValueError.
Proof.
  intros so. split.
  - apply (proj1 (proj2 (Person_init_default_format so "Alex Smith" (VInt 643)
                           "08:00:00" "09:15:30" "10:40:00" "12:05:10"
                           "13:30:00"))).
    repeat constructor.
  - apply (proj2 (proj2 (Person_init_default_format so "Alex Smith" (VInt 643)
                           "08:00:00" "09:15:30" "24:00:00" "12:05:10"
                           "13:30:00"))).
    right; right; left. reflexivity.
Defined.

(** ** More on the registry *)

Lemma sort_by_key_sorted_id {A : Type} (key : A -> Z) (l : list A) :
  StronglySorted (key_le key) l -> sort_by_key key l = l.
Proof.
  intros Hs. symmetry. apply sort_by_key_unique; [exact Hs|reflexivity].
Qed.

Lemma People_init_unfold l :
  People_init l =
    mk_People (sort_by_key total_time l)
      (bool_decide (NoDup (map name (sort_by_key total_time l)))).
Proof.
  unfold People_init.
  case_bool_decide as Hsize.
  - rewrite <- (length_map name) in Hsize.
    apply size_list_to_set_NoDup in Hsize.
    rewrite bool_decide_eq_true_2 by exact Hsize. reflexivity.
  - rewrite bool_decide_eq_false_2; [reflexivity|].
    intros Hnd. apply Hsize. rewrite <- (length_map name).
    apply size_list_to_set_NoDup, Hnd.
Qed.

(** X7: A list already in ascending order of total time is taken as it is, and
    building a registry from the participants of a registry gives the same
    registry. *)
Theorem People_init_sorted_input (l : list Person) :
  (StronglySorted (key_le total_time) l -> people (People_init l) = l) /\
  People_init (people (People_init l)) = People_init l.
Proof.
  split.
  - intros Hs. rewrite People_init_people. apply sort_by_key_sorted_id, Hs.
  - rewrite People_init_people. rewrite !People_init_unfold.
    rewrite (sort_by_key_sorted_id total_time (sort_by_key total_time l))
      by apply sort_by_key_sorted.
    reflexivity.
Qed.

Lemma People_init_sorted_input_witness :
  let early := participant "Bo Jones" (time_of_day 8 0 0) (time_of_day 9 10 0)
                 (time_of_day 10 35 0) (time_of_day 12 0 0) (time_of_day 13 20 0) in
  let late := participant "Alex Smith" (time_of_day 8 0 0) (time_of_day 9 15 30)
                (time_of_day 10 40 0) (time_of_day 12 5 10) (time_of_day 13 30 0) in
  StronglySorted (key_le total_time) [early; late] /\
  people (People_init [early; late]) = [early; late].
Proof.
  intros early late.
  assert (Hs : StronglySorted (key_le total_time) [early; late]).
  { repeat constructor. unfold key_le. vm_compute. discriminate. }
  split; [exact Hs|].
  exact (proj1 (People_init_sorted_input [early; late]) Hs).
Defined.

Lemma filter_bool_perm {A : Type} (f : A -> bool) (l l' : list A) :
  Permutation l l' -> Permutation (List.filter f l) (List.filter f l').
Proof.
  induction 1 as [|x l l' _ IH|x y l|l l' l'' _ IH1 _ IH2]; simpl.
  - constructor.
  - destruct (f x); [apply perm_skip|]; exact IH.
  - destruct (f x), (f y); try reflexivity. apply perm_swap.
  - etransitivity; eassumption.
Qed.

Lemma with_key_at_most_one {A : Type} (key : A -> Z) (k : Z) (l : list A) :
  NoDup (map key l) -> (length (with_key key k l) <= 1)%nat.
Proof.
  induction l as [|x l IH]; simpl; [lia|].
  intros Hnd. apply NoDup_cons in Hnd as [Hx Hnd].
  specialize (IH Hnd).
  destruct (Z.eqb_spec (key x) k) as [E|_]; [|exact IH].
  simpl. destruct (with_key key k l) as [|y rest] eqn:Ey; [simpl; lia|].
  exfalso. apply Hx.
  assert (Hin : In y (with_key key k l)) by (rewrite Ey; left; reflexivity).
  unfold with_key in Hin. apply filter_In in Hin as [Hin Hk].
  apply Z.eqb_eq in Hk. rewrite E, <- Hk.
  apply list_elem_of_In, in_map, Hin.
Qed.

Lemma short_perm_eq {A : Type} (l l' : list A) :
  (length l <= 1)%nat -> Permutation l l' -> l = l'.
Proof.
  intros Hlen Hp.
  destruct l as [|x [|y l]]; simpl in Hlen; try lia.
  - apply Permutation_nil in Hp. congruence.
  - apply Permutation_length_1_inv in Hp. congruence.
Qed.

(** X8: The name flag of the registry does not depend on the order in which the
    participants are given; when no two participants have the same total
    time, neither does the order of the registry. *)
Theorem People_init_order_of_input (l l' : list Person) :
  Permutation l l' ->
  use_first_name_in_plots (People_init l)
  = use_first_name_in_plots (People_init l') /\
  (NoDup (map total_time l) -> People_init l = People_init l').
Proof.
  intros Hp.
  assert (Hsorted : Permutation (sort_by_key total_time l)
                                (sort_by_key total_time l')).
  { rewrite <- !sort_by_key_perm. exact Hp. }
  assert (Hflag : bool_decide (NoDup (map name (sort_by_key total_time l)))
                  = bool_decide (NoDup (map name (sort_by_key total_time l')))).
  { apply bool_decide_ext. rewrite Hsorted. reflexivity. }
  rewrite !People_init_unfold. simpl. split; [exact Hflag|].
  intros Hnd. rewrite Hflag. f_equal.
  apply (sorted_stable_unique total_time); try apply sort_by_key_sorted.
  intros k. rewrite !sort_by_key_with_key.
  apply short_perm_eq; [apply with_key_at_most_one, Hnd|].
  apply filter_bool_perm, Hp.
Qed.

Lemma People_init_order_of_input_witness :
  let early := participant "Bo Jones" (time_of_day 8 0 0) (time_of_day 9 10 0)
                 (time_of_day 10 35 0) (time_of_day 12 0 0) (time_of_day 13 20 0) in
  let late := participant "Alex Smith" (time_of_day 8 0 0) (time_of_day 9 15 30)
                (time_of_day 10 40 0) (time_of_day 12 5 10) (time_of_day 13 30 0) in
  Permutation [early; late] [late; early] /\
  NoDup (map total_time [early; late]) /\
  People_init [early; late] = People_init [late; early].
Proof.
  intros early late.
  assert (Hp : Permutation [early; late] [late; early]) by apply perm_swap.
  assert (Hnd : NoDup (map total_time [early; late])).
  { apply NoDup_cons. split; [|apply NoDup_cons; split; [|apply NoDup_nil_2]].
    - intros H. apply list_elem_of_In in H. simpl in H.
      destruct H as [H|[]]. vm_compute in H. discriminate H.
    - intros H. inversion H. }
  split; [exact Hp|]. split; [exact Hnd|].
  exact (proj2 (People_init_order_of_input [early; late] [late; early] Hp) Hnd).
Defined.

Lemma min_from_lower_bound m xs :
  Forall (fun x => m <= x) xs -> Py.min_from m xs = m.
Proof.
  induction 1 as [|x xs Hx _ IH]; simpl; [reflexivity|].
  destruct (Z.ltb_spec x m); [lia|]. exact IH.
Qed.

(** X9: The first participant of a registry built from a list that is not empty
    has the smallest total time of all: it is the best time of the chart of
    the totals. *)
Theorem People_init_leader_first (l : list Person) :
  l <> [] ->
  exists leader rest,
    people (People_init l) = leader :: rest /\
    (forall q, q ∈ l -> total_time leader <= total_time q) /\
    Py.min (map total_time (people (People_init l))) = Ok (total_time leader).
Proof.
  intros Hne. rewrite People_init_people.
  pose proof (sort_by_key_perm total_time l) as Hp.
  pose proof (sort_by_key_sorted total_time l) as Hs.
  destruct (sort_by_key total_time l) as [|leader rest] eqn:E.
  { symmetry in Hp. apply Permutation_nil in Hp. contradiction. }
  exists leader, rest. split; [reflexivity|].
  apply StronglySorted_inv in Hs as [_ Hall].
  split.
  - intros q Hq. rewrite Hp in Hq.
    apply elem_of_cons in Hq as [->|Hq]; [lia|].
    rewrite Forall_forall in Hall. apply Hall, Hq.
  - simpl. f_equal. apply min_from_lower_bound.
    apply Forall_fmap. exact Hall.
Qed.

Lemma People_init_leader_first_witness :
  let early := participant "Bo Jones" (time_of_day 8 0 0) (time_of_day 9 10 0)
                 (time_of_day 10 35 0) (time_of_day 12 0 0) (time_of_day 13 20 0) in
  let late := participant "Alex Smith" (time_of_day 8 0 0) (time_of_day 9 15 30)
                (time_of_day 10 40 0) (time_of_day 12 5 10) (time_of_day 13 30 0) in
  [late; early] <> [] /\
  exists leader rest,
    people (People_init [late; early]) = leader :: rest /\
    (forall q, q ∈ [late; early] -> total_time leader <= total_time q) /\
    Py.min (map total_time (people (People_init [late; early])))
    = Ok (total_time leader).
Proof.
  intros early late.
  assert (Hne : [late; early] <> []) by discriminate.
  split; [exact Hne|].
  exact (People_init_leader_first [late; early] Hne).
Defined.

(** ** The calls of the charts *)

Lemma max_from_spec m xs :
  Py.max_from m xs ∈ m :: xs /\
  forall x, x ∈ m :: xs -> x <= Py.max_from m xs.
Proof.
  revert m. induction xs as [|y xs IH]; intros m; simpl.
  - split; [left|]. intros x Hx. apply list_elem_of_singleton in Hx. lia.
  - destruct (IH (if m <? y then y else m)) as [Hin Hle]. split.
    + apply elem_of_cons in Hin as [->|Hin].
      * destruct (m <? y); [right; left | left].
      * right; right; exact Hin.
    + intros x Hx.
      assert (Hmax : (if m <? y then y else m)
                     <= Py.max_from (if m <? y then y else m) xs)
        by (apply Hle; left).
      apply elem_of_cons in Hx as [->|Hx];
        [|apply elem_of_cons in Hx as [->|Hx]].
      * destruct (Z.ltb_spec m y); lia.
      * destruct (Z.ltb_spec m y); lia.
      * apply Hle. right. exact Hx.
Qed.

Lemma max_spec xs m :
  Py.max xs = Ok m -> m ∈ xs /\ forall x, x ∈ xs -> x <= m.
Proof.
  destruct xs as [|x xs]; [discriminate|].
  simpl. intros [= <-]. apply max_from_spec.
Qed.

Lemma total_bars_eq self ps : forall i times calls,
  total_bars self i ps times calls
  = (times ++ map total_time ps, calls ++ total_bar_calls self i ps).
Proof.
  induction ps as [|p ps IH]; intros i times calls; simpl.
  - rewrite !app_nil_r. reflexivity.
  - rewrite IH, <- !app_assoc. reflexivity.
Qed.

Lemma total_texts_eq times m ps : forall i calls,
  Py.min times = Ok m ->
  total_texts times i ps calls
  = Ok (calls ++ label_calls total_time m i ps).
Proof.
  intros i calls Hm. revert i calls.
  induction ps as [|p ps IH]; intros i calls; simpl.
  - rewrite app_nil_r. reflexivity.
  - rewrite Hm. simpl.
    destruct (total_time p =? m); rewrite IH, <- !app_assoc; reflexivity.
Qed.

Lemma times_range (time_of : Person -> Z) (ps : list Person) :
  ps <> [] ->
  exists m hi,
    Py.min (map time_of ps) = Ok m /\ Py.max (map time_of ps) = Ok hi /\
    (exists p, p ∈ ps /\ time_of p = m) /\
    (exists p, p ∈ ps /\ time_of p = hi) /\
    forall p, p ∈ ps -> m <= time_of p <= hi.
Proof.
  intros Hne.
  assert (Htimes : map time_of ps <> [])
    by (destruct ps; [congruence|discriminate]).
  destruct (min_nonempty _ Htimes) as [m Hm].
  destruct (max_nonempty _ Htimes) as [hi Hhi].
  destruct (min_spec _ _ Hm) as [Hmin Hlo]. destruct (max_spec _ _ Hhi) as [Hmax Hup].
  exists m, hi. split; [exact Hm|]. split; [exact Hhi|].
  split; [|split].
  - apply list_elem_of_fmap in Hmin as (p & -> & Hp). eauto.
  - apply list_elem_of_fmap in Hmax as (p & -> & Hp). eauto.
  - intros p Hp.
    split; [apply Hlo|apply Hup]; apply list_elem_of_fmap; eauto.
Qed.

Lemma plot_total_as_bar_eq self m hi :
  Py.min (map total_time (people self)) = Ok m ->
  Py.max (map total_time (people self)) = Ok hi ->
  plot_total_as_bar self
  = Ok (total_bar_calls self 0 (people self)
        ++ label_calls total_time m 0 (people self) ++ [SetLim m hi]).
Proof.
  intros Hm Hhi. unfold plot_total_as_bar.
  rewrite total_bars_eq. cbn [app].
  rewrite (total_texts_eq _ m) by exact Hm. cbn [mbind result_bind].
  rewrite Hm. cbn [mbind result_bind]. rewrite Hhi. cbn [mbind result_bind].
  rewrite <- app_assoc. reflexivity.
Qed.

(** X10: On a registry with participants, the chart of the totals draws one bar
    per participant in the order of the registry, coloured by position, then
    for each participant the total time and, unless it is the best, the gap
    to the best; the axis runs from the smallest to the largest total. The
    best [m] is the total of a participant and no total is below it; the
    largest [hi] is the total of a participant and no total is above it. *)
Theorem plot_total_as_bar_calls (self : People) :
  people self <> [] ->
  exists m hi,
    (exists p, p ∈ people self /\ total_time p = m) /\
    (exists p, p ∈ people self /\ total_time p = hi) /\
    (forall p, p ∈ people self -> m <= total_time p <= hi) /\
    plot_total_as_bar self
    = Ok (total_bar_calls self 0 (people self)
          ++ label_calls total_time m 0 (people self) ++ [SetLim m hi]).
Proof.
  intros Hne.
  destruct (times_range total_time (people self) Hne)
    as (m & hi & Hm & Hhi & Hmin & Hmax & Hr).
  exists m, hi. split; [exact Hmin|]. split; [exact Hmax|].
  split; [exact Hr|]. apply plot_total_as_bar_eq; assumption.
Qed.

Lemma plot_total_as_bar_calls_witness :
  let early := participant "Bo Jones" (time_of_day 8 0 0) (time_of_day 9 10 0)
                 (time_of_day 10 35 0) (time_of_day 12 0 0) (time_of_day 13 20 0) in
  let late := participant "Alex Smith" (time_of_day 8 0 0) (time_of_day 9 15 30)
                (time_of_day 10 40 0) (time_of_day 12 5 10) (time_of_day 13 30 0) in
  let registry := mk_People [early; late] true in
  people registry <> [] /\
  exists m hi,
    (exists p, p ∈ people registry /\ total_time p = m) /\
    (exists p, p ∈ people registry /\ total_time p = hi) /\
    (forall p, p ∈ people registry -> m <= total_time p <= hi) /\
    plot_total_as_bar registry
    = Ok (total_bar_calls registry 0 (people registry)
          ++ label_calls total_time m 0 (people registry) ++ [SetLim m hi]).
Proof.
  intros early late registry.
  assert (Hne : people registry <> []) by discriminate.
  split; [exact Hne|]. exact (plot_total_as_bar_calls registry Hne).
Defined.

Lemma get_leg_time_out_of_range p leg_no :
  leg_no < 1 \/ 4 < leg_no -> get_leg_time p leg_no = Raise ValueError.
Proof.
  intros H. unfold get_leg_time.
  destruct leg_no as [|q|q]; try reflexivity.
  destruct q as [[r|r|]|[r|r|]|]; try reflexivity; try lia;
    destruct r; try reflexivity; lia.
Qed.

(** X11: The chart of a leg raises [ValueError] for every leg number outside 1
    to 4, with or without participants. *)
Theorem plot_leg_as_bar_out_of_range (self : People) (leg_no : Z) :
  leg_no < 1 \/ 4 < leg_no ->
  plot_leg_as_bar self leg_no = Raise ValueError.
Proof.
  intros H. unfold plot_leg_as_bar.
  destruct (people self) as [|p ps]; [reflexivity|].
  simpl. rewrite (get_leg_time_out_of_range p leg_no H). reflexivity.
Qed.

Lemma plot_leg_as_bar_out_of_range_witness :
  let late := participant "Alex Smith" (time_of_day 8 0 0) (time_of_day 9 15 30)
                (time_of_day 10 40 0) (time_of_day 12 5 10) (time_of_day 13 30 0) in
  plot_leg_as_bar (mk_People [late] true) 5 = Raise ValueError /\
  plot_leg_as_bar (mk_People [late] true) 0 = Raise ValueError.
Proof.
  intros late. split; apply plot_leg_as_bar_out_of_range; lia.
Defined.

Section LegChart.

Variable self : People.
Variable leg_no : Z.
Variable time_of : Person -> Z.
Hypothesis time_of_ok : forall p, get_leg_time p leg_no = Ok (time_of p).

Lemma leg_bars_eq ps : forall times calls,
  leg_bars self leg_no ps times calls
  = Ok (times ++ map time_of ps,
        calls ++ map (fun p => Bar (plot_name self p) (time_of p)) ps).
Proof.
  induction ps as [|p ps IH]; intros times calls; simpl.
  - rewrite !app_nil_r. reflexivity.
  - rewrite time_of_ok. simpl. rewrite IH, <- !app_assoc. reflexivity.
Qed.

Lemma leg_texts_eq times m ps : forall i calls,
  Py.min times = Ok m ->
  leg_texts leg_no times i ps calls = Ok (calls ++ label_calls time_of m i ps).
Proof.
  intros i calls Hm. revert i calls.
  induction ps as [|p ps IH]; intros i calls; simpl.
  - rewrite app_nil_r. reflexivity.
  - rewrite time_of_ok. simpl. rewrite Hm. simpl.
    destruct (time_of p =? m); rewrite IH, <- !app_assoc; reflexivity.
Qed.

Lemma plot_leg_as_bar_eq m hi :
  Py.min (map time_of (people self)) = Ok m ->
  Py.max (map time_of (people self)) = Ok hi ->
  plot_leg_as_bar self leg_no
  = Ok (map (fun p => Bar (plot_name self p) (time_of p)) (people self)
        ++ label_calls time_of m 0 (people self) ++ [SetLim m hi]).
Proof.
  intros Hm Hhi. unfold plot_leg_as_bar.
  rewrite leg_bars_eq. cbn [app mbind result_bind].
  rewrite (leg_texts_eq _ m) by exact Hm. cbn [mbind result_bind].
  rewrite Hm. cbn [mbind result_bind]. rewrite Hhi. cbn [mbind result_bind].
  rewrite <- app_assoc. reflexivity.
Qed.

End LegChart.

(** X12: On a registry with participants and for a leg from 1 to 4, the chart of
    the leg draws one bar per participant in the order of the registry, then
    for each participant the time of the leg and, unless it is the best, the
    gap to the best; the axis runs from the smallest to the largest time.
    The best [m] is the time of a participant and no time is below it; the
    largest [hi] is the time of a participant and no time is above it. *)
Theorem plot_leg_as_bar_calls (self : People) (leg_no : Z) :
  1 <= leg_no <= 4 ->
  people self <> [] ->
  exists time_of m hi,
    (forall p, get_leg_time p leg_no = Ok (time_of p)) /\
    (exists p, p ∈ people self /\ time_of p = m) /\
    (exists p, p ∈ people self /\ time_of p = hi) /\
    (forall p, p ∈ people self -> m <= time_of p <= hi) /\
    plot_leg_as_bar self leg_no
    = Ok (map (fun p => Bar (plot_name self p) (time_of p)) (people self)
          ++ label_calls time_of m 0 (people self) ++ [SetLim m hi]).
Proof.
  intros Hleg Hne.
  destruct (get_leg_time_selector leg_no Hleg) as [time_of Hsel].
  destruct (times_range time_of (people self) Hne)
    as (m & hi & Hm & Hhi & Hmin & Hmax & Hr).
  exists time_of, m, hi. split; [exact Hsel|].
  split; [exact Hmin|]. split; [exact Hmax|]. split; [exact Hr|].
  apply plot_leg_as_bar_eq; assumption.
Qed.

Lemma plot_leg_as_bar_calls_witness :
  let early := participant "Bo Jones" (time_of_day 8 0 0) (time_of_day 9 10 0)
                 (time_of_day 10 35 0) (time_of_day 12 0 0) (time_of_day 13 20 0) in
  let late := participant "Alex Smith" (time_of_day 8 0 0) (time_of_day 9 15 30)
                (time_of_day 10 40 0) (time_of_day 12 5 10) (time_of_day 13 30 0) in
  let registry := mk_People [early; late] true in
  1 <= 2 <= 4 /\ people registry <> [] /\
  exists time_of m hi,
    (forall p, get_leg_time p 2 = Ok (time_of p)) /\
    (exists p, p ∈ people registry /\ time_of p = m) /\
    (exists p, p ∈ people registry /\ time_of p = hi) /\
    (forall p, p ∈ people registry -> m <= time_of p <= hi) /\
    plot_leg_as_bar registry 2
    = Ok (map (fun p => Bar (plot_name registry p) (time_of p)) (people registry)
          ++ label_calls time_of m 0 (people registry) ++ [SetLim m hi]).
Proof.
  intros early late registry.
  assert (Hleg : 1 <= 2 <= 4) by lia.
  assert (Hne : people registry <> []) by discriminate.
  split; [exact Hleg|]. split; [exact Hne|].
  exact (plot_leg_as_bar_calls registry 2 Hleg Hne).
Defined.

Lemma plot_axes_cases (self : People) :
  (people self = [] -> plot_axes self = Raise ValueError) /\
  (people self <> [] ->
   exists c1 c2 c3 c4 ct,
     plot_axes self = Ok [c1; c2; c3; c4; ct] /\
     plot_leg_as_bar self 1 = Ok c1 /\ plot_leg_as_bar self 2 = Ok c2 /\
     plot_leg_as_bar self 3 = Ok c3 /\ plot_leg_as_bar self 4 = Ok c4 /\
     plot_total_as_bar self = Ok ct).
Proof.
  split.
  - intros Hempty. unfold plot_axes, plot_legs, plot_leg_as_bar.
    rewrite Hempty. reflexivity.
  - intros Hne.
    assert (Hleg : forall n, 1 <= n <= 4 -> exists c, plot_leg_as_bar self n = Ok c).
    { intros n Hn.
      destruct (get_leg_time_selector n Hn) as [time_of Hsel].
      destruct (times_range time_of (people self) Hne) as (m & hi & Hm & Hhi & _).
      eexists. apply (plot_leg_as_bar_eq self n time_of Hsel m hi Hm Hhi). }
    destruct (Hleg 1 ltac:(lia)) as [c1 H1]. destruct (Hleg 2 ltac:(lia)) as [c2 H2].
    destruct (Hleg 3 ltac:(lia)) as [c3 H3]. destruct (Hleg 4 ltac:(lia)) as [c4 H4].
    destruct (times_range total_time (people self) Hne) as (m & hi & Hm & Hhi & _).
    pose proof (plot_total_as_bar_eq self m hi Hm Hhi) as Ht.
    eexists c1, c2, c3, c4, _.
    unfold plot_axes. cbn [plot_legs]. rewrite H1. cbn [mbind result_bind].
    rewrite H2. cbn [mbind result_bind]. rewrite H3. cbn [mbind result_bind].
    rewrite H4. cbn [mbind result_bind]. rewrite Ht. cbn [mbind result_bind app].
    repeat split; reflexivity.
Qed.

(** The default formatter fails on the first tick it is asked to label. *)
Lemma savefig_default_formatter chart charts :
  savefig (chart :: charts) = Raise TypeError.
Proof.
  cbn [savefig]. unfold tick_values.
  destruct (chart_limits chart) as [lo hi]. reflexivity.
Qed.

(** X13: [plot] never returns on a registry built with the default tick
    formatter. Without participants the chart of the first leg raises
    [ValueError]. With participants the charts of the legs 1 to 4 and the
    chart of the totals are filled, in this order and without a failure, and
    saving the figure then raises [TypeError]: the formatter calls
    [seconds_to_hours_mins] with the value and the position of a tick, and
    the method takes the value only. *)
Theorem plot_always_raises (self : People) :
  (people self = [] ->
   plot_axes self = Raise ValueError /\ plot self = Raise ValueError) /\
  (people self <> [] ->
   (exists c1 c2 c3 c4 ct,
       plot_axes self = Ok [c1; c2; c3; c4; ct] /\
       plot_leg_as_bar self 1 = Ok c1 /\ plot_leg_as_bar self 2 = Ok c2 /\
       plot_leg_as_bar self 3 = Ok c3 /\ plot_leg_as_bar self 4 = Ok c4 /\
       plot_total_as_bar self = Ok ct) /\
   plot self = Raise TypeError) /\
  (forall x pos, time_formatter x pos = Raise TypeError) /\
  (forall secs,
      call_seconds_to_hours_mins [secs] = Ok (seconds_to_hours_mins secs)).
Proof.
  destruct (plot_axes_cases self) as [Hempty Hfull].
  split; [|split; [|split]].
  - intros He. specialize (Hempty He). split; [exact Hempty|].
    unfold plot. rewrite Hempty. reflexivity.
  - intros Hne. destruct (Hfull Hne) as (c1 & c2 & c3 & c4 & ct & Haxes & Hrest).
    split; [exists c1, c2, c3, c4, ct; split; assumption|].
    unfold plot. rewrite Haxes. cbn [mbind result_bind].
    rewrite savefig_default_formatter. reflexivity.
  - intros x pos. reflexivity.
  - intros secs. reflexivity.
Qed.

Lemma plot_always_raises_witness :
  let late := participant "Alex Smith" (time_of_day 8 0 0) (time_of_day 9 15 30)
                (time_of_day 10 40 0) (time_of_day 12 5 10) (time_of_day 13 30 0) in
  plot (mk_People [] true) = Raise ValueError /\
  is_ok (plot_axes (mk_People [late] true)) = true /\
  plot (mk_People [late] true) = Raise TypeError.
Proof.
  intros late. split; [|split].
  - exact (proj2 (proj1 (plot_always_raises (mk_People [] true)) eq_refl)).
  - destruct (proj1 (proj1 (proj2 (plot_always_raises (mk_People [late] true)))
                       ltac:(discriminate)))
      as (c1 & c2 & c3 & c4 & ct & -> & _). reflexivity.
  - exact (proj2 (proj1 (proj2 (plot_always_raises (mk_People [late] true)))
                    ltac:(discriminate))).
Defined.

(** ** The keyword dictionary *)

Lemma row_pair_cells row :
  (length (Bs4.find_all "td" row) < 2)%nat /\ row_pair row = Raise IndexError \/
  (2 <= length (Bs4.find_all "td" row))%nat /\ is_ok (row_pair row) = true.
Proof.
  unfold row_pair, Py.slice_to2.
  destruct (Bs4.find_all "td" row) as [|c0 [|c1 cells]]; simpl.
  - left. split; [lia|reflexivity].
  - left. split; [lia|reflexivity].
  - right. split; [lia|reflexivity].
Qed.

Lemma row_pair_error row e : row_pair row = Raise e -> e = IndexError.
Proof.
  destruct (row_pair_cells row) as [[_ H]|[_ H]]; intros E; rewrite E in H.
  - congruence.
  - discriminate H.
Qed.

Lemma fill_data_dict_lookup rows pairs :
  Forall2 (fun r kv => row_pair r = Ok kv) rows pairs ->
  forall d, exists d',
    fill_data_dict rows d = Ok d' /\
    forall k, d' !! k = match last_value k pairs with
                        | Some v => Some (VStr v)
                        | None => d !! k
                        end.
Proof.
  induction 1 as [|r [key val] rows pairs Hr _ IH]; intros d.
  - exists d. split; [reflexivity|]. intros k. reflexivity.
  - cbn [fill_data_dict]. rewrite Hr. cbn [mbind result_bind].
    destruct (IH (<[key := VStr val]> d)) as (d' & Hfill & Hlook).
    exists d'. split; [exact Hfill|].
    intros k. rewrite Hlook. cbn [last_value].
    destruct (last_value k pairs); [reflexivity|].
    destruct (String.eqb_spec key k) as [->|Hne].
    + apply lookup_insert_eq.
    + apply lookup_insert_ne. exact Hne.
Qed.

Lemma fill_data_dict_pairs rows : forall d d',
  fill_data_dict rows d = Ok d' ->
  exists pairs, Forall2 (fun r kv => row_pair r = Ok kv) rows pairs.
Proof.
  induction rows as [|r rows IH]; intros d d'; simpl.
  - intros _. exists []. constructor.
  - intros H. apply bind_Ok in H as ([key val] & Hr & H).
    apply IH in H as [pairs Hpairs].
    exists ((key, val) :: pairs). constructor; assumption.
Qed.

Lemma fill_data_dict_short_row rows row : forall d,
  row ∈ rows -> row_pair row = Raise IndexError ->
  fill_data_dict rows d = Raise IndexError.
Proof.
  induction rows as [|r rows IH]; intros d Hin Hrow; [inversion Hin|].
  simpl. destruct (row_pair r) as [[key val]|e] eqn:Er.
  - simpl. apply IH; [|exact Hrow].
    apply elem_of_cons in Hin as [->|Hin]; [congruence|exact Hin].
  - apply row_pair_error in Er as ->. reflexivity.
Qed.

(** X14: The loop over the rows of the timing table: when every row has its two
    cells, each label ends up bound to the text of the last row that carries
    it, and an entry made before the loop is kept unless a row carries its
    key; a row with fewer than two cells makes the loop raise
    [IndexError]. *)
Theorem fill_data_dict_last_row_wins (rows : list Bs4.PageElement)
  (d : gmap string value) :
  (forall pairs,
      Forall2 (fun r kv => row_pair r = Ok kv) rows pairs ->
      exists d',
        fill_data_dict rows d = Ok d' /\
        forall k, d' !! k = match last_value k pairs with
                            | Some v => Some (VStr v)
                            | None => d !! k
                            end) /\
  (forall row, row ∈ rows -> (length (Bs4.find_all "td" row) < 2)%nat ->
               fill_data_dict rows d = Raise IndexError).
Proof.
  split.
  - intros pairs Hpairs. apply fill_data_dict_lookup, Hpairs.
  - intros row Hin Hshort. apply (fill_data_dict_short_row rows row d Hin).
    destruct (row_pair_cells row) as [[_ H]|[H _]]; [exact H|lia].
Qed.

Lemma fill_data_dict_last_row_wins_witness :
  let rows := map Pages.timing_row
                  [("Finish", "13:30:00"); ("Start", "08:00:00");
                   ("Finish", "13:45:00")] in
  let pairs := [("finish", "13:30:00"); ("start", "08:00:00");
                ("finish", "13:45:00")] in
  let short := Bs4.Tag "tr" [] [Pages.text_cell "td" "Finish"] in
  (exists d',
      fill_data_dict rows (<["name" := VStr "Alex Smith"]> ∅) = Ok d' /\
      d' !! "finish" = Some (VStr "13:45:00") /\
      d' !! "name" = Some (VStr "Alex Smith")) /\
  fill_data_dict (rows ++ [short]) ∅ = Raise IndexError.
Proof.
  intros rows pairs short. split.
  - destruct (proj1 (fill_data_dict_last_row_wins rows
                       (<["name" := VStr "Alex Smith"]> ∅)) pairs)
      as (d' & Hfill & Hlook).
    { repeat constructor. }
    exists d'. split; [exact Hfill|]. split.
    + rewrite Hlook. reflexivity.
    + rewrite Hlook. reflexivity.
  - apply (proj2 (fill_data_dict_last_row_wins (rows ++ [short]) ∅) short).
    + apply list_elem_of_In. simpl. auto.
    + simpl. lia.
Defined.

(** ** Failures and results of one extraction *)

Lemma Person_kwargs_inv so (d : gmap string value) p :
  Person_kwargs so d = Ok p ->
  (forall k, is_Some (d !! k) -> k ∈ Person_params) /\
  exists vn vr v0 v1 v2 v3 v4,
    d !! "name" = Some vn /\ d !! "race_number" = Some vr /\
    d !! "start" = Some v0 /\ d !! "pitstop_1" = Some v1 /\
    d !! "pitstop_2" = Some v2 /\ d !! "pitstop_3" = Some v3 /\
    d !! "finish" = Some v4 /\
    Person_init so vn vr v0 v1 v2 v3 v4
      (default (VStr default_time_format) (d !! "time_format")) = Ok p.
Proof.
  unfold Person_kwargs.
  destruct (forallb _ _) eqn:Ekeys; [|discriminate].
  intros H. split.
  - intros k [v Hv]. rewrite forallb_forall in Ekeys.
    specialize (Ekeys k). apply bool_decide_eq_true in Ekeys; [exact Ekeys|].
    apply in_map_iff. exists (k, v). split; [reflexivity|].
    apply list_elem_of_In, elem_of_map_to_list, Hv.
  - unfold required in H.
    destruct (d !! "name") as [vn|]; [|discriminate H].
    destruct (d !! "race_number") as [vr|]; [|discriminate H].
    destruct (d !! "start") as [v0|]; [|discriminate H].
    destruct (d !! "pitstop_1") as [v1|]; [|discriminate H].
    destruct (d !! "pitstop_2") as [v2|]; [|discriminate H].
    destruct (d !! "pitstop_3") as [v3|]; [|discriminate H].
    destruct (d !! "finish") as [v4|]; [|discriminate H].
    exists vn, vr, v0, v1, v2, v3, v4. repeat (split; [reflexivity|]). exact H.
Qed.

Lemma Person_kwargs_present so (d : gmap string value) vn vr v0 v1 v2 v3 v4 :
  (forall k, is_Some (d !! k) -> k ∈ Person_params) ->
  d !! "name" = Some vn -> d !! "race_number" = Some vr ->
  d !! "start" = Some v0 -> d !! "pitstop_1" = Some v1 ->
  d !! "pitstop_2" = Some v2 -> d !! "pitstop_3" = Some v3 ->
  d !! "finish" = Some v4 ->
  Person_kwargs so d
  = Person_init so vn vr v0 v1 v2 v3 v4
      (default (VStr default_time_format) (d !! "time_format")).
Proof.
  intros Hkeys Hn Hr H0 H1 H2 H3 H4. unfold Person_kwargs, required.
  rewrite Hn, Hr, H0, H1, H2, H3, H4.
  destruct (forallb _ _) eqn:Ekeys; [reflexivity|].
  exfalso. apply not_true_iff_false in Ekeys. apply Ekeys.
  apply forallb_forall. intros k Hk. apply bool_decide_eq_true.
  apply in_map_iff in Hk as ([k' v] & <- & Hk). apply Hkeys.
  apply list_elem_of_In, elem_of_map_to_list in Hk. simpl. eauto.
Qed.

Lemma Person_kwargs_missing so (d : gmap string value) k :
  k ∈ timing_fields -> d !! k = None -> Person_kwargs so d = Raise TypeError.
Proof.
  intros Hk Hnone.
  apply list_elem_of_In in Hk. simpl in Hk.
  unfold Person_kwargs, required.
  destruct (forallb _ _); [|reflexivity].
  destruct Hk as [<-|[<-|[<-|[<-|[<-|[]]]]]]; rewrite Hnone;
    repeat (match goal with
            | |- context [match d !! ?x with _ => _ end] =>
                destruct (d !! x) as [?|]
            end; cbn [mbind result_bind]; try reflexivity).
Qed.

Section ExtractionCases.

Variable requests_get : string -> result string.
Variable html_parser : string -> Bs4.PageElement.
Variable strptime_other : string -> string -> result datetime.
Variable print : string -> result unit.

Abbreviation extract :=
  (generate_person_from_race_nubmer requests_get html_parser strptime_other
     print).

(** The keywords with which the constructor is called. *)
Lemma parse_timings_pairs person_name n soup rows pairs :
  stats_rows soup = Ok rows ->
  Forall2 (fun r kv => row_pair r = Ok kv) rows pairs ->
  exists d : gmap string value,
    parse_timings strptime_other person_name n soup
    = Person_kwargs strptime_other d /\
    forall k, d !! k =
              match last_value k pairs with
              | Some v => Some (VStr v)
              | None =>
                  (<["race_number" := VInt n]>
                     (<["name" := VStr person_name]> (∅ : gmap string value)))
                    !! k
              end.
Proof.
  intros Hrows Hpairs. unfold parse_timings. rewrite Hrows.
  cbn [mbind result_bind].
  destruct (fill_data_dict_lookup rows pairs Hpairs
              (<["race_number" := VInt n]> (<["name" := VStr person_name]> ∅)))
    as (d & Hfill & Hlook).
  exists d. rewrite Hfill. split; [reflexivity|exact Hlook].
Qed.

Lemma extract_stage_two loc n content person_name href stats_content :
  requests_get (search_results_page_url loc n) = Ok content ->
  locate (html_parser content) = Ok (person_name, href) ->
  requests_get (base_url +:+ href) = Ok stats_content ->
  extract loc n
  = try_except
      (person ← parse_timings strptime_other person_name n
                              (html_parser stats_content);
       _ ← print (success_message n person_name);
       Ok person)
      (fun _ => extraction_error n).
Proof.
  intros Hget Hloc Hget2.
  unfold generate_person_from_race_nubmer, generate_person_body.
  rewrite Hget. cbn [mbind result_bind]. rewrite Hloc. cbn [mbind result_bind].
  rewrite Hget2. reflexivity.
Qed.

(** X15: The extraction fails with the error naming the race number when the
    search page cannot be fetched, when the page of the timings cannot be
    fetched, and when that page lacks the block of the splits or the table
    inside it. *)
Theorem extract_fetch_failures (loc : MightHikeLocation) (n : Z) :
  (forall e, requests_get (search_results_page_url loc n) = Raise e ->
             extract loc n = Raise (extraction_error n)) /\
  (forall content person_name href,
      requests_get (search_results_page_url loc n) = Ok content ->
      locate (html_parser content) = Ok (person_name, href) ->
      (forall e, requests_get (base_url +:+ href) = Raise e ->
                 extract loc n = Raise (extraction_error n)) /\
      (forall stats_content,
          requests_get (base_url +:+ href) = Ok stats_content ->
          (Bs4.find_attr "div" "id" "ctl00_Content_Main_divSplitGrid"
                         (html_parser stats_content) = None \/
           exists block,
             Bs4.find_attr "div" "id" "ctl00_Content_Main_divSplitGrid"
                           (html_parser stats_content) = Some block /\
             Bs4.find "table" block = None) ->
          extract loc n = Raise (extraction_error n))).
Proof.
  split.
  - intros e He. unfold generate_person_from_race_nubmer, generate_person_body.
    rewrite He. reflexivity.
  - intros content person_name href Hget Hloc. split.
    + intros e He. unfold generate_person_from_race_nubmer, generate_person_body.
      rewrite Hget. cbn [mbind result_bind]. rewrite Hloc.
      cbn [mbind result_bind]. rewrite He. reflexivity.
    + intros stats_content Hget2 Hpage.
      rewrite (extract_stage_two loc n content person_name href stats_content)
        by assumption.
      unfold parse_timings, stats_rows.
      destruct Hpage as [-> | (block & -> & Htable)]; [reflexivity|].
      simpl. rewrite Htable. reflexivity.
Qed.

(** X16: A data row of the timing table with fewer than two cells makes the
    extraction fail, whatever the other rows hold. *)
Theorem extract_short_row (loc : MightHikeLocation) (n : Z)
  (content person_name href stats_content : string)
  (rows : list Bs4.PageElement) (row : Bs4.PageElement) :
  requests_get (search_results_page_url loc n) = Ok content ->
  locate (html_parser content) = Ok (person_name, href) ->
  requests_get (base_url +:+ href) = Ok stats_content ->
  stats_rows (html_parser stats_content) = Ok rows ->
  row ∈ rows ->
  (length (Bs4.find_all "td" row) < 2)%nat ->
  parse_timings strptime_other person_name n (html_parser stats_content)
  = Raise IndexError /\
  extract loc n = Raise (extraction_error n).
Proof.
  intros Hget Hloc Hget2 Hrows Hin Hshort.
  assert (Hparse : parse_timings strptime_other person_name n
                                 (html_parser stats_content) = Raise IndexError).
  { unfold parse_timings. rewrite Hrows. cbn [mbind result_bind].
    rewrite (fill_data_dict_short_row rows row); [reflexivity|exact Hin|].
    destruct (row_pair_cells row) as [[_ H]|[H _]]; [exact H|lia]. }
  split; [exact Hparse|].
  rewrite (extract_stage_two loc n content person_name href stats_content)
    by assumption.
  rewrite Hparse. reflexivity.
Qed.

(** X17: When no row of the timing table carries the label of one of the five
    timing fields, the constructor call raises [TypeError] and the
    extraction fails. *)
Theorem extract_missing_field (loc : MightHikeLocation) (n : Z)
  (content person_name href stats_content : string)
  (rows : list Bs4.PageElement) (pairs : list (string * string)) (k : string) :
  requests_get (search_results_page_url loc n) = Ok content ->
  locate (html_parser content) = Ok (person_name, href) ->
  requests_get (base_url +:+ href) = Ok stats_content ->
  stats_rows (html_parser stats_content) = Ok rows ->
  Forall2 (fun r kv => row_pair r = Ok kv) rows pairs ->
  k ∈ timing_fields ->
  last_value k pairs = None ->
  parse_timings strptime_other person_name n (html_parser stats_content)
  = Raise TypeError /\
  extract loc n = Raise (extraction_error n).
Proof.
  intros Hget Hloc Hget2 Hrows Hpairs Hk Hnone.
  destruct (parse_timings_pairs person_name n _ rows pairs Hrows Hpairs)
    as (d & Hparse & Hlook).
  assert (Hd : d !! k = None).
  { rewrite Hlook, Hnone.
    apply list_elem_of_In in Hk. simpl in Hk.
    destruct Hk as [<-|[<-|[<-|[<-|[<-|[]]]]]]; reflexivity. }
  rewrite (Person_kwargs_missing _ d k Hk Hd) in Hparse.
  split; [exact Hparse|].
  rewrite (extract_stage_two loc n content person_name href stats_content)
    by assumption.
  rewrite Hparse. reflexivity.
Qed.

End ExtractionCases.

Lemma last_value_None k pairs :
  Forall (fun kv : string * string => kv.1 <> k) pairs ->
  last_value k pairs = None.
Proof.
  induction 1 as [|[k' v] pairs Hk _ IH]; simpl; [reflexivity|].
  rewrite IH. simpl in Hk.
  destruct (String.eqb_spec k' k); [contradiction|reflexivity].
Qed.

Lemma last_value_Some k pairs v :
  last_value k pairs = Some v -> (k, v) ∈ pairs.
Proof.
  induction pairs as [|[k' v'] pairs IH]; simpl; [discriminate|].
  destruct (last_value k pairs) as [w|].
  - intros [= <-]. right. apply IH. reflexivity.
  - destruct (String.eqb_spec k' k) as [->|]; [|discriminate].
    intros [= <-]. left.
Qed.

Lemma last_value_of_key k v pairs :
  (k, v) ∈ pairs -> is_Some (last_value k pairs).
Proof.
  induction pairs as [|[k' v'] pairs IH]; intros Hin; [inversion Hin|].
  simpl. destruct (last_value k pairs) as [w|] eqn:E; [eauto|].
  apply elem_of_cons in Hin as [[= <- <-]|Hin].
  - rewrite String.eqb_refl. eauto.
  - apply IH in Hin as [w Hw]. discriminate Hw.
Qed.

Lemma initial_keys (nm : string) (n : Z) (k : string) :
  (<["race_number" := VInt n]> (<["name" := VStr nm]> (∅ : gmap string value)))
    !! k
  = if String.eqb k "race_number" then Some (VInt n)
    else if String.eqb k "name" then Some (VStr nm) else None.
Proof.
  destruct (String.eqb_spec k "race_number") as [->|H1].
  - apply lookup_insert_eq.
  - rewrite lookup_insert_ne by congruence.
    destruct (String.eqb_spec k "name") as [->|H2].
    + apply lookup_insert_eq.
    + rewrite lookup_insert_ne by congruence. apply lookup_empty.
Qed.

Lemma timing_fields_params k : k ∈ timing_fields -> k ∈ Person_params.
Proof.
  intros Hk. apply list_elem_of_In in Hk. apply list_elem_of_In.
  simpl in *. tauto.
Qed.

Lemma Person_init_inv so vn rn v0 v1 v2 v3 v4 tf p :
  Person_init so vn rn v0 v1 v2 v3 v4 tf = Ok p ->
  vn = VStr (name p) /\ first_name p = first_token (name p) /\
  race_number p = rn /\
  strptime so v0 tf = Ok (start p) /\ strptime so v1 tf = Ok (pitstop_1 p) /\
  strptime so v2 tf = Ok (pitstop_2 p) /\ strptime so v3 tf = Ok (pitstop_3 p) /\
  strptime so v4 tf = Ok (finish p).
Proof.
  intros H. pose proof (Person_init_names _ _ _ _ _ _ _ _ _ _ H) as [Hn Hf].
  split; [exact Hn|]. split; [exact Hf|].
  unfold Person_init in H.
  apply bind_Ok in H as (n & _ & H). apply bind_Ok in H as (f & _ & H).
  apply bind_Ok in H as (d0 & E0 & H). apply bind_Ok in H as (d1 & E1 & H).
  apply bind_Ok in H as (d2 & E2 & H). apply bind_Ok in H as (d3 & E3 & H).
  apply bind_Ok in H as (d4 & E4 & H).
  injection H as <-. simpl. auto 10.
Qed.

Lemma strptime_default_time_of_day so v d :
  strptime so v (VStr default_time_format) = Ok d -> is_time_of_day d.
Proof.
  unfold strptime. destruct v as [t|z]; [|discriminate].
  change (String.eqb default_time_format default_time_format) with true.
  cbv iota. apply strptime_HMS_time_of_day.
Qed.

Section ExtractionResults.

Variable requests_get : string -> result string.
Variable html_parser : string -> Bs4.PageElement.
Variable strptime_other : string -> string -> result datetime.
Variable print : string -> result unit.

Abbreviation extract' :=
  (generate_person_from_race_nubmer requests_get html_parser strptime_other
     print).

(** X18: When the rows of the timing table carry the five timing labels and no
    other label, and the last text of each label is accepted by the default
    format, the extraction returns a participant as soon as the line that
    reports it can be printed: the participant has the name found on the
    search page, the race number asked for and the five times of day read.
    When one of the texts is refused, or when printing the line raises, the
    extraction fails with the error naming the race number. *)
Theorem extract_timing_rows (loc : MightHikeLocation) (n : Z)
  (content person_name href stats_content : string)
  (rows : list Bs4.PageElement) (pairs : list (string * string))
  (t0 t1 t2 t3 t4 : string) :
  requests_get (search_results_page_url loc n) = Ok content ->
  locate (html_parser content) = Ok (person_name, href) ->
  requests_get (base_url +:+ href) = Ok stats_content ->
  stats_rows (html_parser stats_content) = Ok rows ->
  Forall2 (fun r kv => row_pair r = Ok kv) rows pairs ->
  Forall (fun kv : string * string => kv.1 ∈ timing_fields) pairs ->
  last_value "start" pairs = Some t0 ->
  last_value "pitstop_1" pairs = Some t1 ->
  last_value "pitstop_2" pairs = Some t2 ->
  last_value "pitstop_3" pairs = Some t3 ->
  last_value "finish" pairs = Some t4 ->
  (Forall (fun t => is_ok (strptime_HMS t) = true) [t0; t1; t2; t3; t4] ->
   print (success_message n person_name) = Ok tt ->
   exists p,
     extract' loc n = Ok p /\
     name p = person_name /\ first_name p = first_token person_name /\
     race_number p = VInt n /\
     strptime_HMS t0 = Ok (start p) /\ strptime_HMS t1 = Ok (pitstop_1 p) /\
     strptime_HMS t2 = Ok (pitstop_2 p) /\ strptime_HMS t3 = Ok (pitstop_3 p) /\
     strptime_HMS t4 = Ok (finish p) /\ times_of_day p) /\
  (Exists (fun t => is_ok (strptime_HMS t) = false) [t0; t1; t2; t3; t4] ->
   extract' loc n = Raise (extraction_error n)) /\
  (forall e, print (success_message n person_name) = Raise e ->
             extract' loc n = Raise (extraction_error n)).
Proof.
  intros Hget Hloc Hget2 Hrows Hpairs Hlabels L0 L1 L2 L3 L4.
  destruct (parse_timings_pairs strptime_other person_name n _ rows pairs
              Hrows Hpairs) as (d & Hparse & Hlook).
  assert (Hother : forall k, k ∉ timing_fields -> last_value k pairs = None).
  { intros k Hk. apply last_value_None.
    eapply Forall_impl; [exact Hlabels|].
    intros kv Hkv Heq. subst k. exact (Hk Hkv). }
  assert (Hkeys : forall k, is_Some (d !! k) -> k ∈ Person_params).
  { intros k [v Hv]. rewrite Hlook in Hv.
    destruct (last_value k pairs) as [w|] eqn:E.
    - apply last_value_Some in E. rewrite Forall_forall in Hlabels.
      apply timing_fields_params. apply (Hlabels _ E).
    - rewrite initial_keys in Hv. apply list_elem_of_In. simpl.
      destruct (String.eqb_spec k "race_number") as [->|_]; [tauto|].
      destruct (String.eqb_spec k "name") as [->|_]; [tauto|discriminate]. }
  assert (Hnot : forall k, In k ["name"; "race_number"; "time_format"] ->
                           k ∉ timing_fields).
  { intros k Hk Hin. apply list_elem_of_In in Hin. simpl in Hk, Hin.
    destruct Hk as [<-|[<-|[<-|[]]]];
      repeat (destruct Hin as [Hin|Hin]; [discriminate Hin|]); exact Hin. }
  assert (Hname : d !! "name" = Some (VStr person_name)).
  { rewrite Hlook, Hother by (apply Hnot; simpl; tauto). apply initial_keys. }
  assert (Hrn : d !! "race_number" = Some (VInt n)).
  { rewrite Hlook, Hother by (apply Hnot; simpl; tauto). apply initial_keys. }
  assert (Htf : d !! "time_format" = None).
  { rewrite Hlook, Hother by (apply Hnot; simpl; tauto). apply initial_keys. }
  assert (H0 : d !! "start" = Some (VStr t0)) by (rewrite Hlook, L0; reflexivity).
  assert (H1 : d !! "pitstop_1" = Some (VStr t1)) by (rewrite Hlook, L1; reflexivity).
  assert (H2 : d !! "pitstop_2" = Some (VStr t2)) by (rewrite Hlook, L2; reflexivity).
  assert (H3 : d !! "pitstop_3" = Some (VStr t3)) by (rewrite Hlook, L3; reflexivity).
  assert (H4 : d !! "finish" = Some (VStr t4)) by (rewrite Hlook, L4; reflexivity).
  rewrite (Person_kwargs_present _ d _ _ _ _ _ _ _ Hkeys Hname Hrn H0 H1 H2 H3 H4)
    in Hparse.
  rewrite Htf in Hparse. cbn [default] in Hparse.
  rewrite (extract_stage_two requests_get html_parser strptime_other print
             loc n content person_name href stats_content) by assumption.
  rewrite Hparse.
  destruct (Person_init_default_cases strptime_other person_name (VInt n)
              t0 t1 t2 t3 t4) as (Hok & Hall & Hex).
  split; [|split].
  - intros Hacc Hprint. specialize (Hall Hacc).
    destruct (Person_init _ _ _ _ _ _ _ _ _) as [p|e]; [|discriminate Hall].
    exists p. cbn [mbind result_bind]. rewrite Hprint.
    split; [reflexivity|]. apply Hok. reflexivity.
  - intros Hrej. rewrite (Hex Hrej). reflexivity.
  - intros e He.
    destruct (Person_init _ _ _ _ _ _ _ _ _) as [p|e']; [|reflexivity].
    cbn [mbind result_bind]. rewrite He. reflexivity.
Qed.

(** X19: A participant that the extraction returns: the first name is the first
    token of the name; every row of the timing table had its two cells and a
    label that is a parameter of the constructor, and each timing field was
    carried by a row; the name is the one of the search page unless a row is
    labelled as the name, the race number the one asked for unless a row is
    labelled as the race number, and the timestamps are times of day unless
    a row is labelled as the time format. *)
Theorem extract_result (loc : MightHikeLocation) (n : Z) (p : Person) :
  extract' loc n = Ok p ->
  first_name p = first_token (name p) /\
  exists content person_name href stats_content rows pairs,
    requests_get (search_results_page_url loc n) = Ok content /\
    locate (html_parser content) = Ok (person_name, href) /\
    requests_get (base_url +:+ href) = Ok stats_content /\
    stats_rows (html_parser stats_content) = Ok rows /\
    Forall2 (fun r kv => row_pair r = Ok kv) rows pairs /\
    Forall (fun kv : string * string => kv.1 ∈ Person_params) pairs /\
    (forall k, k ∈ timing_fields -> is_Some (last_value k pairs)) /\
    (last_value "name" pairs = None -> name p = person_name) /\
    (last_value "race_number" pairs = None -> race_number p = VInt n) /\
    (last_value "time_format" pairs = None -> times_of_day p).
Proof.
  intros H. unfold generate_person_from_race_nubmer, try_except in H.
  destruct (generate_person_body _ _ _ _ _) as [p'|e] eqn:Ebody; [|discriminate H].
  injection H as ->. unfold generate_person_body in Ebody.
  apply bind_Ok in Ebody as (content & Hget & Ebody).
  apply bind_Ok in Ebody as ([person_name href] & Hloc & Ebody).
  apply bind_Ok in Ebody as (stats_content & Hget2 & Ebody).
  apply bind_Ok in Ebody as (person & Ebody & Hprint).
  apply bind_Ok in Hprint as (printed & _ & Hprint). injection Hprint as ->.
  unfold parse_timings in Ebody.
  apply bind_Ok in Ebody as (rows & Hrows & Ebody).
  apply bind_Ok in Ebody as (d & Hfill & Hkw).
  destruct (fill_data_dict_pairs _ _ _ Hfill) as [pairs Hpairs].
  destruct (fill_data_dict_lookup rows pairs Hpairs
              (<["race_number" := VInt n]> (<["name" := VStr person_name]> ∅)))
    as (d' & Hfill' & Hlook).
  rewrite Hfill in Hfill'. injection Hfill' as <-.
  apply Person_kwargs_inv in Hkw
      as (Hkeys & vn & vr & v0 & v1 & v2 & v3 & v4
          & Hn & Hr & H0 & H1 & H2 & H3 & H4 & Hinit).
  apply Person_init_inv in Hinit
      as (Hvn & Hfirst & Hrace & S0 & S1 & S2 & S3 & S4).
  split; [exact Hfirst|].
  exists content, person_name, href, stats_content, rows, pairs.
  repeat (split; [assumption|]).
  split; [|split; [|split; [|split]]].
  - apply Forall_forall. intros [k v] Hkv. simpl. apply Hkeys.
    rewrite Hlook. destruct (last_value_of_key k v pairs Hkv) as [w ->]. eauto.
  - intros k Hk.
    assert (Hsome : is_Some (d !! k)).
    { apply list_elem_of_In in Hk. simpl in Hk.
      destruct Hk as [<-|[<-|[<-|[<-|[<-|[]]]]]]; eauto. }
    rewrite Hlook in Hsome.
    destruct (last_value k pairs) as [w|]; [eauto|].
    rewrite initial_keys in Hsome. destruct Hsome as [w Hw].
    apply list_elem_of_In in Hk. simpl in Hk.
    destruct Hk as [<-|[<-|[<-|[<-|[<-|[]]]]]]; discriminate Hw.
  - intros Hnone. rewrite Hlook, Hnone, initial_keys in Hn.
    simpl in Hn. congruence.
  - intros Hnone. rewrite Hlook, Hnone, initial_keys in Hr.
    simpl in Hr. congruence.
  - intros Hnone.
    assert (Htf : d !! "time_format" = None).
    { rewrite Hlook, Hnone. apply initial_keys. }
    rewrite Htf in S0, S1, S2, S3, S4. cbn [default] in S0, S1, S2, S3, S4.
    apply strptime_default_time_of_day in S0, S1, S2, S3, S4.
    exact (conj S0 (conj S1 (conj S2 (conj S3 S4)))).
Qed.

End ExtractionResults.

Lemma extract_fetch_failures_witness :
  generate_person_from_race_nubmer (fun _ => Raise RequestException)
    Pages.html_parser Pages.strptime_other Pages.print Jurassic_Coast 643
  = Raise (extraction_error 643) /\
  generate_person_from_race_nubmer one_get
    (one_parser (Bs4.Tag "[document]" [] [])) Pages.strptime_other Pages.print
    Jurassic_Coast 643
  = Raise (extraction_error 643).
Proof.
  split.
  - exact (proj1 (extract_fetch_failures (fun _ => Raise RequestException)
                    Pages.html_parser Pages.strptime_other Pages.print Jurassic_Coast 643)
             RequestException eq_refl).
  - exact (proj2 (proj2 (extract_fetch_failures one_get
                           (one_parser (Bs4.Tag "[document]" [] []))
                           Pages.strptime_other Pages.print Jurassic_Coast 643)
                    "search" "Alex Smith" "timings" eq_refl eq_refl)
             "timings" eq_refl (or_introl eq_refl)).
Defined.

Lemma extract_short_row_witness :
  let short := Bs4.Tag "tr" [] [Pages.text_cell "td" "Finish"] in
  let rows := map Pages.timing_row Pages.rows_643 ++ [short] in
  let stats :=
    Bs4.Tag "[document]" []
      [Bs4.Tag "div" [("id", "ctl00_Content_Main_divSplitGrid")]
         [Bs4.Tag "table" []
            (Bs4.Tag "tr" [] [Pages.text_cell "th" "Split"] :: rows)]] in
  (length (Bs4.find_all "td" short) < 2)%nat /\
  generate_person_from_race_nubmer one_get (one_parser stats)
    Pages.strptime_other Pages.print Jurassic_Coast 643
  = Raise (extraction_error 643).
Proof.
  intros short rows stats.
  assert (Hshort : (length (Bs4.find_all "td" short) < 2)%nat) by (simpl; lia).
  split; [exact Hshort|].
  refine (proj2 (extract_short_row one_get (one_parser stats)
                   Pages.strptime_other Pages.print Jurassic_Coast 643
                   "search" "Alex Smith" "timings" "timings" rows short
                   eq_refl eq_refl eq_refl eq_refl _ Hshort)).
  apply list_elem_of_In. simpl. auto 10.
Defined.

Lemma extract_missing_field_witness :
  let stats := Pages.stats_page [("Start", "08:00:00"); ("Pitstop 1", "09:15:30");
                                 ("Pitstop 2", "10:40:00");
                                 ("Pitstop 3", "12:05:10")] in
  ("finish" ∈ timing_fields) /\
  generate_person_from_race_nubmer one_get (one_parser stats)
    Pages.strptime_other Pages.print Jurassic_Coast 643
  = Raise (extraction_error 643).
Proof.
  intros stats.
  assert (Hk : "finish" ∈ timing_fields)
    by (apply list_elem_of_In; simpl; auto 10).
  split; [exact Hk|].
  refine (proj2 (extract_missing_field one_get (one_parser stats)
                   Pages.strptime_other Pages.print Jurassic_Coast 643
                   "search" "Alex Smith" "timings" "timings"
                   (map Pages.timing_row
                        [("Start", "08:00:00"); ("Pitstop 1", "09:15:30");
                         ("Pitstop 2", "10:40:00"); ("Pitstop 3", "12:05:10")])
                   [("start", "08:00:00"); ("pitstop_1", "09:15:30");
                    ("pitstop_2", "10:40:00"); ("pitstop_3", "12:05:10")]
                   "finish" eq_refl eq_refl eq_refl eq_refl _ Hk eq_refl)).
  repeat constructor.
Defined.

Lemma extract_timing_rows_witness :
  let stats := Pages.stats_page Pages.rows_643 in
  let late := Pages.stats_page [("Start", "08:00:00"); ("Pitstop 1", "09:15:30");
                                ("Pitstop 2", "10:40:00");
                                ("Pitstop 3", "12:05:10"); ("Finish", "25:00:00")] in
  (exists p,
      generate_person_from_race_nubmer one_get (one_parser stats)
        Pages.strptime_other Pages.print Jurassic_Coast 643 = Ok p /\
      name p = "Alex Smith" /\ race_number p = VInt 643 /\ times_of_day p) /\
  generate_person_from_race_nubmer one_get (one_parser late)
    Pages.strptime_other Pages.print Jurassic_Coast 643
  = Raise (extraction_error 643) /\
  generate_person_from_race_nubmer one_get (one_parser stats)
    Pages.strptime_other (fun _ => Raise ValueError) Jurassic_Coast 643
  = Raise (extraction_error 643).
Proof.
  intros stats late.
  assert (Hlabels : forall t : string,
             Forall (fun kv : string * string => kv.1 ∈ timing_fields)
               [("start", "08:00:00"); ("pitstop_1", "09:15:30");
                ("pitstop_2", "10:40:00"); ("pitstop_3", "12:05:10");
                ("finish", t)]).
  { intros t. repeat (apply Forall_cons; split;
                      [apply list_elem_of_In; simpl; auto 10|]).
    apply Forall_nil. exact I. }
  split.
  - destruct (proj1 (extract_timing_rows one_get (one_parser stats)
                       Pages.strptime_other Pages.print Jurassic_Coast 643
                       "search" "Alex Smith" "timings" "timings"
                       (map Pages.timing_row Pages.rows_643)
                       [("start", "08:00:00"); ("pitstop_1", "09:15:30");
                        ("pitstop_2", "10:40:00"); ("pitstop_3", "12:05:10");
                        ("finish", "13:30:00")]
                       "08:00:00" "09:15:30" "10:40:00" "12:05:10" "13:30:00"
                       eq_refl eq_refl eq_refl eq_refl
                       ltac:(repeat constructor) (Hlabels "13:30:00")
                       eq_refl eq_refl eq_refl eq_refl eq_refl)
               ltac:(repeat constructor) eq_refl)
      as (p & Hp & Hn & _ & Hr & _ & _ & _ & _ & _ & Ht).
    exists p. auto.
  - split.
    2: exact (proj2 (proj2 (extract_timing_rows one_get (one_parser stats)
                       Pages.strptime_other (fun _ => Raise ValueError)
                       Jurassic_Coast 643
                       "search" "Alex Smith" "timings" "timings"
                       (map Pages.timing_row Pages.rows_643)
                       [("start", "08:00:00"); ("pitstop_1", "09:15:30");
                        ("pitstop_2", "10:40:00"); ("pitstop_3", "12:05:10");
                        ("finish", "13:30:00")]
                       "08:00:00" "09:15:30" "10:40:00" "12:05:10" "13:30:00"
                       eq_refl eq_refl eq_refl eq_refl
                       ltac:(repeat constructor) (Hlabels "13:30:00")
                       eq_refl eq_refl eq_refl eq_refl eq_refl))
                ValueError eq_refl).
    refine (proj1 (proj2 (extract_timing_rows one_get (one_parser late)
                     Pages.strptime_other Pages.print Jurassic_Coast 643
                     "search" "Alex Smith" "timings" "timings"
                     (map Pages.timing_row
                          [("Start", "08:00:00"); ("Pitstop 1", "09:15:30");
                           ("Pitstop 2", "10:40:00"); ("Pitstop 3", "12:05:10");
                           ("Finish", "25:00:00")])
                     [("start", "08:00:00"); ("pitstop_1", "09:15:30");
                      ("pitstop_2", "10:40:00"); ("pitstop_3", "12:05:10");
                      ("finish", "25:00:00")]
                     "08:00:00" "09:15:30" "10:40:00" "12:05:10" "25:00:00"
                     eq_refl eq_refl eq_refl eq_refl
                     ltac:(repeat constructor) (Hlabels "25:00:00")
                     eq_refl eq_refl eq_refl eq_refl eq_refl)) _).
    do 4 right. left. reflexivity.
Defined.

Lemma extract_result_witness :
  exists p,
    generate_person_from_race_nubmer Pages.requests_get Pages.html_parser
      Pages.strptime_other Pages.print Jurassic_Coast 643 = Ok p /\
    first_name p = first_token (name p).
Proof.
  destruct (generate_person_from_race_nubmer Pages.requests_get
              Pages.html_parser Pages.strptime_other Pages.print Jurassic_Coast 643)
    as [p|e] eqn:E; [|vm_compute in E; discriminate E].
  exists p. split; [reflexivity|].
  exact (proj1 (extract_result Pages.requests_get Pages.html_parser
                  Pages.strptime_other Pages.print Jurassic_Coast 643 p E)).
Defined.

(** ** Labels of the rows *)

Lemma normalise_char_facts (c : ascii) :
  let norm (x : ascii) :=
    (if Ascii.eqb (Py.lower_char x) " " then "_" else Py.lower_char x)%char in
  norm (norm c) = norm c /\
  Ascii.eqb (norm c) " " = false /\
  ((65 <=? nat_of_ascii (norm c)) && (nat_of_ascii (norm c) <=? 90))%nat = false /\
  norm (Py.lower_char c) = norm c.
Proof.
  destruct c as [[] [] [] [] [] [] [] []]; vm_compute; auto.
Qed.

Lemma normalise_label_cons c s :
  normalise_label (String c s)
  = String (if Ascii.eqb (Py.lower_char c) " " then "_" else Py.lower_char c)%char
           (normalise_label s).
Proof. reflexivity. Qed.

Lemma normalise_label_facts (label : string) :
  normalise_label (normalise_label label) = normalise_label label /\
  has_space (normalise_label label) = false /\
  has_upper (normalise_label label) = false /\
  String.length (normalise_label label) = String.length label /\
  normalise_label (Py.lower label) = normalise_label label.
Proof.
  induction label as [|c s (IH1 & IH2 & IH3 & IH4 & IH5)].
  - repeat split.
  - destruct (normalise_char_facts c) as (F1 & F2 & F3 & F4).
    cbv zeta in F1, F2, F3, F4.
    change (Py.lower (String c s)) with (String (Py.lower_char c) (Py.lower s)).
    rewrite !normalise_label_cons.
    cbn [has_space has_upper String.length].
    rewrite F1, F2, F3, F4, IH1, IH2, IH3, IH4, IH5. repeat split.
Qed.

(** X20: For a label of ASCII characters, the normalised label has the length
    of the label, holds no space and no capital letter, and normalising it
    again or lowering the label first changes nothing. (Labels with other
    characters, whose lower case can be longer, are outside the
    statement.) *)
Theorem normalise_label_canonical (label : string) :
  is_ascii label = true ->
  normalise_label (normalise_label label) = normalise_label label /\
  has_space (normalise_label label) = false /\
  has_upper (normalise_label label) = false /\
  String.length (normalise_label label) = String.length label /\
  normalise_label (Py.lower label) = normalise_label label.
Proof. intros _. apply normalise_label_facts. Qed.

Lemma normalise_label_canonical_witness :
  is_ascii "Pitstop 1" = true /\
  normalise_label "Pitstop 1" = "pitstop_1" /\
  normalise_label (normalise_label "Pitstop 1") = normalise_label "Pitstop 1" /\
  has_space (normalise_label "Pitstop 1") = false.
Proof.
  assert (Ha : is_ascii "Pitstop 1" = true) by reflexivity.
  pose proof (normalise_label_canonical "Pitstop 1" Ha) as (H1 & H2 & _).
  split; [exact Ha|]. split; [reflexivity|]. split; [exact H1|exact H2].
Defined.

(** ** The registry of a batch *)

Section BatchResults.

Variable requests_get : string -> result string.
Variable html_parser : string -> Bs4.PageElement.
Variable strptime_other : string -> string -> result datetime.
Variable print : string -> result unit.


End BatchResults.


(** ** The prompts *)

Lemma MightHikeLocation_of_inv v l :
  MightHikeLocation_of v = Ok l -> location_value l = v.
Proof.
  intros H. destruct v as [|q|q]; try discriminate H.
  do 16 (try (destruct q as [q|q|]; try discriminate H)).
  all: injection H as <-; reflexivity.
Qed.

Section PromptFacts.

Variable int : string -> result Z.

Lemma read_location_Some line location :
  read_location int line = Some location ->
  int line = Ok (location_value location).
Proof.
  unfold read_location.
  destruct (int line) as [id|]; [|discriminate].
  destruct (MightHikeLocation_of id) as [l|] eqn:E; [|discriminate].
  intros [= <-]. apply MightHikeLocation_of_inv in E. congruence.
Qed.

Lemma read_race_number_Some line n :
  read_race_number int line = Some n -> int line = Ok n /\ 0 <= n.
Proof.
  unfold read_race_number.
  destruct (int line) as [m|]; [|discriminate].
  destruct (Z.leb_spec 0 m); [|discriminate].
  intros [= <-]. auto.
Qed.

Lemma ask_for_location_loop_spec lines : forall ask written,
  match ask_for_location_loop int ask lines written with
  | Answer location c' =>
      exists refused line,
        lines = refused ++ line :: stdin c' /\
        Forall (fun l => read_location int l = None) refused /\
        read_location int line = Some location /\
        stdout c' = written ++ ask
                      :: repeat location_retry_prompt (length refused)
  | EndOfInput => Forall (fun l => read_location int l = None) lines
  end.
Proof.
  induction lines as [|line lines IH]; intros ask written; simpl.
  - constructor.
  - destruct (read_location int line) as [location|] eqn:E.
    + exists [], line. simpl. repeat split; [constructor|exact E].
    + specialize (IH location_retry_prompt (written ++ [ask])).
      destruct (ask_for_location_loop int location_retry_prompt lines
                  (written ++ [ask])) as [location c'|].
      * destruct IH as (refused & l & -> & Href & Hl & Hout).
        exists (line :: refused), l. simpl.
        split; [reflexivity|]. split; [constructor; assumption|].
        split; [exact Hl|]. rewrite Hout, <- app_assoc. reflexivity.
      * constructor; assumption.
Qed.

(** X22: [ask_for_location] skips the lines that are no identifier of a location
    and answers the location whose identifier is the first line that is one;
    it leaves the lines after it, and has written the first prompt and one
    retry prompt for each line skipped. It ends on the end of the input
    exactly when no line is an identifier of a location. *)
Theorem ask_for_location_answer (c : console) :
  (forall location c',
      ask_for_location int c = Answer location c' ->
      exists refused line,
        stdin c = refused ++ line :: stdin c' /\
        Forall (fun l => read_location int l = None) refused /\
        int line = Ok (location_value location) /\
        stdout c' = stdout c ++ location_prompt
                      :: repeat location_retry_prompt (length refused)) /\
  (ask_for_location int c = EndOfInput <->
   Forall (fun l => read_location int l = None) (stdin c)).
Proof.
  unfold ask_for_location.
  pose proof (ask_for_location_loop_spec (stdin c) location_prompt (stdout c))
    as Hspec.
  destruct (ask_for_location_loop int location_prompt (stdin c) (stdout c))
    as [location c'|].
  - destruct Hspec as (refused & line & Hlines & Href & Hline & Hout). split.
    + intros l c'' [= <- <-]. exists refused, line.
      split; [exact Hlines|]. split; [exact Href|].
      split; [apply read_location_Some, Hline|exact Hout].
    + split; [discriminate|]. intros Hall. exfalso.
      rewrite Hlines in Hall. apply Forall_app in Hall as [_ Hall].
      apply Forall_cons in Hall as [Hall _]. congruence.
  - split; [discriminate|]. split; [intros _; exact Hspec|reflexivity].
Qed.

Lemma ask_for_race_number_loop_spec lines : forall ask written,
  match ask_for_race_number_loop int ask lines written with
  | Answer n c' =>
      exists refused line,
        lines = refused ++ line :: stdin c' /\
        Forall (fun l => read_race_number int l = None) refused /\
        read_race_number int line = Some n /\
        stdout c' = written ++ ask
                      :: repeat race_number_retry_prompt (length refused)
  | EndOfInput => Forall (fun l => read_race_number int l = None) lines
  end.
Proof.
  induction lines as [|line lines IH]; intros ask written; simpl.
  - constructor.
  - destruct (read_race_number int line) as [n|] eqn:E.
    + exists [], line. simpl. repeat split; [constructor|exact E].
    + specialize (IH race_number_retry_prompt (written ++ [ask])).
      destruct (ask_for_race_number_loop int race_number_retry_prompt lines
                  (written ++ [ask])) as [n c'|].
      * destruct IH as (refused & l & -> & Href & Hl & Hout).
        exists (line :: refused), l. simpl.
        split; [reflexivity|]. split; [constructor; assumption|].
        split; [exact Hl|]. rewrite Hout, <- app_assoc. reflexivity.
      * constructor; assumption.
Qed.

(** X23: [ask_for_race_number] answers the first line that is an integer and is
    not negative, skipping the lines before it with one retry prompt each;
    it never answers a negative number. It ends on the end of the input
    exactly when no line is such an integer. *)
Theorem ask_for_race_number_answer (c : console) :
  (forall n c',
      ask_for_race_number int c = Answer n c' ->
      0 <= n /\
      exists refused line,
        stdin c = refused ++ line :: stdin c' /\
        Forall (fun l => read_race_number int l = None) refused /\
        int line = Ok n /\
        stdout c' = stdout c ++ race_number_prompt
                      :: repeat race_number_retry_prompt (length refused)) /\
  (ask_for_race_number int c = EndOfInput <->
   Forall (fun l => read_race_number int l = None) (stdin c)).
Proof.
  unfold ask_for_race_number.
  pose proof (ask_for_race_number_loop_spec (stdin c) race_number_prompt
                (stdout c)) as Hspec.
  destruct (ask_for_race_number_loop int race_number_prompt (stdin c) (stdout c))
    as [n c'|].
  - destruct Hspec as (refused & line & Hlines & Href & Hline & Hout). split.
    + intros m c'' [= <- <-].
      apply read_race_number_Some in Hline as [Hint Hpos].
      split; [exact Hpos|]. exists refused, line. auto.
    + split; [discriminate|]. intros Hall. exfalso.
      rewrite Hlines in Hall. apply Forall_app in Hall as [_ Hall].
      apply Forall_cons in Hall as [Hall _]. congruence.
  - split; [discriminate|]. split; [intros _; exact Hspec|reflexivity].
Qed.

Lemma ask_for_race_number_consumes c n c1 :
  ask_for_race_number int c = Answer n c1 ->
  0 <= n /\
  exists used line, stdin c = used ++ line :: stdin c1 /\ int line = Ok n.
Proof.
  unfold ask_for_race_number. intros H.
  pose proof (ask_for_race_number_loop_spec (stdin c) race_number_prompt
                (stdout c)) as Hspec.
  rewrite H in Hspec. destruct Hspec as (refused & line & Hlines & _ & Hline & _).
  apply read_race_number_Some in Hline as [Hint Hpos].
  split; [exact Hpos|]. exists refused, line. auto.
Qed.

Lemma ask_for_race_numbers_loop_spec rounds : forall acc c,
  (length (stdin c) < rounds)%nat ->
  exists r,
    ask_for_race_numbers_loop int rounds acc c = Some r /\
    match r with
    | Answer ns c' =>
        exists new typed last,
          ns = acc ++ new /\ new <> [] /\
          Forall (fun n => 0 <= n) new /\
          Forall (fun n => exists line, line ∈ stdin c /\ int line = Ok n) new /\
          stdin c = typed ++ last :: stdin c' /\
          last ∈ no_more_strings
    | EndOfInput => True
    end.
Proof.
  induction rounds as [|rounds IH]; intros acc c Hlen; [lia|].
  cbn [ask_for_race_numbers_loop].
  destruct (ask_for_race_number int c) as [n c1|] eqn:E1;
    [|exists EndOfInput; split; [reflexivity|exact I]].
  apply ask_for_race_number_consumes in E1 as (Hpos & used & line & Hc & Hline).
  unfold input. destruct (stdin c1) as [|more rest] eqn:Ec1;
    [exists EndOfInput; split; [reflexivity|exact I]|].
  cbv beta iota zeta.
  assert (Hin : line ∈ stdin c).
  { rewrite Hc. apply elem_of_app. right. left. }
  case_bool_decide as Hmore.
  - eexists. split; [reflexivity|].
    exists [n], (used ++ [line]), more.
    split; [reflexivity|]. split; [discriminate|].
    split; [repeat constructor; exact Hpos|].
    split; [repeat constructor; eauto|].
    split; [rewrite Hc, <- app_assoc; reflexivity|exact Hmore].
  - destruct (IH (acc ++ [n])
                (mk_console rest (stdout c1 ++ [add_more_prompt])))
      as (r & Hr & Hspec).
    { simpl. rewrite Hc, length_app in Hlen. simpl in Hlen. lia. }
    exists r. split; [exact Hr|].
    destruct r as [ns c'|]; [|exact I].
    destruct Hspec as (new & typed & last & -> & _ & Hnew & Hfrom & Hrest & Hlast).
    simpl in Hrest, Hfrom.
    exists (n :: new), (used ++ line :: more :: typed), last.
    split; [rewrite <- app_assoc; reflexivity|]. split; [discriminate|].
    split; [constructor; assumption|]. split; [|split; [|exact Hlast]].
    + constructor; [eauto|].
      eapply Forall_impl; [exact Hfrom|].
      intros m (l & Hl & Hm). exists l. split; [|exact Hm].
      rewrite Hc. apply elem_of_app. right. right. right. exact Hl.
    + rewrite Hc, Hrest, <- app_assoc. reflexivity.
Qed.

(** X24: [ask_for_race_numbers] always comes to an end within the rounds it is
    given. The list it answers is never empty, holds no negative number,
    holds only integers typed on the lines given, and the last line read is
    one of the answers that stop the loop. *)
Theorem ask_for_race_numbers_answer (c : console) :
  is_Some (ask_for_race_numbers int c) /\
  forall ns c',
    ask_for_race_numbers int c = Some (Answer ns c') ->
    ns <> [] /\
    Forall (fun n => 0 <= n) ns /\
    Forall (fun n => exists line, line ∈ stdin c /\ int line = Ok n) ns /\
    exists typed last,
      stdin c = typed ++ last :: stdin c' /\ last ∈ no_more_strings.
Proof.
  unfold ask_for_race_numbers.
  destruct (ask_for_race_numbers_loop_spec (S (length (stdin c))) [] c
              ltac:(lia)) as (r & Hr & Hspec).
  rewrite Hr. split; [eauto|].
  intros ns c' [= ->].
  destruct Hspec as (new & typed & last & -> & Hne & Hpos & Hfrom & Hrest & Hlast).
  simpl. eauto 10.
Qed.

End PromptFacts.

Lemma ask_for_location_answer_witness :
  let c := mk_console ["x"; "20426"; "20440"; "7"] [] in
  ask_for_location decimal_int c
  = Answer Jurassic_Coast
      (mk_console ["7"] [location_prompt; location_retry_prompt;
                         location_retry_prompt]) /\
  exists refused line,
    stdin c = refused ++ line :: ["7"] /\
    Forall (fun l => read_location decimal_int l = None) refused /\
    decimal_int line = Ok (location_value Jurassic_Coast) /\
    [location_prompt; location_retry_prompt; location_retry_prompt]
    = stdout c ++ location_prompt
        :: repeat location_retry_prompt (length refused).
Proof.
  intros c. split; [reflexivity|].
  exact (proj1 (ask_for_location_answer decimal_int c) Jurassic_Coast
           (mk_console ["7"] [location_prompt; location_retry_prompt;
                              location_retry_prompt]) eq_refl).
Defined.

Lemma ask_for_race_number_answer_witness :
  let c := mk_console ["-4"; "six"; "643"; "n"] [] in
  ask_for_race_number decimal_int c
  = Answer 643 (mk_console ["n"] [race_number_prompt; race_number_retry_prompt;
                                  race_number_retry_prompt]) /\
  0 <= 643.
Proof.
  intros c. split; [reflexivity|].
  exact (proj1 (proj1 (ask_for_race_number_answer decimal_int c) 643
                  (mk_console ["n"] [race_number_prompt;
                                     race_number_retry_prompt;
                                     race_number_retry_prompt]) eq_refl)).
Defined.

Lemma ask_for_race_numbers_answer_witness :
  let c := mk_console ["-4"; "643"; "y"; "abc"; "644"; "n"; "rest"] [] in
  exists c',
    ask_for_race_numbers decimal_int c = Some (Answer [643; 644] c') /\
    stdin c' = ["rest"] /\
    [643; 644] <> [] /\ Forall (fun n => 0 <= n) [643; 644].
Proof.
  intros c.
  destruct (ask_for_race_numbers decimal_int c) as [[ns c'|]|] eqn:E;
    try (vm_compute in E; discriminate E).
  assert (Hns : ns = [643; 644] /\ stdin c' = ["rest"]).
  { vm_compute in E. injection E as <- <-. split; reflexivity. }
  destruct Hns as [-> Hrest].
  exists c'. split; [reflexivity|]. split; [exact Hrest|].
  destruct (proj2 (ask_for_race_numbers_answer decimal_int c) [643; 644] c' E)
    as (Hne & Hpos & _).
  split; assumption.
Defined.
